(** * IMOS: document indexing and retrieval-augmented answering

    A shallow embedding of the core of [streamlit_app.py] (with the text
    extraction helper of [gdrive_auth_streamlit.py]) and the properties its
    specification states about it.

    Numbers.  The program computes with NumPy [float64] values.  They are
    modelled over exact real arithmetic ([R]), extended with the special
    values IEEE-754 division produces ([nan], [+inf], [-inf]); rounding,
    overflow and underflow are not modelled.

    Strings.  A Python [str] is a Rocq [string], one character for one
    character.

    Effects.  Session state, the SQLite table and everything shown or
    requested are threaded through a state-and-exception monad over a
    [world]; the libraries and services outside the repository are the
    fields of a record of [collaborators]. *)

From Stdlib Require Import Reals Lra Lia List ZArith String Ascii Bool.
From Stdlib Require Import DecimalString.
From Stdlib Require Import Permutation Sorted.
Import ListNotations.

Local Open Scope R_scope.

(** ** Python exceptions and results *)

(** The exception classes the modelled code can meet.  [Foreign] stands for
    whatever a collaborator (Drive client, PDF reader, HTTP client, model
    loader) raises; its payload tells such exceptions apart. *)
Inductive exn : Type :=
| ValueError
| ZeroDivisionError
| AttributeError
| TypeError
| KeyError
| IndexError
| JSONDecodeError
| HTTPError (status : Z)
| Foreign (msg : string).

(** The outcome of evaluating a Python expression. *)
Inductive res (A : Type) : Type :=
| Ok (a : A)
| Raise (e : exn).
Arguments Ok {A} a.
Arguments Raise {A} e.

(** ** NumPy scalars and vectors *)

(** A [float64] scalar: a (real) number or one of the IEEE special values. *)
Inductive float64 : Type :=
| Fin (r : R)
| PInf
| NInf
| NaN.

(** A one-dimensional array of finite floats. *)
Definition vec : Type := list R.

(** The sum of the pairwise products, over the common prefix. *)
Fixpoint dot (a b : vec) : R :=
  match a, b with
  | x :: a', y :: b' => x * y + dot a' b'
  | _, _ => 0
  end.

(** [np.dot(a, b)] on 1-D arrays: the shapes must agree, else [ValueError]. *)
Definition np_dot (a b : vec) : res R :=
  if Nat.eqb (List.length a) (List.length b) then Ok (dot a b)
  else Raise ValueError.

(** [np.linalg.norm(a)]: the square root of [a . a]. *)
Definition np_norm (a : vec) : R := sqrt (dot a a).

(** Division of two [float64] scalars.  NumPy does not raise on a zero
    divisor: it warns and yields [nan] for 0/0 and a signed infinity
    otherwise. *)
Definition np_div (x y : R) : float64 :=
  if Req_dec_T y 0 then
    if Req_dec_T x 0 then NaN
    else if Rlt_dec 0 x then PInf else NInf
  else Fin (x / y).

(** [cosine_sim(a, b)]:
    [np.dot(a, b) / (np.linalg.norm(a) * np.linalg.norm(b))]. *)
Definition cosine_sim (a b : vec) : res float64 :=
  match np_dot a b with
  | Ok d => Ok (np_div d (np_norm a * np_norm b))
  | Raise e => Raise e
  end.

(** [x > t] for a float scalar [x] and a finite threshold [t]; every
    comparison with [nan] is false. *)
Definition float_gtb (x : float64) (t : R) : bool :=
  match x with
  | Fin r => if Rlt_dec t r then true else false
  | PInf => true
  | NInf => false
  | NaN => false
  end.

(** [x < y] on float scalars. *)
Definition float_ltb (x y : float64) : bool :=
  match x, y with
  | NaN, _ | _, NaN => false
  | _, NInf => false
  | NInf, _ => true
  | PInf, _ => false
  | Fin _, PInf => true
  | Fin r, Fin s => if Rlt_dec r s then true else false
  end.

(** ** Python strings and slices *)

Local Open Scope string_scope.

(** The newline character of the program's string literals. *)
Definition nl : string := String (ascii_of_nat 10) EmptyString.

(** [s[:n]] for a non-negative [n]: the first [n] characters. *)
Fixpoint str_take (n : nat) (s : string) : string :=
  match n, s with
  | S n', String c s' => String c (str_take n' s')
  | _, _ => EmptyString
  end.

(** Truthiness of a string: it is not empty. *)
Definition str_truthy (s : string) : bool :=
  match s with
  | EmptyString => false
  | String _ _ => true
  end.

(** [str(n)] for a non-negative integer. *)
Definition str_of_nat (n : nat) : string :=
  NilZero.string_of_uint (Nat.to_uint n).

(** [l[:k]] for any integer [k]; a negative [k] counts from the end. *)
Definition py_slice_to {A : Type} (k : Z) (l : list A) : list A :=
  if (0 <=? k)%Z then firstn (Z.to_nat k) l
  else firstn (List.length l - Z.to_nat (- k)) l.

(** [l[-n:]] for a positive [n]: the last [n] elements, or the whole list
    when it is shorter. *)
Definition py_last {A : Type} (n : nat) (l : list A) : list A :=
  skipn (List.length l - n) l.

(** ** Data model *)

(** The values a field of a conversation entry can hold. *)
Inductive pyval : Type :=
| PyNone
| PyBool (b : bool)
| PyInt (z : Z)
| PyStr (s : string).

(** [str(v)]. *)
Definition py_str (v : pyval) : string :=
  match v with
  | PyNone => "None"
  | PyBool true => "True"
  | PyBool false => "False"
  | PyInt z => NilZero.string_of_int (Z.to_int z)
  | PyStr s => s
  end.

(** The text kept in the [embedding] column.  [EmbJson v] is the text
    [json.dumps] gives for the list of floats [v]; [EmbRaw s] is any text
    [s] that is not JSON (the empty text included). *)
Inductive emb_text : Type :=
| EmbJson (v : vec)
| EmbRaw (s : string).

Definition emb_truthy (e : emb_text) : bool :=
  match e with
  | EmbJson _ => true
  | EmbRaw s => str_truthy s
  end.

(** [json.loads] on the text of an [embedding] column. *)
Definition json_loads (e : emb_text) : res vec :=
  match e with
  | EmbJson v => Ok v
  | EmbRaw _ => Raise JSONDecodeError
  end.

(** A row of table [pdf_documents].  [user_id] scopes the document,
    [file_id] is its external identifier ([UNIQUE NOT NULL]); [None] in a
    nullable column is SQL [NULL]. *)
Record row : Type := mk_row {
  r_id : Z;
  r_user_id : string;
  r_file_id : string;
  r_name : string;
  r_drive_link : string;
  r_modified_time : string;
  r_size : Z;
  r_parent : string;
  r_text_content : option string;
  r_embedding : option emb_text;
  r_last_indexed : Z
}.

(** An entry of a search result (the dict [semantic_search] builds). *)
Record hit : Type := mk_hit {
  h_file_id : string;
  h_name : string;
  h_drive_link : string;
  h_modified_time : string;
  h_size : Z;
  h_parent : string;
  h_snippet : string;
  h_score : float64
}.

(** A dict of the conversation history, restricted to the keys the program
    reads or writes; [None] is an absent key. *)
Record turn : Type := mk_turn {
  t_role : option pyval;
  t_content : option pyval;
  t_sources : option (list hit)
}.

(** An element of [st.session_state.conversation_history]: a dict, or any
    other value. *)
Inductive hist_entry : Type :=
| Dict (d : turn)
| NotDict (v : pyval).

(** A message of the chat-completion request. *)
Record message : Type := mk_message {
  m_role : pyval;
  m_content : string
}.

(** The JSON body posted to the chat-completion endpoint. *)
Record payload : Type := mk_payload {
  p_messages : list message;
  p_model : string;
  p_max_tokens : Z;
  p_temperature : R
}.

#[local] Set Warnings "-register-all".

(** A parsed JSON value; an object keeps its members in document order. *)
Inductive json : Type :=
| JNull
| JBool (b : bool)
| JNum (x : R)
| JStr (s : string)
| JArr (items : list json)
| JObj (members : list (string * json)).

(** What [requests.post] returns: the status code and the body, [None]
    when the body is not JSON ([response.json()] raises). *)
Record response : Type := mk_response {
  status_code : Z;
  body : option json
}.

(** An item of the Drive listing (the dicts of [list_all_pdfs]); the keys
    read with [.get] may be absent. *)
Record pdf_file : Type := mk_pdf {
  pdf_id : string;
  pdf_name : string;
  pdf_modifiedTime : option string;
  pdf_size : option Z;
  pdf_parent : option string
}.

(** The Google credentials object, as far as the program looks into it. *)
Record credentials : Type := mk_credentials {
  cred_valid : bool;
  cred_refresh_token : option string
}.

(** A Drive API client. *)
Inductive service : Type :=
| DriveService (c : credentials).

(** ** Effects *)

Inductive ui_kind : Type :=
| StError
| StWarning
| StSuccess
| StInfo
| StWrite
| StatusText.

(** What the program does to the outside: what it renders and which
    collaborators it calls. *)
Inductive event : Type :=
| Ui (k : ui_kind) (msg : string)
| Progress (done total : nat)
| ShowSources (sources : list hit)
| LoadModel (name : string)
| Encode (model text : string)
| DbRead (scope : option string)
| DbWrite (file_id : string)
| DriveFetch (file_id : string)
| HttpPost (url key : string) (p : payload)
| Rerun.

(** The state the program runs in: the table, the session and the events
    so far, oldest first. *)
Record world : Type := mk_world {
  db : list row;
  db_seq : Z;
  clock : Z;
  embed_model : option string;
  ss_user_id : string;
  google_credentials : option credentials;
  conversation_history : list hist_entry;
  import_complete : bool;
  log : list event
}.

Definition set_db (rows : list row) (seq : Z) (w : world) : world :=
  mk_world rows seq (clock w) (embed_model w) (ss_user_id w)
    (google_credentials w) (conversation_history w) (import_complete w)
    (log w).

Definition set_embed_model (m : option string) (w : world) : world :=
  mk_world (db w) (db_seq w) (clock w) m (ss_user_id w)
    (google_credentials w) (conversation_history w) (import_complete w)
    (log w).

Definition set_conversation_history (h : list hist_entry) (w : world)
  : world :=
  mk_world (db w) (db_seq w) (clock w) (embed_model w) (ss_user_id w)
    (google_credentials w) h (import_complete w) (log w).

Definition set_import_complete (b : bool) (w : world) : world :=
  mk_world (db w) (db_seq w) (clock w) (embed_model w) (ss_user_id w)
    (google_credentials w) (conversation_history w) b (log w).

Definition set_log (l : list event) (w : world) : world :=
  mk_world (db w) (db_seq w) (clock w) (embed_model w) (ss_user_id w)
    (google_credentials w) (conversation_history w) (import_complete w) l.

(** A computation: it may raise, and it changes the world either way. *)
Definition M (A : Type) : Type := world -> res A * world.

Definition ret {A : Type} (a : A) : M A := fun w => (Ok a, w).

Definition raise {A : Type} (e : exn) : M A := fun w => (Raise e, w).

Definition bind {A B : Type} (m : M A) (k : A -> M B) : M B :=
  fun w =>
    match m w with
    | (Ok a, w') => k a w'
    | (Raise e, w') => (Raise e, w')
    end.

(** [try: m  except Exception as e: h e]. *)
Definition try_except {A : Type} (m : M A) (h : exn -> M A) : M A :=
  fun w =>
    match m w with
    | (Ok a, w') => (Ok a, w')
    | (Raise e, w') => h e w'
    end.

Definition lift {A : Type} (r : res A) : M A := fun w => (r, w).

Definition get {A : Type} (f : world -> A) : M A := fun w => (Ok (f w), w).

Definition modify (f : world -> world) : M unit := fun w => (Ok tt, f w).

Definition emit (e : event) : M unit :=
  modify (fun w => set_log (log w ++ [e]) w).

Declare Scope py_scope.
Delimit Scope py_scope with py.
Notation "x <- m ;; k" := (bind m (fun x => k))
  (at level 61, m at next level, right associativity) : py_scope.
Notation "m ;;; k" := (bind m (fun _ => k))
  (at level 61, right associativity) : py_scope.
Local Open Scope py_scope.

Definition st_error (msg : string) : M unit := emit (Ui StError msg).
Definition st_warning (msg : string) : M unit := emit (Ui StWarning msg).
Definition st_success (msg : string) : M unit := emit (Ui StSuccess msg).
Definition st_info (msg : string) : M unit := emit (Ui StInfo msg).
Definition st_write (msg : string) : M unit := emit (Ui StWrite msg).
Definition status_text (msg : string) : M unit := emit (Ui StatusText msg).

(** ** The document store *)

(** [INSERT OR REPLACE INTO pdf_documents ...]: the row that holds the same
    [file_id] (the [UNIQUE] column) is deleted, and the new row is added
    under a fresh [AUTOINCREMENT] id, larger than every id used before. *)
Definition insert_or_replace (new : row) (rows : list row) : list row :=
  filter (fun r => negb (String.eqb (r_file_id r) (r_file_id new))) rows
  ++ [new].

(** [setup_db()]: [CREATE TABLE IF NOT EXISTS pdf_documents ...].  Every
    world holds the table, so it is left as it is. *)
Definition setup_db : M unit := ret tt.

(** [save_pdf_to_db(user_id, file_id, name, drive_link, modified_time, size,
    parent, text_content, embedding)]. *)
Definition save_pdf_to_db (user_id file_id name drive_link modified_time
    : string) (size : Z) (parent : string) (text_content : option string)
    (embedding : option emb_text) : M unit :=
  emit (DbWrite file_id) ;;;
  modify (fun w =>
    let id := (db_seq w + 1)%Z in
    let new := mk_row id user_id file_id name drive_link modified_time size
                 parent text_content embedding (clock w) in
    set_db (insert_or_replace new (db w)) id w).

(** The rows of [SELECT ... WHERE user_id = ? AND embedding IS NOT NULL]
    (with a scope) or [SELECT ... WHERE embedding IS NOT NULL] (without),
    in rowid order. *)
Definition select_embedded (scope : option string) (rows : list row)
  : list row :=
  filter (fun r =>
    match r_embedding r with
    | None => false
    | Some _ =>
        match scope with
        | Some u => String.eqb (r_user_id r) u
        | None => true
        end
    end) rows.

(** [SELECT COUNT( * ) FROM pdf_documents WHERE user_id = ?]. *)
Definition count_documents (u : string) (rows : list row) : nat :=
  List.length (filter (fun r => String.eqb (r_user_id r) u) rows).

(** ** Python's [sorted] *)

(** [sorted(l, key=key, reverse=True)] is a stable sort: a larger key comes
    first and elements with equal keys keep their order.  Insertion from
    the right realises it: an element passes only the strictly larger
    keys. *)
Fixpoint insert_desc {A : Type} (key : A -> float64) (x : A) (l : list A)
  : list A :=
  match l with
  | [] => [x]
  | y :: l' =>
      if float_ltb (key x) (key y) then y :: insert_desc key x l'
      else x :: y :: l'
  end.

Definition py_sorted_desc {A : Type} (key : A -> float64) (l : list A)
  : list A :=
  fold_right (insert_desc key) [] l.

(** ** Reading a chat-completion response *)

(** The member of a parsed object under key [k]; of two members with the
    same key the later one stays. *)
Fixpoint obj_get (k : string) (members : list (string * json))
  : option json :=
  match members with
  | [] => None
  | (k', v) :: rest =>
      match obj_get k rest with
      | Some v' => Some v'
      | None => if String.eqb k k' then Some v else None
      end
  end.

(** [j[k]] for a string key [k]. *)
Definition getitem_key (j : json) (k : string) : res json :=
  match j with
  | JObj members =>
      match obj_get k members with
      | Some v => Ok v
      | None => Raise KeyError
      end
  | _ => Raise TypeError
  end.

(** [j[0]]. *)
Definition getitem_0 (j : json) : res json :=
  match j with
  | JArr (x :: _) => Ok x
  | JArr [] => Raise IndexError
  | JObj _ => Raise KeyError
  | JStr (String c _) => Ok (JStr (String c EmptyString))
  | JStr EmptyString => Raise IndexError
  | _ => Raise TypeError
  end.

(** [response.raise_for_status()] of the [requests] library: it raises
    [HTTPError] for the client and server error codes, 400 to 599. *)
Definition raise_for_status (r : response) : res unit :=
  if ((400 <=? status_code r) && (status_code r <? 600))%Z
  then Raise (HTTPError (status_code r))
  else Ok tt.

(** [response.json()]. *)
Definition response_json (r : response) : res json :=
  match body r with
  | Some j => Ok j
  | None => Raise JSONDecodeError
  end.

(** ** The program *)

(** The collaborators of the core, outside the repository: the embedding
    models, the Google client, the PDF reader, the HTTP client, and two
    functions of the Python runtime. *)
Record collaborators : Type := mk_collaborators {
  (** [SentenceTransformer(name)]: [None] when the model loads. *)
  load_model : string -> option exn;
  (** [model.encode(text, convert_to_numpy=True)] for the model [name]. *)
  encode : string -> string -> res vec;
  (** [credentials.refresh(Request())]: [None] when it succeeds. *)
  refresh : credentials -> option exn;
  (** [build('drive', 'v3', credentials=...)]. *)
  build_drive : credentials -> res service;
  (** Download of a file and [extract_text()] of each of its pages. *)
  fetch_pages : service -> string -> res (list (res string));
  (** [requests.post(url, headers, json=payload)]. *)
  requests_post : string -> string -> payload -> res response;
  (** [s.strip()]. *)
  py_strip : string -> string;
  (** [str(e)] for an exception [e]. *)
  exn_str : exn -> string
}.

Section Program.

Variable E : collaborators.

(** *** Embedder *)

Definition SentenceTransformer (name : string) : M unit :=
  emit (LoadModel name) ;;;
  match load_model E name with
  | None => modify (set_embed_model (Some name))
  | Some e => raise e
  end.

(** [get_embed_model()]: the model of the session, loaded on first use,
    with one fallback. *)
Definition get_embed_model : M (option string) :=
  m <- get embed_model ;;
  (match m with
   | None =>
       try_except (SentenceTransformer "all-MiniLM-L6-v2")
         (fun e =>
            st_error ("Error loading embedding model: " ++ exn_str E e) ;;;
            try_except (SentenceTransformer "paraphrase-MiniLM-L3-v2")
              (fun e2 =>
                 st_error ("Failed to load fallback model: "
                           ++ exn_str E e2) ;;;
                 raise e2))
   | Some _ => ret tt
   end) ;;;
  get embed_model.

(** [model.encode(text, convert_to_numpy=True)]. *)
Definition model_encode (model : option string) (text : string) : M vec :=
  match model with
  | Some name => emit (Encode name text) ;;; lift (encode E name text)
  | None => raise AttributeError
  end.

(** [compute_embedding(text)]. *)
Definition compute_embedding (text : string) : M emb_text :=
  let text :=
    if (4000 <? String.length text)%nat then str_take 4000 text else text in
  model <- get_embed_model ;;
  emb <- model_encode model text ;;
  ret (EmbJson emb).

(** *** Retriever *)

(** The scope of a search: [if user_id:] holds for a non-empty string. *)
Definition scope_of (user_id : option string) : option string :=
  match user_id with
  | Some u => if str_truthy u then Some u else None
  | None => None
  end.

(** [row[6][:400] if row[6] else '']. *)
Definition snippet_of (text_content : option string) : string :=
  match text_content with
  | Some s => if str_truthy s then str_take 400 s else ""
  | None => ""
  end.

Definition hit_of (r : row) (score : float64) : hit :=
  mk_hit (r_file_id r) (r_name r) (r_drive_link r) (r_modified_time r)
    (r_size r) (r_parent r) (snippet_of (r_text_content r)) score.

(** The body of the [try] in the loop of [semantic_search]: the entry the
    row adds to [results], if any. *)
Definition score_row (query_emb : vec) (r : row) : res (option hit) :=
  match r_embedding r with
  | Some e =>
      if emb_truthy e then
        match json_loads e with
        | Ok pdf_emb =>
            match cosine_sim query_emb pdf_emb with
            | Ok score =>
                if float_gtb score (1 / 10) then Ok (Some (hit_of r score))
                else Ok None
            | Raise x => Raise x
            end
        | Raise x => Raise x
        end
      else Ok None
  | None => Ok None
  end.

(** One turn of the loop: an exception skips the row. *)
Definition search_step (query_emb : vec) (results : list hit) (r : row)
  : list hit :=
  match score_row query_emb r with
  | Ok (Some h) => results ++ [h]
  | Ok None => results
  | Raise _ => results
  end.

(** [semantic_search(query, top_k, user_id)]. *)
Definition semantic_search (query : string) (top_k : Z)
    (user_id : option string) : M (list hit) :=
  if negb (str_truthy query) then ret []
  else
    model <- get_embed_model ;;
    query_emb <- model_encode model query ;;
    emit (DbRead (scope_of user_id)) ;;;
    rows <- get (fun w => select_embedded (scope_of user_id) (db w)) ;;
    let results := fold_left (search_step query_emb) rows [] in
    ret (py_slice_to top_k (py_sorted_desc h_score results)).

(** *** Conversation context and answer generation *)

Definition context_of (top_matches : list hit) : string :=
  String.concat (nl ++ "---" ++ nl)
    (map (fun doc => h_name doc ++ ":" ++ nl ++ h_snippet doc) top_matches).

Definition system_message (top_matches : list hit) : message :=
  mk_message (PyStr "system")
    ("You are IMOS, an intelligent memory OS for professionals and solopreneurs. "
     ++ "You help users understand and analyze their documents through natural conversation. "
     ++ nl ++ "RELEVANT DOCUMENT CONTEXT:" ++ nl
     ++ context_of top_matches ++ nl ++ nl
     ++ "Guidelines:" ++ nl
     ++ "- Use the provided context to answer questions accurately" ++ nl
     ++ "- Reference specific documents when citing information" ++ nl
     ++ "- If the context doesn't contain relevant information, say so politely"
     ++ nl
     ++ "- Maintain conversation flow and refer to previous exchanges when relevant"
     ++ nl
     ++ "- Be concise but thorough in your responses").

(** [role in ['user', 'assistant']]. *)
Definition role_in_user_assistant (role : pyval) : bool :=
  match role with
  | PyStr s => String.eqb s "user" || String.eqb s "assistant"
  | _ => false
  end.

(** One turn of the loop that cleans the history. *)
Definition clean_step (cleaned_messages : list message) (msg : hist_entry)
  : list message :=
  match msg with
  | Dict d =>
      match t_role d, t_content d with
      | Some role, Some content =>
          let cleaned_msg := mk_message role (py_str content) in
          if role_in_user_assistant (m_role cleaned_msg)
          then cleaned_messages ++ [cleaned_msg]
          else cleaned_messages
      | _, _ => cleaned_messages
      end
  | NotDict _ => cleaned_messages
  end.

(** The [messages] of the request: lines 198 to 232 of
    [answer_query_with_groq]. *)
Definition build_messages (conversation_history : list hist_entry)
    (top_matches : list hit) : list message :=
  let cleaned_messages := fold_left clean_step conversation_history [] in
  let cleaned_messages :=
    if (10 <? List.length cleaned_messages)%nat
    then py_last 10 cleaned_messages
    else cleaned_messages in
  system_message top_matches :: cleaned_messages.

Definition groq_api_url : string :=
  "https://api.groq.com/openai/v1/chat/completions".

Definition groq_payload (messages : list message) : payload :=
  mk_payload messages "llama-3.1-8b-instant" 1500 (7 / 10).

Definition apology : string :=
  "Sorry, I encountered an error while processing your request.".

(** [response.json()['choices'][0]['message']['content'].strip()]. *)
Definition extract_answer (r : response) : res string :=
  match response_json r with
  | Raise x => Raise x
  | Ok j =>
      match getitem_key j "choices" with
      | Raise x => Raise x
      | Ok choices =>
          match getitem_0 choices with
          | Raise x => Raise x
          | Ok choice =>
              match getitem_key choice "message" with
              | Raise x => Raise x
              | Ok msg =>
                  match getitem_key msg "content" with
                  | Raise x => Raise x
                  | Ok (JStr s) => Ok (py_strip E s)
                  | Ok _ => Raise AttributeError
                  end
              end
          end
      end
  end.

(** [answer_query_with_groq(conversation_history, top_matches,
    groq_api_key)]. *)
Definition answer_query_with_groq (conversation_history : list hist_entry)
    (top_matches : list hit) (groq_api_key : string)
  : M (string * list hit) :=
  let messages := build_messages conversation_history top_matches in
  let payload := groq_payload messages in
  try_except
    (emit (HttpPost groq_api_url groq_api_key payload) ;;;
     response <- lift (requests_post E groq_api_url groq_api_key payload) ;;
     lift (raise_for_status response) ;;;
     answer <- lift (extract_answer response) ;;
     ret (answer, top_matches))
    (fun e =>
       st_error ("Error calling Groq API: " ++ exn_str E e) ;;;
       ret (apology, [])).

Definition user_turn (user_query : string) : hist_entry :=
  Dict (mk_turn (Some (PyStr "user")) (Some (PyStr user_query)) None).

Definition assistant_turn (answer : string) (sources : list hit)
  : hist_entry :=
  Dict (mk_turn (Some (PyStr "assistant")) (Some (PyStr answer))
          (Some sources)).

Definition history_append (e : hist_entry) : M unit :=
  modify (fun w =>
    set_conversation_history (conversation_history w ++ [e]) w).

(** The [if user_query:] block of [chat_page] (lines 532 to 570): one
    question and its answer. *)
Definition chat_page_submit (user_query groq_api_key : string) : M unit :=
  if str_truthy user_query then
    history_append (user_turn user_query) ;;;
    st_write user_query ;;;
    user_id <- get ss_user_id ;;
    top_matches <- semantic_search user_query 5 (Some user_id) ;;
    history <- get conversation_history ;;
    r <- answer_query_with_groq history top_matches groq_api_key ;;
    let '(answer, sources) := r in
    st_write answer ;;;
    (match sources with
     | [] => ret tt
     | _ :: _ => emit (ShowSources sources)
     end) ;;;
    history_append (assistant_turn answer sources)
  else ret tt.

(** *** Import *)

(** [is_authenticated()] of [auth_improved.py]. *)
Definition is_authenticated : M bool :=
  c <- get google_credentials ;;
  match c with
  | None => ret false
  | Some credentials =>
      if negb (cred_valid credentials) then
        match cred_refresh_token credentials with
        | Some token =>
            if str_truthy token then
              match refresh E credentials with
              | None => ret true
              | Some _ => ret false
              end
            else ret false
        | None => ret false
        end
      else ret true
  end.

(** [init_drive_service()]: [get_drive_service] of [auth_improved.py]. *)
Definition init_drive_service : M (option service) :=
  authenticated <- is_authenticated ;;
  if negb authenticated then ret None
  else
    try_except
      (c <- get google_credentials ;;
       match c with
       | Some credentials =>
           s <- lift (build_drive E credentials) ;; ret (Some s)
       | None => raise AttributeError
       end)
      (fun e =>
         st_error ("Error creating Drive service: " ++ exn_str E e) ;;;
         ret None).

(** One turn of the page loop of [download_pdf_content]: a page whose
    extraction raises is left out. *)
Definition add_page (text_content : string) (page : res string) : string :=
  match page with
  | Ok t => text_content ++ t ++ nl
  | Raise _ => text_content
  end.

(** [download_pdf_content(service, file_id)] of
    [gdrive_auth_streamlit.py]. *)
Definition download_pdf_content (drive_service : option service)
    (file_id : string) : M string :=
  try_except
    (match drive_service with
     | None => raise AttributeError
     | Some s =>
         emit (DriveFetch file_id) ;;;
         pages <- lift (fetch_pages E s file_id) ;;
         let text_content := fold_left add_page pages "" in
         ret (py_strip E text_content)
     end)
    (fun e =>
       st_error ("Error downloading PDF content: " ++ exn_str E e) ;;;
       ret "").

Definition opt_default {A : Type} (o : option A) (d : A) : A :=
  match o with
  | Some a => a
  | None => d
  end.

(** The body of the [try] in the loop of [import_pdfs], for the document
    at index [i]; it returns the new value of [successful_imports]. *)
Definition import_pdfs_try (i total_pdfs : nat) (pdf : pdf_file)
    (successful_imports : nat) : M nat :=
  status_text ("Processing " ++ pdf_name pdf ++ " ("
               ++ str_of_nat (i + 1) ++ "/" ++ str_of_nat total_pdfs
               ++ ")") ;;;
  drive_service <- init_drive_service ;;
  text_content <- download_pdf_content drive_service (pdf_id pdf) ;;
  successful_imports <-
    (if str_truthy text_content then
       embedding <- compute_embedding text_content ;;
       let drive_link :=
         "https://drive.google.com/file/d/" ++ pdf_id pdf ++ "/view" in
       user_id <- get ss_user_id ;;
       save_pdf_to_db user_id (pdf_id pdf) (pdf_name pdf) drive_link
         (opt_default (pdf_modifiedTime pdf) "")
         (opt_default (pdf_size pdf) 0%Z)
         (opt_default (pdf_parent pdf) "")
         (Some text_content) (Some embedding) ;;;
       st_success ("Imported: " ++ pdf_name pdf) ;;;
       ret (successful_imports + 1)%nat
     else
       st_warning ("No text content extracted from: " ++ pdf_name pdf) ;;;
       ret successful_imports) ;;
  emit (Progress (i + 1) total_pdfs) ;;;
  ret successful_imports.

(** One turn of the loop: [try: ... except Exception as e: ...;
    continue]. *)
Definition import_pdfs_iter (i total_pdfs : nat) (pdf : pdf_file)
    (successful_imports : nat) : M nat :=
  try_except (import_pdfs_try i total_pdfs pdf successful_imports)
    (fun e =>
       st_error ("Error processing " ++ pdf_name pdf ++ ": "
                 ++ exn_str E e) ;;;
       ret successful_imports).

(** [for i, pdf in enumerate(selected_pdfs): ...], from index [i] on. *)
Fixpoint import_pdfs_loop (i total_pdfs : nat) (pdfs : list pdf_file)
    (successful_imports : nat) : M nat :=
  match pdfs with
  | [] => ret successful_imports
  | pdf :: rest =>
      n <- import_pdfs_iter i total_pdfs pdf successful_imports ;;
      import_pdfs_loop (S i) total_pdfs rest n
  end.

(** [import_pdfs(selected_pdfs)]; it returns [successful_imports].  The
    texts shown are those of the program without their pictographs, and
    [st.rerun()], which ends the script run after the loop, is the event
    [Rerun]. *)
Definition import_pdfs (selected_pdfs : list pdf_file) : M nat :=
  emit (Progress 0 1) ;;;
  let total_pdfs := List.length selected_pdfs in
  user_id <- get ss_user_id ;;
  st_info ("Importing " ++ str_of_nat total_pdfs ++ " PDFs for user: "
           ++ user_id) ;;;
  successful_imports <- import_pdfs_loop 0 total_pdfs selected_pdfs 0 ;;
  status_text "Import completed!" ;;;
  st_success ("Successfully imported " ++ str_of_nat successful_imports
              ++ " out of " ++ str_of_nat total_pdfs ++ " PDFs") ;;;
  (if (0 <? successful_imports)%nat then
     modify (set_import_complete true) ;;;
     st_info "Import successful! The page will refresh to show navigation options." ;;;
     emit Rerun
   else
     st_error "No documents were successfully saved. Please try importing again.") ;;;
  ret successful_imports.

End Program.

(** ** Listing the Drive and choosing what to import *)

(** A file resource of the Drive listing; [None] is an absent key. *)
Record drive_item : Type := mk_item {
  item_id : option string;
  item_name : option string;
  item_size : option string;
  item_modifiedTime : option string;
  item_parents : option (list string)
}.

(** A dict of the list [list_all_pdfs] returns. *)
Record listed_pdf : Type := mk_listed {
  l_id : string;
  l_name : string;
  l_size : Z;
  l_modifiedTime : string;
  l_parent : string;
  l_drive_link : string
}.

(** The Drive listing calls and the runtime functions the listing and the
    import page use, outside the repository. *)
Record drive_api : Type := mk_drive_api {
  (** [service.files().list(...).execute().get('files')]. *)
  files_list : service -> res (option (list drive_item));
  (** [service.files().get(fileId=..., fields='name').execute()
      .get('name')]. *)
  parent_name_of : service -> string -> res (option string);
  (** [datetime.fromisoformat(t.replace('Z', '+00:00'))
      .strftime('%Y-%m-%d %H:%M')]. *)
  format_modified : string -> res string;
  (** [int(s)] for a string [s]. *)
  py_int : string -> res Z;
  (** [s.lower()]. *)
  py_lower : string -> string
}.

(** [needle in hay] for two strings. *)
Fixpoint str_contains (needle hay : string) : bool :=
  String.prefix needle hay
  || match hay with
     | EmptyString => false
     | String _ hay' => str_contains needle hay'
     end.

Section Listing.

Variable E : collaborators.
Variable D : drive_api.

(** The name of the first parent folder, ["Drive"] when there is none or
    when the lookup fails. *)
Definition parent_name (s : service) (item : drive_item) : string :=
  match item_parents item with
  | Some (parent_id :: _) =>
      match parent_name_of D s parent_id with
      | Ok (Some name) => name
      | Ok None => "Drive"
      | Raise _ => "Drive"
      end
  | _ => "Drive"
  end.

(** The modification time, reformatted when it parses. *)
Definition modified_time (item : drive_item) : string :=
  match item_modifiedTime item with
  | Some t =>
      if str_truthy t then
        match format_modified D t with
        | Ok formatted => formatted
        | Raise _ => t
        end
      else t
  | None => ""
  end.

(** One turn of the loop of [list_all_pdfs]: the dict appended for an
    item. *)
Definition list_item (s : service) (item : drive_item) : res listed_pdf :=
  let parent_name := parent_name s item in
  let modified_time := modified_time item in
  match item_id item with
  | None => Raise KeyError
  | Some id =>
      match item_name item with
      | None => Raise KeyError
      | Some name =>
          match
            match item_size item with
            | Some size => py_int D size
            | None => Ok 0%Z
            end
          with
          | Raise e => Raise e
          | Ok size =>
              Ok (mk_listed id name size modified_time parent_name
                    ("https://drive.google.com/file/d/" ++ id ++ "/view"))
          end
      end
  end.

Fixpoint list_items (s : service) (items : list drive_item)
  : res (list listed_pdf) :=
  match items with
  | [] => Ok []
  | item :: rest =>
      match list_item s item with
      | Raise e => Raise e
      | Ok pdf =>
          match list_items s rest with
          | Raise e => Raise e
          | Ok pdfs => Ok (pdf :: pdfs)
          end
      end
  end.

(** [list_all_pdfs(service)] of [gdrive_auth_streamlit.py]. *)
Definition list_all_pdfs (drive_service : option service)
  : M (list listed_pdf) :=
  try_except
    (match drive_service with
     | None => raise AttributeError
     | Some s =>
         results <- lift (files_list D s) ;;
         let items := opt_default results [] in
         lift (list_items s items)
     end)
    (fun e =>
       st_error ("Error listing PDFs: " ++ exn_str E e) ;;;
       ret []).

(** The search filter of [import_page]. *)
Definition matches_search (search_term : string) (pdf : listed_pdf) : bool :=
  str_contains (py_lower D search_term) (py_lower D (l_name pdf))
  || str_contains (py_lower D search_term) (py_lower D (l_parent pdf)).

Definition filtered_pdfs (search_term : string) (pdfs : list listed_pdf)
  : list listed_pdf :=
  if str_truthy search_term then filter (matches_search search_term) pdfs
  else pdfs.

(** The selection loop of [import_page]: the documents ticked among the
    first 50 shown.  [checked] is the state of the checkbox of a file id
    (the widget key is made of the id; Streamlit refuses two widgets of one
    key, so the ids of a listing that is shown are distinct). *)
Definition selected_pdfs (search_term : string) (checked : string -> bool)
    (pdfs : list listed_pdf) : list listed_pdf :=
  filter (fun pdf => checked (l_id pdf))
    (firstn 50 (filtered_pdfs search_term pdfs)).

(** What [import_pdfs] reads of a listed document, when [import_page] hands
    it the selection. *)
Definition pdf_of_listed (pdf : listed_pdf) : pdf_file :=
  mk_pdf (l_id pdf) (l_name pdf) (Some (l_modifiedTime pdf))
    (Some (l_size pdf)) (Some (l_parent pdf)).

End Listing.

(** ** Specification-side definitions *)

(** A well-formed turn, in the words of the specification: a dict whose
    role is [user] or [assistant] and which has a content; the message it
    stands for. *)
Definition spec_well_formed (e : hist_entry) : option message :=
  match e with
  | Dict d =>
      match t_role d, t_content d with
      | Some (PyStr role), Some content =>
          if String.eqb role "user" || String.eqb role "assistant"
          then Some (mk_message (PyStr role) (py_str content))
          else None
      | _, _ => None
      end
  | NotDict _ => None
  end.

(** The well-formed turns of a history, in chronological order. *)
Definition spec_turns (history : list hist_entry) : list message :=
  flat_map (fun e =>
    match spec_well_formed e with
    | Some m => [m]
    | None => []
    end) history.

(** A row that is indexed: its text is not empty and its embedding is
    present. *)
Definition row_indexed (r : row) : Prop :=
  (exists text, r_text_content r = Some text /\ text <> "")
  /\ (exists v, r_embedding r = Some (EmbJson v)).


(** The entries of the rows that pass the threshold, in the order the
    rows are enumerated. *)
Definition spec_candidates (query_emb : vec) (rows : list row) : list hit :=
  flat_map (fun r =>
    match score_row query_emb r with
    | Ok (Some h) => [h]
    | _ => []
    end) rows.

(** [h1] may stand before [h2] in a descending ranking: both scores are
    numbers and the first is not the smaller. *)
Definition score_ge (h1 h2 : hit) : Prop :=
  exists r1 r2, h_score h1 = Fin r1 /\ h_score h2 = Fin r2 /\ r2 <= r1.

(** The same for any key: the key of [x] is a number, and [x] may stand
    before [y] in a descending order of the key. *)
Definition key_fin {A : Type} (key : A -> float64) (x : A) : Prop :=
  exists r, key x = Fin r.

Definition key_ge {A : Type} (key : A -> float64) (x y : A) : Prop :=
  exists r s, key x = Fin r /\ key y = Fin s /\ s <= r.

(** The row is in the scope of the search. *)
Definition in_scope (scope : option string) (r : row) : Prop :=
  match scope with
  | Some u => r_user_id r = u
  | None => True
  end.

(** A failure of the answer generator as the program detects it: the
    request raises (network error), or the response carries an error
    status (400 to 599), or its body does not hold an answer text. *)
Definition generator_failure (E : collaborators) (key : string)
    (p : payload) (e : exn) : Prop :=
  requests_post E groq_api_url key p = Raise e
  \/ (exists r, requests_post E groq_api_url key p = Ok r
        /\ (400 <= status_code r < 600)%Z
        /\ e = HTTPError (status_code r))
  \/ (exists r, requests_post E groq_api_url key p = Ok r
        /\ ~ (400 <= status_code r < 600)%Z
        /\ extract_answer E r = Raise e).

(** [w'] differs from [w] at most in the loaded model and in the events
    added. *)
Definition frame (w w' : world) : Prop :=
  db w' = db w /\ db_seq w' = db_seq w /\ clock w' = clock w
  /\ ss_user_id w' = ss_user_id w
  /\ google_credentials w' = google_credentials w
  /\ conversation_history w' = conversation_history w
  /\ import_complete w' = import_complete w
  /\ exists events, log w' = (log w ++ events)%list.

(** The text [import_pdfs] shows when it starts on a document. *)
Definition processing_msg (i total_pdfs : nat) (pdf : pdf_file) : string :=
  "Processing " ++ pdf_name pdf ++ " (" ++ str_of_nat (i + 1) ++ "/"
  ++ str_of_nat total_pdfs ++ ")".

(** The row [import_pdfs] writes for a document, in world [w]. *)
Definition imported_row (pdf : pdf_file) (text : string) (v : vec)
    (w : world) : row :=
  mk_row (db_seq w + 1) (ss_user_id w) (pdf_id pdf) (pdf_name pdf)
    ("https://drive.google.com/file/d/" ++ pdf_id pdf ++ "/view")
    (opt_default (pdf_modifiedTime pdf) "")
    (opt_default (pdf_size pdf) 0%Z)
    (opt_default (pdf_parent pdf) "")
    (Some text) (Some (EmbJson v)) (clock w).

(** The document was imported: its row, with a non-empty text and the
    embedding computed from it, was upserted, and the count went up. *)
Definition doc_imported (pdf : pdf_file) (n : nat) (w : world) (n' : nat)
    (w' : world) : Prop :=
  n' = (n + 1)%nat
  /\ exists text v,
       text <> ""
       /\ db w' = insert_or_replace (imported_row pdf text v w) (db w)
       /\ db_seq w' = (db_seq w + 1)%Z.

(** The document was skipped and reported: the table and the count are
    as before, and a warning or an error that names the document was
    shown. *)
Definition doc_skipped (E : collaborators) (pdf : pdf_file) (n : nat)
    (w : world) (n' : nat) (w' : world) : Prop :=
  n' = n /\ db w' = db w /\ db_seq w' = db_seq w
  /\ exists events,
       log w' = (log w ++ events)%list
       /\ (In (Ui StWarning
                 ("No text content extracted from: " ++ pdf_name pdf))
              events
           \/ exists e,
                In (Ui StError ("Error processing " ++ pdf_name pdf ++ ": "
                                ++ exn_str E e)) events).

(** A run of the import loop over a batch, from index [i]: every document
    in turn is processed from the world the previous one left, and is
    imported or skipped; the turn itself never raises. *)
Inductive batch_run (E : collaborators) (total_pdfs : nat)
  : nat -> list pdf_file -> nat -> world -> nat -> world -> Prop :=
| batch_done (i n : nat) (w : world) :
    batch_run E total_pdfs i [] n w n w
| batch_next (i : nat) (pdf : pdf_file) (rest : list pdf_file)
    (n n1 n2 : nat) (w w1 w2 : world) :
    import_pdfs_iter E i total_pdfs pdf n w = (Ok n1, w1) ->
    doc_imported pdf n w n1 w1 \/ doc_skipped E pdf n w n1 w1 ->
    batch_run E total_pdfs (S i) rest n1 w1 n2 w2 ->
    batch_run E total_pdfs i (pdf :: rest) n w n2 w2.

(** ** Definitions for further properties *)

(** [w'] has the events of [w] and then only events that satisfy [P]. *)
Definition logs (P : event -> Prop) (w w' : world) : Prop :=
  exists events, log w' = (log w ++ events)%list /\ Forall P events.

(** What a search may do to the outside: load and use the model, read the
    table, show an error. *)
Definition search_event (e : event) : Prop :=
  match e with
  | LoadModel _ | Encode _ _ | DbRead _ | Ui StError _ => True
  | _ => False
  end.

(** The embedding of the row parses and has the dimension of the query. *)
Definition usable_row (query_emb : vec) (r : row) : bool :=
  match r_embedding r with
  | Some (EmbJson v) => Nat.eqb (List.length query_emb) (List.length v)
  | _ => false
  end.

(** The texts of the pages that could be read, in order. *)
Definition ok_pages (pages : list (res string)) : list string :=
  flat_map (fun page =>
    match page with
    | Ok t => [t]
    | Raise _ => []
    end) pages.

(** The ids of the table are distinct and none is beyond the sequence. *)
Definition ids_fresh (w : world) : Prop :=
  NoDup (map r_id (db w)) /\ Forall (fun r => (r_id r <= db_seq w)%Z) (db w).


(** The event is no request to the answer generator. *)
Definition not_a_request (e : event) : Prop :=
  match e with
  | HttpPost _ _ _ => False
  | _ => True
  end.

(** The event only shows something: no collaborator is called and the
    table is not written. *)
Definition display_event (e : event) : Prop :=
  match e with
  | Ui _ _ | Progress _ _ | ShowSources _ | Rerun => True
  | _ => False
  end.

(** The two models [get_embed_model] tries. *)
Definition primary_model : string := "all-MiniLM-L6-v2".
Definition fallback_model : string := "paraphrase-MiniLM-L3-v2".

(** The text [download_pdf_content] builds from the pages it could read:
    every such page followed by a newline, in page order. *)
Definition pages_text (pages : list (res string)) : string :=
  fold_right (fun t acc => t ++ nl ++ acc) "" (ok_pages pages).

(** The item can be listed: it has an id and a name, and its size, when it
    has one, reads as an integer. *)
Definition item_ok (D : drive_api) (item : drive_item) : bool :=
  match item_id item, item_name item, item_size item with
  | Some _, Some _, None => true
  | Some _, Some _, Some size =>
      match py_int D size with
      | Ok _ => true
      | Raise _ => false
      end
  | _, _, _ => false
  end.

(** The dict [pdf] of a listing stands for the item [item] of the Drive. *)
Definition lists_as (D : drive_api) (s : service) (item : drive_item)
    (pdf : listed_pdf) : Prop :=
  item_id item = Some (l_id pdf) /\ item_name item = Some (l_name pdf)
  /\ l_parent pdf = parent_name D s item
  /\ l_modifiedTime pdf = modified_time D item
  /\ l_drive_link pdf
     = "https://drive.google.com/file/d/" ++ l_id pdf ++ "/view".

(** ** Test doubles *)

Fixpoint repeat_char (c : ascii) (n : nat) : string :=
  match n with
  | O => EmptyString
  | S n' => String c (repeat_char c n')
  end.

Definition demo_encode (model text : string) : res vec :=
  if String.prefix "scanned" text then Raise (Foreign "cannot encode")
  else Ok [1; 0].

Definition demo_fetch (s : service) (file_id : string)
  : res (list (res string)) :=
  if String.eqb file_id "doc-revenue" then Ok [Ok "Q3 revenue grew 12%"]
  else if String.eqb file_id "doc-scan" then Ok [Ok "scanned"]
  else if String.eqb file_id "doc-blank"
       then Ok [Raise (Foreign "unreadable page")]
  else Raise (Foreign "file not found").

Definition demo_exn_str (e : exn) : string :=
  match e with
  | Foreign msg => msg
  | HTTPError _ => "HTTP error"
  | _ => "error"
  end.

(** An endpoint that answers every request with status 500. *)
Definition post_500 (url key : string) (p : payload) : res response :=
  Ok (mk_response 500 None).

Definition good_body : json :=
  JObj [("choices",
         JArr [JObj [("message",
                      JObj [("content", JStr "Revenue grew 12%.")])]])].

(** An endpoint that answers with status 300 and a well-formed body. *)
Definition post_300 (url key : string) (p : payload) : res response :=
  Ok (mk_response 300 (Some good_body)).

Definition demo_env (post : string -> string -> payload -> res response)
  : collaborators :=
  mk_collaborators (fun _ => None) demo_encode (fun _ => None)
    (fun c => Ok (DriveService c)) demo_fetch post (fun s => s)
    demo_exn_str.

Definition demo_hit : hit :=
  mk_hit "doc-revenue" "q3.pdf"
    "https://drive.google.com/file/d/doc-revenue/view" "" 0 "Drive"
    "Q3 revenue grew 12%" (Fin 1).

Definition demo_query : string := "How did revenue perform in Q3?".

(** A table that holds one document of another user. *)
Definition alice_row : row :=
  mk_row 1 "alice" "doc-revenue" "q3-draft.pdf"
    "https://drive.google.com/file/d/doc-revenue/view" "" 10 "Drive"
    (Some "draft") (Some (EmbJson [0; 1])) 0.

Definition alice_world : world :=
  mk_world [alice_row] 1 7 None "default_user"
    (Some (mk_credentials true None)) [] false [].

(** A table of four documents: two of the user with an embedding, one of
    the user without, one of another user. *)
Definition revenue_row : row :=
  mk_row 2 "default_user" "doc-revenue" "q3.pdf"
    "https://drive.google.com/file/d/doc-revenue/view" "" 12 "Drive"
    (Some "Q3 revenue grew 12%") (Some (EmbJson [1; 0])) 0.

Definition recipes_row : row :=
  mk_row 3 "default_user" "doc-recipes" "recipes.pdf"
    "https://drive.google.com/file/d/doc-recipes/view" "" 30 "Drive"
    (Some "Bread and soup") (Some (EmbJson [0; 1])) 0.

Definition pending_row : row :=
  mk_row 4 "default_user" "doc-pending" "pending.pdf"
    "https://drive.google.com/file/d/doc-pending/view" "" 5 "Drive"
    (Some "Not indexed yet") None 0.

Definition library_world : world :=
  mk_world [alice_row; revenue_row; recipes_row; pending_row] 4 9
    (Some "all-MiniLM-L6-v2") "default_user"
    (Some (mk_credentials true None)) [] false [].

(** A batch of four documents: one that cannot be downloaded, one whose
    only page cannot be read, one whose text cannot be embedded, and one
    that imports. *)
Definition missing_pdf : pdf_file :=
  mk_pdf "doc-missing" "missing.pdf" None None None.

Definition blank_pdf : pdf_file :=
  mk_pdf "doc-blank" "blank.pdf" (Some "2024-01-05 10:00") (Some 5%Z)
    (Some "Drive").

Definition scan_pdf : pdf_file :=
  mk_pdf "doc-scan" "scan.pdf" (Some "2024-01-06 10:00") (Some 50%Z)
    (Some "Drive").

Definition revenue_pdf : pdf_file :=
  mk_pdf "doc-revenue" "q3.pdf" (Some "2024-01-07 10:00") (Some 12%Z)
    (Some "Reports").

Definition demo_batch : list pdf_file :=
  [missing_pdf; blank_pdf; scan_pdf; revenue_pdf].

(** Collaborators with no embedding model at hand, and with the fallback
    model only. *)
Definition offline_env : collaborators :=
  mk_collaborators (fun _ => Some (Foreign "offline")) demo_encode
    (fun _ => None) (fun c => Ok (DriveService c)) demo_fetch post_500
    (fun s => s) demo_exn_str.

Definition fallback_env : collaborators :=
  mk_collaborators
    (fun name =>
       if String.eqb name "all-MiniLM-L6-v2" then Some (Foreign "offline")
       else None)
    demo_encode (fun _ => None) (fun c => Ok (DriveService c)) demo_fetch
    post_500 (fun s => s) demo_exn_str.

(** An endpoint that answers with status 200 and a well-formed body. *)
Definition post_200 (url key : string) (p : payload) : res response :=
  Ok (mk_response 200 (Some good_body)).


Definition demo_world : world :=
  mk_world [] 0 0 None "default_user"
    (Some (mk_credentials true None)) [] false [].

(** A session without credentials. *)
Definition signed_out_world : world :=
  mk_world [revenue_row] 2 3 None "default_user" None [] false [].

(** A Drive that lists [items]; it knows one folder, reads two sizes and
    reformats no time. *)
Definition demo_drive (items : list drive_item) : drive_api :=
  mk_drive_api
    (fun _ => Ok (Some items))
    (fun _ parent_id =>
       if String.eqb parent_id "folder-reports" then Ok (Some "Reports")
       else Raise (Foreign "folder not found"))
    (fun _ => Raise ValueError)
    (fun size =>
       if String.eqb size "12" then Ok 12%Z
       else if String.eqb size "5" then Ok 5%Z
       else Raise ValueError)
    (fun s => s).

Definition revenue_item : drive_item :=
  mk_item (Some "doc-revenue") (Some "q3.pdf") (Some "12")
    (Some "2024-01-07T10:00:00Z") (Some ["folder-reports"]).

Definition blank_item : drive_item :=
  mk_item (Some "doc-blank") (Some "blank.pdf") None None None.

(** An item the Drive returns without a name. *)
Definition nameless_item : drive_item :=
  mk_item (Some "doc-nameless") None (Some "5") None (Some ["folder-x"]).

Definition revenue_listed : listed_pdf :=
  mk_listed "doc-revenue" "q3.pdf" 12 "2024-01-07T10:00:00Z" "Reports"
    "https://drive.google.com/file/d/doc-revenue/view".

Definition blank_listed : listed_pdf :=
  mk_listed "doc-blank" "blank.pdf" 0 "" "Drive"
    "https://drive.google.com/file/d/doc-blank/view".

Definition demo_service : service :=
  DriveService (mk_credentials true None).

(** ** Facts about the dot product and the norm *)

Lemma dot_comm (a b : vec) : dot a b = dot b a.
Proof.
  revert b; induction a as [|x a IH]; intros [|y b]; simpl; trivial.
  rewrite IH; ring.
Qed.

Lemma dot_self_nonneg (a : vec) : 0 <= dot a a.
Proof.
  induction a as [|x a IH]; simpl; [lra | nra].
Qed.

Lemma dot_self_zero (a b : vec) : dot a a = 0 -> dot a b = 0.
Proof.
  revert b; induction a as [|x a IH]; intros b H; simpl in *; trivial.
  destruct b as [|y b]; trivial.
  pose proof (dot_self_nonneg a) as Ha.
  assert (Hx : x = 0) by nra.
  assert (Ha0 : dot a a = 0) by nra.
  rewrite (IH b Ha0), Hx; ring.
Qed.

Lemma np_norm_nonneg (a : vec) : 0 <= np_norm a.
Proof. apply sqrt_pos. Qed.

Lemma np_norm_zero (a : vec) : np_norm a = 0 -> dot a a = 0.
Proof.
  intros H; apply sqrt_eq_0; trivial; apply dot_self_nonneg.
Qed.

Lemma np_norm_sqr (a : vec) : np_norm a * np_norm a = dot a a.
Proof. apply sqrt_sqrt, dot_self_nonneg. Qed.

Lemma np_div_zero_zero : np_div 0 0 = NaN.
Proof.
  unfold np_div.
  destruct (Req_dec_T 0 0) as [_|H]; [|contradiction H; reflexivity].
  destruct (Req_dec_T 0 0) as [_|H]; [|contradiction H]; reflexivity.
Qed.

Lemma np_div_nonzero (x y : R) : y <> 0 -> np_div x y = Fin (x / y).
Proof.
  intros H; unfold np_div.
  destruct (Req_dec_T y 0); [contradiction | reflexivity].
Qed.

(** With a zero norm on either side both the numerator and the divisor
    vanish. *)
Lemma zero_norm_operands (a b : vec) :
  np_norm a = 0 \/ np_norm b = 0 ->
  dot a b = 0 /\ np_norm a * np_norm b = 0.
Proof.
  intros [H|H]; split.
  - apply dot_self_zero, np_norm_zero, H.
  - rewrite H; ring.
  - rewrite dot_comm; apply dot_self_zero, np_norm_zero, H.
  - rewrite H; ring.
Qed.

(** ** Cosine similarity *)






Lemma np_dot_comm (a b : vec) : np_dot a b = np_dot b a.
Proof.
  unfold np_dot. rewrite (Nat.eqb_sym (List.length a)), dot_comm. reflexivity.
Qed.

Lemma cosine_sim_comm (a b : vec) : cosine_sim a b = cosine_sim b a.
Proof.
  unfold cosine_sim.
  rewrite (np_dot_comm a b), (Rmult_comm (np_norm a)). reflexivity.
Qed.

Lemma cosine_sim_self (a : vec) :
  np_norm a <> 0 -> cosine_sim a a = Ok (Fin 1).
Proof.
  intros H. unfold cosine_sim, np_dot. rewrite Nat.eqb_refl.
  assert (Hn : np_norm a * np_norm a <> 0) by nra.
  rewrite (np_div_nonzero _ _ Hn), <- np_norm_sqr.
  do 2 f_equal. field. exact H.
Qed.

(** C9: cosine similarity is symmetric, and the similarity of a vector of
    non-zero norm with itself is exactly 1 (over exact arithmetic). *)
Theorem cosine_sim_symmetric_and_self :
  (forall a b : vec, cosine_sim a b = cosine_sim b a)
  /\ (forall a : vec, np_norm a <> 0 -> cosine_sim a a = Ok (Fin 1)).
Proof.
  split; [exact cosine_sim_comm | exact cosine_sim_self].
Qed.

Lemma cosine_sim_symmetric_and_self_witness :
  cosine_sim [3; 4] [1; 2] = cosine_sim [1; 2] [3; 4]
  /\ np_norm [3; 4] <> 0
  /\ cosine_sim [3; 4] [3; 4] = Ok (Fin 1).
Proof.
  assert (H : np_norm [3; 4] <> 0).
  { unfold np_norm; simpl. apply Rgt_not_eq, sqrt_lt_R0. lra. }
  destruct cosine_sim_symmetric_and_self as [Hs Hself].
  split; [apply Hs | split; [exact H | apply Hself, H]].
Defined.

(** ** Strings *)

Lemma str_take_length (n : nat) (s : string) :
  (String.length (str_take n s) <= n)%nat.
Proof.
  revert s; induction n as [|n IH]; intros [|c s]; simpl; try lia.
  specialize (IH s); lia.
Qed.

Lemma str_take_all (n : nat) (s : string) :
  (String.length s <= n)%nat -> str_take n s = s.
Proof.
  revert s; induction n as [|n IH]; intros [|c s] H; simpl in *;
    try reflexivity; try lia.
  rewrite IH; [reflexivity | lia].
Qed.

(** The text [compute_embedding] hands to the model. *)
Lemma truncated_text (text : string) :
  (if (4000 <? String.length text)%nat then str_take 4000 text else text)
  = str_take 4000 text.
Proof.
  destruct (Nat.ltb_spec 4000 (String.length text)) as [H|H];
    [reflexivity | symmetry; apply str_take_all, H].
Qed.

Section Properties.

Variable E : collaborators.

(** ** Embedder *)

Lemma compute_embedding_take (text : string) (w : world) :
  compute_embedding E text w = compute_embedding E (str_take 4000 text) w.
Proof.
  unfold compute_embedding.
  rewrite (truncated_text (str_take 4000 text)), (truncated_text text).
  rewrite (str_take_all 4000 (str_take 4000 text) (str_take_length _ _)).
  reflexivity.
Qed.

(** C7: the embedding of a text is that of its first 4000 characters; a
    text of 5000 characters and one of 4000 characters with the same first
    4000 characters get the same embedding (same result, same effects). *)
Theorem compute_embedding_truncates :
  (forall (text : string) (w : world),
     compute_embedding E text w
     = compute_embedding E (str_take 4000 text) w)
  /\ (forall (long short : string) (w : world),
        String.length long = 5000%nat ->
        String.length short = 4000%nat ->
        str_take 4000 long = str_take 4000 short ->
        compute_embedding E long w = compute_embedding E short w).
Proof.
  split; [exact compute_embedding_take|].
  intros long short w _ _ H.
  rewrite (compute_embedding_take long), (compute_embedding_take short), H.
  reflexivity.
Qed.

(** ** Retriever *)

(** C6: a search with an empty query returns the empty list at once: no
    error, and the world is left as it was - no model is loaded, nothing
    is encoded, the table is not read. *)
Theorem semantic_search_empty_query (top_k : Z) (user_id : option string)
    (w : world) :
  semantic_search E "" top_k user_id w = (Ok [], w).
Proof. reflexivity. Qed.

End Properties.

Lemma compute_embedding_truncates_witness :
  String.length (repeat_char "a" 5000) = 5000%nat
  /\ String.length (repeat_char "a" 4000) = 4000%nat
  /\ str_take 4000 (repeat_char "a" 5000)
     = str_take 4000 (repeat_char "a" 4000)
  /\ compute_embedding (demo_env post_500) (repeat_char "a" 5000) demo_world
     = compute_embedding (demo_env post_500) (repeat_char "a" 4000)
         demo_world.
Proof.
  assert (H1 : String.length (repeat_char "a" 5000) = 5000%nat)
    by (vm_compute; reflexivity).
  assert (H2 : String.length (repeat_char "a" 4000) = 4000%nat)
    by (vm_compute; reflexivity).
  assert (H3 : str_take 4000 (repeat_char "a" 5000)
               = str_take 4000 (repeat_char "a" 4000))
    by (vm_compute; reflexivity).
  split; [exact H1|]. split; [exact H2|]. split; [exact H3|].
  exact (proj2 (compute_embedding_truncates (demo_env post_500))
           _ _ demo_world H1 H2 H3).
Defined.

(** ** Conversation context *)

Lemma py_last_short {A : Type} (n : nat) (l : list A) :
  (List.length l <= n)%nat -> py_last n l = l.
Proof.
  intros H. unfold py_last.
  replace (List.length l - n)%nat with 0%nat by lia. reflexivity.
Qed.

Lemma py_last_length {A : Type} (n : nat) (l : list A) :
  List.length (py_last n l) = Nat.min n (List.length l).
Proof. unfold py_last. rewrite length_skipn. lia. Qed.

Lemma py_last_incl {A : Type} (n : nat) (l : list A) (x : A) :
  In x (py_last n l) -> In x l.
Proof.
  unfold py_last. intros H.
  rewrite <- (firstn_skipn (List.length l - n) l).
  apply in_or_app; right; exact H.
Qed.

(** The cleaning loop keeps what the specification calls the well-formed
    turns. *)
Lemma clean_step_spec (acc : list message) (e : hist_entry) :
  clean_step acc e
  = (acc ++ match spec_well_formed e with Some m => [m] | None => [] end)%list.
Proof.
  destruct e as [[role content sources]|v]; simpl;
    [|symmetry; apply app_nil_r].
  destruct role as [[| |z|s]|]; destruct content as [c|]; simpl;
    try (symmetry; apply app_nil_r).
  destruct (String.eqb s "user" || String.eqb s "assistant");
    [reflexivity | symmetry; apply app_nil_r].
Qed.

Lemma clean_loop_spec (history : list hist_entry) (acc : list message) :
  fold_left clean_step history acc = (acc ++ spec_turns history)%list.
Proof.
  revert acc; induction history as [|e history IH]; intros acc; simpl.
  - symmetry; apply app_nil_r.
  - rewrite IH, clean_step_spec, <- app_assoc. reflexivity.
Qed.

Lemma build_messages_spec (history : list hist_entry) (top : list hit) :
  build_messages history top
  = system_message top :: py_last 10 (spec_turns history).
Proof.
  unfold build_messages. rewrite clean_loop_spec; simpl app.
  destruct (Nat.ltb_spec 10 (List.length (spec_turns history))) as [H|H];
    [reflexivity | rewrite (py_last_short 10 _ H); reflexivity].
Qed.

Lemma spec_turns_roles (history : list hist_entry) :
  Forall (fun m => role_in_user_assistant (m_role m) = true)
    (spec_turns history).
Proof.
  apply Forall_forall. intros m Hm. unfold spec_turns in Hm.
  apply in_flat_map in Hm. destruct Hm as [e [_ Hm]].
  destruct e as [[role content sources]|v]; simpl in Hm; [|contradiction].
  destruct role as [[| |z|s]|]; destruct content as [c|]; simpl in Hm;
    try contradiction.
  destruct (String.eqb s "user" || String.eqb s "assistant") eqn:Hr;
    simpl in Hm; [|contradiction].
  destruct Hm as [<-|[]]. exact Hr.
Qed.

Lemma spec_turns_all_well_formed (history : list hist_entry) :
  Forall (fun e => spec_well_formed e <> None) history ->
  List.length (spec_turns history) = List.length history.
Proof.
  induction 1 as [|e history He _ IH]; simpl; trivial.
  rewrite length_app, IH.
  destruct (spec_well_formed e); [reflexivity | contradiction He; reflexivity].
Qed.

Section ContextBuilder.

Variable E : collaborators.

(** The request is what [build_messages] assembled. *)
Lemma answer_query_posts (history : list hist_entry) (top : list hit)
    (key : string) (w : world) :
  exists rest,
    log (snd (answer_query_with_groq E history top key w))
    = (log w
       ++ HttpPost groq_api_url key
            (groq_payload (build_messages history top))
       :: rest)%list.
Proof.
  unfold answer_query_with_groq, try_except, bind, emit, modify, lift, ret,
    st_error; simpl.
  destruct (requests_post E _ _ _) as [r|e]; simpl.
  - destruct (raise_for_status r) as [[]|e]; simpl.
    + destruct (extract_answer E r) as [a|e]; simpl.
      * exists []. reflexivity.
      * exists [Ui StError ("Error calling Groq API: " ++ exn_str E e)].
        rewrite <- app_assoc. reflexivity.
    + exists [Ui StError ("Error calling Groq API: " ++ exn_str E e)].
      rewrite <- app_assoc. reflexivity.
  - exists [Ui StError ("Error calling Groq API: " ++ exn_str E e)].
    rewrite <- app_assoc. reflexivity.
Qed.

(** C2: the messages handed to the answer generator are one system
    message followed by the last 10 well-formed user/assistant turns of the
    history (all of them when there are fewer), in their order; malformed
    entries are dropped before the cut.  So there are at most 11 messages,
    and exactly 11 for a history of 37 well-formed turns. *)
Theorem context_window (history : list hist_entry) (top : list hit) :
  let messages := build_messages history top in
  messages = system_message top :: py_last 10 (spec_turns history)
  /\ m_role (system_message top) = PyStr "system"
  /\ Forall (fun m => role_in_user_assistant (m_role m) = true)
       (tl messages)
  /\ List.length messages
     = (1 + Nat.min 10 (List.length (spec_turns history)))%nat
  /\ (List.length messages <= 11)%nat
  /\ (List.length history = 37%nat ->
      Forall (fun e => spec_well_formed e <> None) history ->
      List.length messages = 11%nat)
  /\ (forall (key : string) (w : world), exists rest,
        log (snd (answer_query_with_groq E history top key w))
        = (log w ++ HttpPost groq_api_url key (groq_payload messages)
           :: rest)%list).
Proof.
  intros messages. subst messages.
  split; [apply build_messages_spec|].
  split; [reflexivity|].
  rewrite build_messages_spec. cbn [tl List.length].
  rewrite py_last_length.
  split.
  { apply Forall_forall. intros m Hm. apply py_last_incl in Hm.
    pose proof (spec_turns_roles history) as H.
    rewrite Forall_forall in H. apply H, Hm. }
  split; [reflexivity|].
  split; [lia|].
  split.
  { intros Hlen Hwf. rewrite (spec_turns_all_well_formed _ Hwf), Hlen.
    reflexivity. }
  intros key w. rewrite <- build_messages_spec. apply answer_query_posts.
Qed.

End ContextBuilder.

Lemma context_window_witness :
  List.length (repeat (user_turn "hello") 37) = 37%nat
  /\ Forall (fun e => spec_well_formed e <> None)
       (repeat (user_turn "hello") 37)
  /\ List.length (build_messages (repeat (user_turn "hello") 37) []) = 11%nat.
Proof.
  assert (H1 : List.length (repeat (user_turn "hello") 37) = 37%nat)
    by reflexivity.
  assert (H2 : Forall (fun e => spec_well_formed e <> None)
                 (repeat (user_turn "hello") 37)).
  { apply Forall_forall. intros e He. apply repeat_spec in He. subst e.
    discriminate. }
  split; [exact H1|]. split; [exact H2|].
  destruct (context_window (demo_env post_500)
              (repeat (user_turn "hello") 37) [])
    as (_ & _ & _ & _ & _ & H & _).
  exact (H H1 H2).
Defined.

(** ** Frames: what the embedder and the retriever leave alone *)

Lemma frame_refl (w : world) : frame w w.
Proof.
  unfold frame; repeat split. exists []. symmetry; apply app_nil_r.
Qed.

Lemma frame_trans (w1 w2 w3 : world) :
  frame w1 w2 -> frame w2 w3 -> frame w1 w3.
Proof.
  unfold frame.
  intros (A1 & A2 & A3 & A4 & A5 & A6 & A7 & ev1 & A8)
         (B1 & B2 & B3 & B4 & B5 & B6 & B7 & ev2 & B8).
  repeat split; try congruence.
  exists (ev1 ++ ev2)%list. rewrite B8, A8, app_assoc. reflexivity.
Qed.

Lemma frame_emit (e : event) (w : world) : frame w (snd (emit e w)).
Proof.
  unfold frame; simpl; repeat split. exists [e]. reflexivity.
Qed.

Lemma frame_set_embed_model (m : option string) (w : world) :
  frame w (set_embed_model m w).
Proof.
  unfold frame; simpl; repeat split. exists []. symmetry; apply app_nil_r.
Qed.

Lemma bind_ok {A B : Type} (m : M A) (k : A -> M B) (w w' : world)
    (a : A) :
  m w = (Ok a, w') -> bind m k w = k a w'.
Proof. intros H. unfold bind. rewrite H. reflexivity. Qed.

Lemma bind_raise {A B : Type} (m : M A) (k : A -> M B) (w w' : world)
    (e : exn) :
  m w = (Raise e, w') -> bind m k w = (Raise e, w').
Proof. intros H. unfold bind. rewrite H. reflexivity. Qed.

Lemma try_except_ok {A : Type} (m : M A) (h : exn -> M A) (w w' : world)
    (a : A) :
  m w = (Ok a, w') -> try_except m h w = (Ok a, w').
Proof. intros H. unfold try_except. rewrite H. reflexivity. Qed.

Lemma try_except_raise {A : Type} (m : M A) (h : exn -> M A)
    (w w' : world) (e : exn) :
  m w = (Raise e, w') -> try_except m h w = h e w'.
Proof. intros H. unfold try_except. rewrite H. reflexivity. Qed.

Lemma frame_bind {A B : Type} (m : M A) (k : A -> M B) (w : world) :
  frame w (snd (m w)) ->
  (forall a w', frame w' (snd (k a w'))) ->
  frame w (snd (bind m k w)).
Proof.
  intros Hm Hk. unfold bind. destruct (m w) as [[a|e] w'] eqn:Hw; simpl in *.
  - eapply frame_trans; [exact Hm | apply Hk].
  - exact Hm.
Qed.

Lemma frame_try_except {A : Type} (m : M A) (h : exn -> M A) (w : world) :
  frame w (snd (m w)) ->
  (forall e w', frame w' (snd (h e w'))) ->
  frame w (snd (try_except m h w)).
Proof.
  intros Hm Hh. unfold try_except.
  destruct (m w) as [[a|e] w'] eqn:Hw; simpl in *.
  - exact Hm.
  - eapply frame_trans; [exact Hm | apply Hh].
Qed.

Section Frames.

Variable E : collaborators.

Lemma frame_SentenceTransformer (name : string) (w : world) :
  frame w (snd (SentenceTransformer E name w)).
Proof.
  unfold SentenceTransformer. apply frame_bind; [apply frame_emit|].
  intros _ w'. destruct (load_model E name); simpl.
  - apply frame_refl.
  - apply frame_set_embed_model.
Qed.

Lemma frame_get_embed_model (w : world) :
  frame w (snd (get_embed_model E w)).
Proof.
  unfold get_embed_model. apply frame_bind; [apply frame_refl|].
  intros m w1. apply frame_bind; [|intros; apply frame_refl].
  destruct m; [apply frame_refl|].
  apply frame_try_except; [apply frame_SentenceTransformer|].
  intros e w2. apply frame_bind; [apply frame_emit|].
  intros _ w3. apply frame_try_except; [apply frame_SentenceTransformer|].
  intros e2 w4. apply frame_bind; [apply frame_emit|].
  intros; apply frame_refl.
Qed.

Lemma frame_model_encode (model : option string) (text : string)
    (w : world) :
  frame w (snd (model_encode E model text w)).
Proof.
  unfold model_encode. destruct model; [|apply frame_refl].
  apply frame_bind; [apply frame_emit | intros; apply frame_refl].
Qed.

Lemma frame_compute_embedding (text : string) (w : world) :
  frame w (snd (compute_embedding E text w)).
Proof.
  unfold compute_embedding.
  apply frame_bind; [apply frame_get_embed_model|].
  intros m w1. apply frame_bind; [apply frame_model_encode|].
  intros; apply frame_refl.
Qed.

Lemma frame_semantic_search (query : string) (top_k : Z)
    (user_id : option string) (w : world) :
  frame w (snd (semantic_search E query top_k user_id w)).
Proof.
  unfold semantic_search. destruct (negb (str_truthy query));
    [apply frame_refl|].
  apply frame_bind; [apply frame_get_embed_model|].
  intros m w1. apply frame_bind; [apply frame_model_encode|].
  intros qe w2. apply frame_bind; [apply frame_emit|].
  intros _ w3. apply frame_bind; intros; apply frame_refl.
Qed.

End Frames.

(** ** Answer generator *)

Lemma raise_for_status_error (r : response) :
  (400 <= status_code r < 600)%Z ->
  raise_for_status r = Raise (HTTPError (status_code r)).
Proof.
  intros [H1 H2]. unfold raise_for_status.
  apply Z.leb_le in H1. apply Z.ltb_lt in H2. rewrite H1, H2. reflexivity.
Qed.

Lemma raise_for_status_pass (r : response) :
  ~ (400 <= status_code r < 600)%Z -> raise_for_status r = Ok tt.
Proof.
  intros H. unfold raise_for_status.
  destruct (Z.leb_spec 400 (status_code r));
    destruct (Z.ltb_spec (status_code r) 600); simpl; trivial.
  contradiction H; split; assumption.
Qed.

Section AnswerGenerator.

Variable E : collaborators.

(** What [answer_query_with_groq] does when the generator fails. *)
Lemma answer_query_on_failure (history : list hist_entry) (top : list hit)
    (key : string) (w : world) (e : exn) :
  generator_failure E key (groq_payload (build_messages history top)) e ->
  exists w',
    answer_query_with_groq E history top key w = (Ok (apology, []), w')
    /\ log w'
       = (log w
          ++ [HttpPost groq_api_url key
                (groq_payload (build_messages history top));
              Ui StError ("Error calling Groq API: " ++ exn_str E e)])%list
    /\ conversation_history w' = conversation_history w
    /\ db w' = db w.
Proof.
  intros H.
  unfold answer_query_with_groq, try_except, bind, emit, modify, lift, ret,
    st_error; simpl.
  destruct H as [H | [(r & H & Hs & ->) | (r & H & Hs & Hx)]]; rewrite H;
    simpl.
  - eexists; split; [reflexivity|]; simpl.
    rewrite <- app_assoc. repeat split.
  - rewrite (raise_for_status_error r Hs); simpl.
    eexists; split; [reflexivity|]; simpl.
    rewrite <- app_assoc. repeat split.
  - rewrite (raise_for_status_pass r Hs), Hx; simpl.
    eexists; split; [reflexivity|]; simpl.
    rewrite <- app_assoc. repeat split.
Qed.

(** C3 (as amended): when the answer generator fails - the request raises,
    the status is an error status (400 to 599), or the body holds no
    answer text - [answer_query_with_groq] returns the fixed apology with
    an empty source list and shows an error; and the chat turn then ends
    with the question recorded as asked, followed by the apology turn. *)
Theorem generator_failure_degrades :
  (forall (history : list hist_entry) (top : list hit) (key : string)
          (w : world) (e : exn),
     generator_failure E key (groq_payload (build_messages history top)) e ->
     exists w',
       answer_query_with_groq E history top key w = (Ok (apology, []), w')
       /\ log w'
          = (log w
             ++ [HttpPost groq_api_url key
                   (groq_payload (build_messages history top));
                 Ui StError ("Error calling Groq API: " ++ exn_str E e)])%list
       /\ conversation_history w' = conversation_history w
       /\ db w' = db w)
  /\ (forall (user_query key : string) (w w1 : world) (top : list hit)
             (e : exn),
        str_truthy user_query = true ->
        semantic_search E user_query 5 (Some (ss_user_id w))
          (snd ((history_append (user_turn user_query) ;;;
                 st_write user_query) w))
        = (Ok top, w1) ->
        generator_failure E key
          (groq_payload
             (build_messages
                (conversation_history w ++ [user_turn user_query]) top)) e ->
        exists w',
          chat_page_submit E user_query key w = (Ok tt, w')
          /\ conversation_history w'
             = (conversation_history w
                ++ [user_turn user_query; assistant_turn apology []])%list
          /\ In (Ui StError ("Error calling Groq API: " ++ exn_str E e))
               (log w')
          /\ In (Ui StWrite apology) (log w')).
Proof.
  split; [exact answer_query_on_failure|].
  intros q key w w1 top e Hq Hsearch Hfail.
  pose proof (frame_semantic_search E q 5 (Some (ss_user_id w))
                (snd ((history_append (user_turn q) ;;; st_write q) w)))
    as Hframe.
  rewrite Hsearch in Hframe. simpl in Hframe.
  destruct Hframe as (_ & _ & _ & _ & _ & Hhist & _).
  destruct (answer_query_on_failure
              (conversation_history w ++ [user_turn q]) top key w1 e Hfail)
    as (w2 & Hans & Hlog & Hhist2 & _).
  unfold chat_page_submit. rewrite Hq.
  simpl in Hhist.
  unfold bind at 1 2 3 4. simpl in Hsearch |- *.
  rewrite Hsearch. simpl. unfold bind at 1. simpl.
  rewrite Hhist. unfold bind at 1. rewrite Hans.
  unfold bind, st_write, emit, modify, ret, history_append.
  eexists; split; [reflexivity|]; cbn [conversation_history log set_log
    set_conversation_history snd].
  rewrite Hhist2, Hhist, <- app_assoc. split; [reflexivity|].
  rewrite Hlog. split.
  - apply in_or_app; left. apply in_or_app; right. right; left; reflexivity.
  - apply in_or_app; right. left; reflexivity.
Qed.

End AnswerGenerator.

Lemma generator_failure_degrades_witness :
  generator_failure (demo_env post_500) "key"
    (groq_payload (build_messages [user_turn demo_query] []))
    (HTTPError 500)
  /\ exists w',
       chat_page_submit (demo_env post_500) demo_query "key" demo_world
       = (Ok tt, w')
       /\ conversation_history w'
          = [user_turn demo_query; assistant_turn apology []]
       /\ In (Ui StError "Error calling Groq API: HTTP error") (log w')
       /\ In (Ui StWrite apology) (log w').
Proof.
  assert (H : generator_failure (demo_env post_500) "key"
                (groq_payload (build_messages [user_turn demo_query] []))
                (HTTPError 500)).
  { right; left. exists (mk_response 500 None).
    split; [reflexivity|]. split; [simpl; lia | reflexivity]. }
  split; [exact H|].
  refine (proj2 (generator_failure_degrades (demo_env post_500))
            demo_query "key" demo_world _ [] (HTTPError 500) _ _ H).
  - reflexivity.
  - reflexivity.
Defined.

(** C3 (as stated) fails for a status outside 200-299 that is no error
    status: with status 300 and a well-formed body the answer and its
    sources are returned and no error is shown. *)
Lemma non_2xx_status_not_a_failure :
  exists r w',
    requests_post (demo_env post_300) groq_api_url "key"
      (groq_payload (build_messages [user_turn demo_query] [demo_hit]))
    = Ok r
    /\ ~ (200 <= status_code r < 300)%Z
    /\ answer_query_with_groq (demo_env post_300) [user_turn demo_query]
         [demo_hit] "key" demo_world
       = (Ok ("Revenue grew 12%.", [demo_hit]), w')
    /\ (forall msg, ~ In (Ui StError msg) (log w')).
Proof.
  eexists; eexists.
  split; [reflexivity|].
  split; [simpl; lia|].
  split; [reflexivity|].
  simpl. intros msg [H|[]]. discriminate H.
Qed.

(** ** Document store *)

Lemma filter_none {A : Type} (p : A -> bool) (l : list A) :
  filter p (filter (fun x => negb (p x)) l) = [].
Proof.
  induction l as [|x l IH]; simpl; trivial.
  destruct (p x) eqn:Hp; simpl; trivial. rewrite Hp; exact IH.
Qed.

Lemma filter_idem {A : Type} (p : A -> bool) (l : list A) :
  filter p (filter p l) = filter p l.
Proof.
  induction l as [|x l IH]; simpl; trivial.
  destruct (p x) eqn:Hp; simpl; trivial. rewrite Hp, IH; reflexivity.
Qed.

(** Deleting rows keeps the identifiers distinct. *)
Lemma file_ids_filter (keep : row -> bool) (rows : list row) :
  NoDup (map r_file_id rows) -> NoDup (map r_file_id (filter keep rows)).
Proof.
  intros Hrows. induction rows as [|r rows IH]; cbn in *; [exact Hrows|].
  apply NoDup_cons_iff in Hrows. destruct Hrows as [Hfresh Hrest].
  destruct (keep r); cbn; [|exact (IH Hrest)].
  apply NoDup_cons; [|exact (IH Hrest)].
  rewrite in_map_iff. intros (r' & Hid & Hr').
  apply Hfresh. rewrite <- Hid. apply in_map.
  apply filter_In in Hr'. apply Hr'.
Qed.

(** After [INSERT OR REPLACE] the table holds the new row and no other
    row with its [file_id]. *)
Lemma insert_or_replace_one (new : row) (rows : list row) :
  filter (fun r => String.eqb (r_file_id r) (r_file_id new))
    (insert_or_replace new rows)
  = [new].
Proof.
  unfold insert_or_replace. rewrite filter_app.
  rewrite (filter_none
             (fun r => String.eqb (r_file_id r) (r_file_id new)) rows).
  simpl. rewrite String.eqb_refl. reflexivity.
Qed.

Lemma insert_or_replace_others (new : row) (rows : list row) :
  filter (fun r => negb (String.eqb (r_file_id r) (r_file_id new)))
    (insert_or_replace new rows)
  = filter (fun r => negb (String.eqb (r_file_id r) (r_file_id new))) rows.
Proof.
  unfold insert_or_replace. rewrite filter_app, filter_idem.
  simpl. rewrite String.eqb_refl. simpl. apply app_nil_r.
Qed.

Lemma insert_or_replace_NoDup (new : row) (rows : list row) :
  NoDup (map r_file_id rows) ->
  NoDup (map r_file_id (insert_or_replace new rows)).
Proof.
  intros H. unfold insert_or_replace. rewrite map_app. simpl.
  apply NoDup_app.
  - apply file_ids_filter, H.
  - constructor; [intros [] | constructor].
  - intros fid Hin [<-|[]].
    apply in_map_iff in Hin. destruct Hin as (r & Hr & Hin).
    apply filter_In in Hin. destruct Hin as [_ Hneq].
    rewrite Hr, String.eqb_refl in Hneq. discriminate Hneq.
Qed.

(** C5: an upsert under a [file_id] - whether or not the table holds a row
    with this id, and whoever owns that row - leaves exactly one row with
    the id, carrying the values just written (owner, text, embedding); the
    rows of the other ids are untouched, and [file_id] stays unique. *)
Theorem upsert_replaces_in_place (user_id file_id name drive_link
    modified_time : string) (size : Z) (parent : string)
    (text_content : option string) (embedding : option emb_text)
    (w : world) :
  let run := save_pdf_to_db user_id file_id name drive_link modified_time
               size parent text_content embedding w in
  fst run = Ok tt
  /\ (exists r,
        filter (fun r => String.eqb (r_file_id r) file_id) (db (snd run))
        = [r]
        /\ r_user_id r = user_id
        /\ r_text_content r = text_content
        /\ r_embedding r = embedding)
  /\ filter (fun r => negb (String.eqb (r_file_id r) file_id))
       (db (snd run))
     = filter (fun r => negb (String.eqb (r_file_id r) file_id)) (db w)
  /\ (NoDup (map r_file_id (db w)) ->
      NoDup (map r_file_id (db (snd run)))).
Proof.
  simpl. split; [reflexivity|].
  set (new := mk_row (db_seq w + 1) user_id file_id name drive_link
                modified_time size parent text_content embedding (clock w)).
  split; [|split].
  - exists new. split; [apply (insert_or_replace_one new)|].
    repeat split.
  - apply (insert_or_replace_others new).
  - apply insert_or_replace_NoDup.
Qed.

Lemma upsert_replaces_in_place_witness :
  NoDup (map r_file_id (db alice_world))
  /\ NoDup (map r_file_id
       (db (snd (save_pdf_to_db "default_user" "doc-revenue" "q3.pdf"
                   "https://drive.google.com/file/d/doc-revenue/view" ""
                   12 "Drive" (Some "Q3 revenue grew 12%")
                   (Some (EmbJson [1; 0])) alice_world)))).
Proof.
  assert (H : NoDup (map r_file_id (db alice_world))).
  { simpl. constructor; [intros [] | constructor]. }
  split; [exact H|].
  destruct (upsert_replaces_in_place "default_user" "doc-revenue" "q3.pdf"
              "https://drive.google.com/file/d/doc-revenue/view" ""
              12 "Drive" (Some "Q3 revenue grew 12%")
              (Some (EmbJson [1; 0])) alice_world) as (_ & _ & _ & Hu).
  exact (Hu H).
Defined.

(** ** The range of the cosine similarity *)

(** Cauchy-Schwarz, for the squares. *)
Lemma dot_sqr_le (a b : vec) : dot a b * dot a b <= dot a a * dot b b.
Proof.
  revert b; induction a as [|x a IH]; intros [|y b]; simpl; try lra.
  specialize (IH b).
  pose proof (dot_self_nonneg a) as HA.
  pose proof (dot_self_nonneg b) as HB.
  remember (dot a b) as d eqn:Ed. remember (dot a a) as A eqn:EA.
  remember (dot b b) as B eqn:EB. clear Ed EA EB.
  assert (Hmix : 2 * (x * y * d) <= x * x * B + y * y * A).
  { destruct (Req_dec_T A 0) as [HA0|HA0].
    - assert (Hd : d = 0) by nra. rewrite Hd. nra.
    - assert (HApos : 0 < A) by lra.
      assert (H1 : 0 <= (x * d - y * A) * (x * d - y * A))
        by exact (Rle_0_sqr _).
      assert (H2 : 0 <= x * x * (A * B - d * d))
        by (apply Rmult_le_pos; [exact (Rle_0_sqr _) | lra]).
      assert (H3 : 0 <= A * (x * x * B + y * y * A - 2 * (x * y * d))).
      { replace (A * (x * x * B + y * y * A - 2 * (x * y * d)))
          with (x * x * (A * B - d * d)
                + (x * d - y * A) * (x * d - y * A)) by ring.
        lra. }
      destruct (Rle_dec (2 * (x * y * d)) (x * x * B + y * y * A))
        as [Hle|Hgt]; [exact Hle|].
      exfalso. apply Rnot_le_lt in Hgt.
      assert (A * (x * x * B + y * y * A - 2 * (x * y * d)) < 0).
      { rewrite <- (Rmult_0_r A). apply Rmult_lt_compat_l; lra. }
      lra. }
  replace ((x * y + d) * (x * y + d))
    with (x * x * (y * y) + 2 * (x * y * d) + d * d) by ring.
  replace ((x * x + A) * (y * y + B))
    with (x * x * (y * y) + (x * x * B + y * y * A) + A * B) by ring.
  lra.
Qed.

Lemma dot_le_norms (a b : vec) : dot a b <= np_norm a * np_norm b.
Proof.
  pose proof (dot_sqr_le a b) as H.
  pose proof (np_norm_nonneg a) as Ha. pose proof (np_norm_nonneg b) as Hb.
  rewrite <- (np_norm_sqr a), <- (np_norm_sqr b) in H.
  pose proof (Rmult_le_pos _ _ Ha Hb) as Hp.
  remember (np_norm a * np_norm b) as p eqn:Ep.
  replace (np_norm a * np_norm a * (np_norm b * np_norm b)) with (p * p)
    in H by (rewrite Ep; ring).
  destruct (Rle_dec (dot a b) p) as [Hle|Hgt]; [exact Hle|].
  exfalso. apply Rnot_le_lt in Hgt.
  pose proof (Rmult_le_0_lt_compat p (dot a b) p (dot a b) Hp Hp Hgt Hgt).
  lra.
Qed.

(** A quotient [np_div] yields is [nan] or a finite number: with a zero
    product of norms the dot product is zero too. *)
Lemma cosine_sim_value (a b : vec) (s : float64) :
  cosine_sim a b = Ok s ->
  s = NaN \/ exists r, s = Fin r /\ r <= 1.
Proof.
  unfold cosine_sim, np_dot.
  destruct (Nat.eqb (List.length a) (List.length b)); [|discriminate].
  intros H; injection H as <-.
  destruct (Req_dec_T (np_norm a * np_norm b) 0) as [Hz|Hnz].
  - left. apply Rmult_integral in Hz.
    destruct (zero_norm_operands a b Hz) as [Hd Hn].
    rewrite Hd, Hn. apply np_div_zero_zero.
  - right. rewrite (np_div_nonzero _ _ Hnz). eexists; split; [reflexivity|].
    pose proof (dot_le_norms a b) as Hle.
    pose proof (np_norm_nonneg a) as Ha.
    pose proof (np_norm_nonneg b) as Hb.
    assert (Hp : 0 < np_norm a * np_norm b) by nra.
    apply (Rmult_le_reg_r (np_norm a * np_norm b)); trivial.
    unfold Rdiv. rewrite Rmult_assoc, Rinv_l, Rmult_1_r, Rmult_1_l; trivial.
Qed.

Lemma float_gtb_fin (s : float64) (t r : R) :
  s = Fin r -> float_gtb s t = true -> t < r.
Proof.
  intros -> H. simpl in H. destruct (Rlt_dec t r); [assumption|discriminate].
Qed.

(** A score that passes the threshold is a number in (0.1, 1]. *)
Lemma passing_score (a b : vec) (s : float64) :
  cosine_sim a b = Ok s -> float_gtb s (1 / 10) = true ->
  exists r, s = Fin r /\ 1 / 10 < r <= 1.
Proof.
  intros Hc Hg. destruct (cosine_sim_value a b s Hc) as [->|(r & Hs & Hr)].
  - discriminate Hg.
  - exists r. split; [exact Hs|]. split; [|exact Hr].
    apply (float_gtb_fin s _ r Hs Hg).
Qed.

(** ** Sorting *)

Section Sorting.

Context {A : Type}.
Variable key : A -> float64.

Lemma insert_desc_perm (x : A) (l : list A) :
  Permutation (insert_desc key x l) (x :: l).
Proof.
  induction l as [|y l IH]; simpl; [apply Permutation_refl|].
  destruct (float_ltb (key x) (key y)); [|apply Permutation_refl].
  apply perm_trans with (y :: x :: l); [apply perm_skip, IH | apply perm_swap].
Qed.

Lemma py_sorted_desc_perm (l : list A) :
  Permutation (py_sorted_desc key l) l.
Proof.
  induction l as [|x l IH]; simpl; [apply perm_nil|].
  apply perm_trans with (x :: py_sorted_desc key l);
    [apply insert_desc_perm | apply perm_skip, IH].
Qed.

Lemma ge_of_not_ltb (x y : A) :
  key_fin key x -> key_fin key y ->
  float_ltb (key x) (key y) = false -> key_ge key x y.
Proof.
  intros [r Hr] [s Hs] H. exists r, s. rewrite Hr, Hs in H |- *.
  simpl in H. destruct (Rlt_dec r s); [discriminate|].
  repeat split. lra.
Qed.

Lemma ge_of_ltb (x y : A) :
  key_fin key x -> key_fin key y ->
  float_ltb (key x) (key y) = true -> key_ge key y x.
Proof.
  intros [r Hr] [s Hs] H. exists s, r. rewrite Hr, Hs in H |- *.
  simpl in H. destruct (Rlt_dec r s); [|discriminate].
  repeat split. lra.
Qed.

Lemma ge_trans (x y z : A) :
  key_ge key x y -> key_ge key y z -> key_ge key x z.
Proof.
  intros (r & s & Hr & Hs & H1) (s' & t & Hs' & Ht & H2).
  rewrite Hs in Hs'. injection Hs' as <-.
  exists r, t. repeat split; trivial. lra.
Qed.

Lemma insert_desc_sorted (x : A) (l : list A) :
  key_fin key x -> Forall (key_fin key) l ->
  StronglySorted (key_ge key) l ->
  StronglySorted (key_ge key) (insert_desc key x l).
Proof.
  intros Hx Hl Hs. induction l as [|y l IH]; simpl.
  - constructor; constructor.
  - inversion Hl as [|? ? Hy Hl']; subst.
    inversion Hs as [|? ? Hs' Hyl]; subst.
    destruct (float_ltb (key x) (key y)) eqn:Hlt.
    + constructor; [apply IH; assumption|].
      apply Forall_forall. intros z Hz.
      apply (Permutation_in _ (insert_desc_perm x l)) in Hz.
      destruct Hz as [<-|Hz].
      * apply ge_of_ltb; assumption.
      * rewrite Forall_forall in Hyl. apply Hyl, Hz.
    + assert (Hxy : key_ge key x y) by (apply ge_of_not_ltb; assumption).
      constructor; [exact Hs|].
      constructor; [exact Hxy|].
      apply Forall_forall. intros z Hz.
      rewrite Forall_forall in Hyl.
      apply ge_trans with y; [exact Hxy | apply Hyl, Hz].
Qed.

(** The result is in descending order when every key is a number. *)
Lemma py_sorted_desc_sorted (l : list A) :
  Forall (key_fin key) l ->
  StronglySorted (key_ge key) (py_sorted_desc key l).
Proof.
  induction 1 as [|x l Hx Hl IH]; simpl; [constructor|].
  apply insert_desc_sorted; trivial.
  apply Forall_forall. intros z Hz.
  apply (Permutation_in _ (py_sorted_desc_perm l)) in Hz.
  rewrite Forall_forall in Hl. apply Hl, Hz.
Qed.




End Sorting.

(** ** Prefixes *)

Lemma py_slice_to_count {A : Type} (k : nat) (l : list A) :
  py_slice_to (Z.of_nat k) l = firstn k l.
Proof.
  unfold py_slice_to.
  destruct (Z.leb_spec 0 (Z.of_nat k)); [|lia].
  rewrite Nat2Z.id. reflexivity.
Qed.

(** A negative [top_k] is no count: the slice then drops from the end. *)
Lemma py_slice_to_negative :
  py_slice_to (-1) ["a"; "b"; "c"] = ["a"; "b"].
Proof. reflexivity. Qed.


Lemma firstn_In {A : Type} (k : nat) (l : list A) (x : A) :
  In x (firstn k l) -> In x l.
Proof.
  intros H. rewrite <- (firstn_skipn k l). apply in_or_app; left; exact H.
Qed.


(** ** Retriever: ranking *)

Lemma search_step_spec (query_emb : vec) (results : list hit) (r : row) :
  search_step query_emb results r
  = (results ++ match score_row query_emb r with
                | Ok (Some h) => [h]
                | _ => []
                end)%list.
Proof.
  unfold search_step.
  destruct (score_row query_emb r) as [[h|]|e]; trivial;
    symmetry; apply app_nil_r.
Qed.

(** The loop of [semantic_search] collects the passing entries in the
    order of the rows. *)
Lemma search_loop_spec (query_emb : vec) (rows : list row)
    (results : list hit) :
  fold_left (search_step query_emb) rows results
  = (results ++ spec_candidates query_emb rows)%list.
Proof.
  revert results; induction rows as [|r rows IH]; intros results; simpl.
  - symmetry; apply app_nil_r.
  - rewrite IH, search_step_spec, <- app_assoc. reflexivity.
Qed.

(** An entry comes from a row whose embedding is present and parses, and
    its score is the cosine similarity, above the threshold. *)
Lemma score_row_sound (query_emb : vec) (r : row) (h : hit) :
  score_row query_emb r = Ok (Some h) ->
  exists v,
    r_embedding r = Some (EmbJson v)
    /\ cosine_sim query_emb v = Ok (h_score h)
    /\ float_gtb (h_score h) (1 / 10) = true
    /\ h = hit_of r (h_score h).
Proof.
  unfold score_row.
  destruct (r_embedding r) as [[v|s]|]; simpl; try discriminate.
  - destruct (cosine_sim query_emb v) as [score|e] eqn:Hc; [|discriminate].
    destruct (float_gtb score (1 / 10)) eqn:Hg; [|discriminate].
    intros H; injection H as <-. exists v. simpl. repeat split; trivial.
  - destruct (str_truthy s); discriminate.
Qed.

Lemma spec_candidates_sound (query_emb : vec) (rows : list row) (h : hit) :
  In h (spec_candidates query_emb rows) ->
  exists r v,
    In r rows
    /\ r_embedding r = Some (EmbJson v)
    /\ cosine_sim query_emb v = Ok (h_score h)
    /\ float_gtb (h_score h) (1 / 10) = true
    /\ h = hit_of r (h_score h).
Proof.
  unfold spec_candidates. intros H. apply in_flat_map in H.
  destruct H as (r & Hr & Hh).
  destruct (score_row query_emb r) as [[h'|]|e] eqn:Hs; simpl in Hh;
    try contradiction.
  destruct Hh as [<-|[]].
  destruct (score_row_sound _ _ _ Hs) as (v & H1 & H2 & H3 & H4).
  exists r, v. repeat split; assumption.
Qed.

Lemma select_embedded_In (scope : option string) (rows : list row)
    (r : row) :
  In r (select_embedded scope rows) -> In r rows /\ in_scope scope r.
Proof.
  unfold select_embedded. intros H. apply filter_In in H.
  destruct H as [Hin H]. split; [exact Hin|].
  destruct (r_embedding r); [|discriminate].
  destruct scope as [u|]; simpl; [|exact I].
  apply String.eqb_eq, H.
Qed.

Section Retriever.

Variable E : collaborators.

(** A search that returns has encoded the query and ranked the candidates
    of the table it started from. *)
Lemma semantic_search_inv (query : string) (top_k : Z)
    (user_id : option string) (w w' : world) (hits : list hit) :
  str_truthy query = true ->
  semantic_search E query top_k user_id w = (Ok hits, w') ->
  exists model query_emb,
    encode E model query = Ok query_emb
    /\ hits = py_slice_to top_k
                (py_sorted_desc h_score
                   (spec_candidates query_emb
                      (select_embedded (scope_of user_id) (db w)))).
Proof.
  intros Hq. unfold semantic_search. rewrite Hq. cbn [negb].
  unfold bind at 1. cbv beta.
  pose proof (frame_get_embed_model E w) as F1.
  destruct (get_embed_model E w) as [[m|e] w1]; [|discriminate].
  simpl in F1. destruct F1 as (Hdb1 & _).
  unfold bind at 1.
  pose proof (frame_model_encode E m query w1) as F2.
  destruct (model_encode E m query w1) as [[qe|e] w2] eqn:Henc;
    [|discriminate].
  simpl in F2. destruct F2 as (Hdb2 & _).
  unfold bind, emit, modify, get, ret. simpl.
  intros H; injection H as <- _.
  rewrite search_loop_spec. simpl app. rewrite Hdb2, Hdb1.
  unfold model_encode in Henc. destruct m as [name|]; [|discriminate].
  unfold bind, emit, modify, lift in Henc. simpl in Henc.
  destruct (encode E name query) as [v|e] eqn:Hv; [|discriminate].
  injection Henc as -> _.
  exists name, qe. split; [exact Hv | reflexivity].
Qed.

End Retriever.

Section Ranking.

Variable E : collaborators.


End Ranking.

Section SearchRuns.

Variable E : collaborators.

(** With the model loaded and the query encoded, a search returns. *)
Lemma semantic_search_loaded (query : string) (top_k : Z)
    (user_id : option string) (w : world) (name : string) (qe : vec) :
  str_truthy query = true ->
  embed_model w = Some name ->
  encode E name query = Ok qe ->
  semantic_search E query top_k user_id w
  = (Ok (py_slice_to top_k
           (py_sorted_desc h_score
              (spec_candidates qe
                 (select_embedded (scope_of user_id) (db w))))),
     set_log (log w ++ [Encode name query; DbRead (scope_of user_id)]) w).
Proof.
  intros Hq Hm He. unfold semantic_search. rewrite Hq. cbn [negb].
  unfold get_embed_model, model_encode, bind, get, emit, modify, lift, ret.
  cbn [fst snd]. rewrite Hm. cbn [embed_model set_log]. rewrite Hm, He.
  cbn [db set_log log]. rewrite search_loop_spec, <- app_assoc.
  reflexivity.
Qed.

End SearchRuns.

Lemma np_norm_unit : np_norm [1; 0] = 1.
Proof.
  unfold np_norm; simpl.
  replace (1 * 1 + (0 * 0 + 0)) with 1 by ring. apply sqrt_1.
Qed.

Lemma score_revenue_row :
  score_row [1; 0] revenue_row = Ok (Some (hit_of revenue_row (Fin 1))).
Proof.
  unfold score_row. cbn [r_embedding revenue_row emb_truthy json_loads].
  rewrite cosine_sim_self by (rewrite np_norm_unit; lra).
  cbn [float_gtb]. destruct (Rlt_dec (1 / 10) 1); [reflexivity | lra].
Qed.

Lemma score_recipes_row : score_row [1; 0] recipes_row = Ok None.
Proof.
  unfold score_row. cbn [r_embedding recipes_row emb_truthy json_loads].
  unfold cosine_sim, np_dot. cbn [List.length Nat.eqb dot].
  rewrite np_norm_unit.
  assert (Hn : np_norm [0; 1] = 1).
  { unfold np_norm; simpl.
    replace (0 * 0 + (1 * 1 + 0)) with 1 by ring. apply sqrt_1. }
  rewrite Hn, np_div_nonzero by lra.
  cbn [float_gtb].
  destruct (Rlt_dec (1 / 10) ((1 * 0 + (0 * 1 + 0)) / (1 * 1)));
    [|reflexivity].
  exfalso.
  replace ((1 * 0 + (0 * 1 + 0)) / (1 * 1)) with 0 in r by field. lra.
Qed.

(** The search of the example table finds the one document that matches. *)
Lemma library_search :
  semantic_search (demo_env post_500) demo_query 5 (Some "default_user")
    library_world
  = (Ok [hit_of revenue_row (Fin 1)],
     set_log [Encode "all-MiniLM-L6-v2" demo_query;
              DbRead (Some "default_user")] library_world).
Proof.
  rewrite (semantic_search_loaded (demo_env post_500) demo_query 5
             (Some "default_user") library_world "all-MiniLM-L6-v2" [1; 0]);
    try reflexivity.
  f_equal. f_equal.
  change (select_embedded (scope_of (Some "default_user")) (db library_world))
    with [revenue_row; recipes_row].
  unfold spec_candidates. cbn [flat_map].
  rewrite score_revenue_row, score_recipes_row. reflexivity.
Qed.


(** ** Import: the collaborators' failures are absorbed *)

Section Extraction.

Variable E : collaborators.

Lemma is_authenticated_runs (w : world) :
  exists b, is_authenticated E w = (Ok b, w).
Proof.
  unfold is_authenticated, bind, get, ret.
  destruct (google_credentials w) as [c|]; [|eexists; reflexivity].
  destruct (cred_valid c); cbn [negb]; [eexists; reflexivity|].
  destruct (cred_refresh_token c) as [token|]; [|eexists; reflexivity].
  destruct (str_truthy token); [|eexists; reflexivity].
  destruct (refresh E c); eexists; reflexivity.
Qed.

(** [init_drive_service] never raises: without a service it returns
    [None]. *)
Lemma init_drive_service_runs (w : world) :
  exists svc w', init_drive_service E w = (Ok svc, w') /\ frame w w'.
Proof.
  unfold init_drive_service. unfold bind at 1.
  destruct (is_authenticated_runs w) as [b ->].
  destruct b; cbn [negb].
  2:{ exists None, w. split; [reflexivity | apply frame_refl]. }
  unfold try_except, bind, get, lift, ret, raise, st_error.
  destruct (google_credentials w) as [c|].
  - destruct (build_drive E c) as [s|e].
    + exists (Some s), w. split; [reflexivity | apply frame_refl].
    + eexists None, _. split; [reflexivity | apply frame_emit].
  - eexists None, _. split; [reflexivity | apply frame_emit].
Qed.

(** [download_pdf_content] never raises: it returns a text, empty when
    the download or the reader failed, and then it has shown the error. *)
Lemma download_pdf_content_runs (svc : option service) (file_id : string)
    (w : world) :
  exists text w',
    download_pdf_content E svc file_id w = (Ok text, w')
    /\ frame w w'
    /\ ((svc = None
         \/ exists s e, svc = Some s /\ fetch_pages E s file_id = Raise e) ->
        text = ""
        /\ exists e,
             In (Ui StError ("Error downloading PDF content: "
                             ++ exn_str E e)) (log w')).
Proof.
  unfold download_pdf_content, try_except.
  destruct svc as [s|].
  - unfold bind, emit, modify, lift, ret, st_error. cbn [fst snd].
    destruct (fetch_pages E s file_id) as [pages|e] eqn:Hf.
    + eexists _, _. split; [reflexivity|]. split; [apply frame_emit|].
      intros [H|(s' & e & H & Hr)]; [discriminate H|].
      injection H as <-. rewrite Hf in Hr. discriminate Hr.
    + eexists _, _. split; [reflexivity|]. split.
      * eapply frame_trans; [apply (frame_emit (DriveFetch file_id))|].
        apply frame_emit.
      * intros _. split; [reflexivity|]. exists e. cbn [log set_log].
        apply in_or_app; right; left; reflexivity.
  - unfold raise, bind, st_error, emit, modify, ret. cbn [fst snd].
    eexists _, _. split; [reflexivity|]. split; [apply frame_emit|].
    intros _. split; [reflexivity|]. exists AttributeError.
    cbn [log set_log]. apply in_or_app; right; left; reflexivity.
Qed.

(** An embedding that was computed is the JSON text of a vector. *)
Lemma compute_embedding_json (text : string) (w w' : world)
    (emb : emb_text) :
  compute_embedding E text w = (Ok emb, w') -> exists v, emb = EmbJson v.
Proof.
  unfold compute_embedding. unfold bind at 1.
  destruct (get_embed_model E w) as [[m|e] w1]; [|discriminate].
  unfold bind at 1.
  destruct (model_encode E m _ w1) as [[v|e] w2]; [|discriminate].
  unfold ret. intros H; injection H as <- _. exists v; reflexivity.
Qed.

End Extraction.

Section ImportTurn.

Variable E : collaborators.

(** One turn of the import loop, by cases on what extraction and
    embedding gave.  [text] is the extracted text and [w1] the world after
    extraction. *)
Lemma import_pdfs_iter_cases (i total_pdfs : nat) (pdf : pdf_file)
    (n : nat) (w : world) :
  exists svc w0 text w1,
    init_drive_service E
      (snd (status_text (processing_msg i total_pdfs pdf) w)) = (Ok svc, w0)
    /\ download_pdf_content E svc (pdf_id pdf) w0 = (Ok text, w1)
    /\ frame w w1
    /\ ((str_truthy text = false
         /\ import_pdfs_iter E i total_pdfs pdf n w
            = (Ok n,
               set_log
                 (log w1
                  ++ [Ui StWarning
                        ("No text content extracted from: " ++ pdf_name pdf);
                      Progress (i + 1) total_pdfs]) w1))
        \/ (str_truthy text = true
            /\ exists e w2,
                 compute_embedding E text w1 = (Raise e, w2)
                 /\ frame w w2
                 /\ import_pdfs_iter E i total_pdfs pdf n w
                    = (Ok n,
                       set_log
                         (log w2
                          ++ [Ui StError
                                ("Error processing " ++ pdf_name pdf ++ ": "
                                 ++ exn_str E e)]) w2))
        \/ (str_truthy text = true
            /\ exists v w2,
                 compute_embedding E text w1 = (Ok (EmbJson v), w2)
                 /\ frame w w2
                 /\ import_pdfs_iter E i total_pdfs pdf n w
                    = (Ok (n + 1)%nat,
                       set_log
                         (log w2
                          ++ [DbWrite (pdf_id pdf);
                              Ui StSuccess ("Imported: " ++ pdf_name pdf);
                              Progress (i + 1) total_pdfs])
                         (set_db
                            (insert_or_replace (imported_row pdf text v w2)
                               (db w2))
                            (db_seq w2 + 1) w2)))).
Proof.
  pose proof (frame_emit (Ui StatusText (processing_msg i total_pdfs pdf)) w)
    as F0.
  destruct (init_drive_service_runs E
              (snd (status_text (processing_msg i total_pdfs pdf) w)))
    as (svc & w0 & Hinit & F1).
  destruct (download_pdf_content_runs E svc (pdf_id pdf) w0)
    as (text & w1 & Hdl & F2 & _).
  assert (Fw1 : frame w w1).
  { eapply frame_trans; [exact F0|]. eapply frame_trans; eassumption. }
  exists svc, w0, text, w1.
  split; [exact Hinit|]. split; [exact Hdl|]. split; [exact Fw1|].
  assert (Hs : status_text (processing_msg i total_pdfs pdf) w
               = (Ok tt,
                  snd (status_text (processing_msg i total_pdfs pdf) w)))
    by reflexivity.
  unfold import_pdfs_iter.
  destruct (str_truthy text) eqn:Ht.
  - right. pose proof (frame_compute_embedding E text w1) as F3.
    destruct (compute_embedding E text w1) as [[emb|e] w2] eqn:Hc;
      cbn [snd] in F3.
    + right. split; [reflexivity|].
      destruct (compute_embedding_json E text w1 w2 emb Hc) as [v ->].
      exists v, w2. split; [reflexivity|].
      split; [eapply frame_trans; eassumption|].
      apply try_except_ok. unfold import_pdfs_try.
      fold (processing_msg i total_pdfs pdf).
      rewrite (bind_ok _ _ _ _ _ Hs), (bind_ok _ _ _ _ _ Hinit),
        (bind_ok _ _ _ _ _ Hdl), Ht.
      unfold bind at 1. rewrite (bind_ok _ _ _ _ _ Hc).
      unfold save_pdf_to_db, st_success, emit, modify, get, ret, bind.
      unfold imported_row, set_log, set_db.
      cbn [db db_seq clock embed_model ss_user_id google_credentials
           conversation_history import_complete log].
      rewrite <- !app_assoc. reflexivity.
    + left. split; [reflexivity|]. exists e, w2.
      split; [reflexivity|].
      split; [eapply frame_trans; eassumption|].
      assert (Htry : import_pdfs_try E i total_pdfs pdf n w = (Raise e, w2)).
      { unfold import_pdfs_try. fold (processing_msg i total_pdfs pdf).
        rewrite (bind_ok _ _ _ _ _ Hs), (bind_ok _ _ _ _ _ Hinit),
          (bind_ok _ _ _ _ _ Hdl), Ht.
        unfold bind at 1. rewrite (bind_raise _ _ _ _ _ Hc). reflexivity. }
      rewrite (try_except_raise _ _ _ _ _ Htry). reflexivity.
  - left. split; [reflexivity|].
    apply try_except_ok. unfold import_pdfs_try.
    fold (processing_msg i total_pdfs pdf).
    rewrite (bind_ok _ _ _ _ _ Hs), (bind_ok _ _ _ _ _ Hinit),
      (bind_ok _ _ _ _ _ Hdl), Ht.
    unfold st_warning, emit, modify, ret, bind.
    unfold set_log.
    cbn [db db_seq clock embed_model ss_user_id google_credentials
         conversation_history import_complete log].
    rewrite <- !app_assoc. reflexivity.
Qed.

End ImportTurn.

(** ** Import: the batch *)

Lemma str_truthy_nonempty (s : string) : str_truthy s = true -> s <> "".
Proof. destruct s; [discriminate | discriminate]. Qed.

Lemma str_truthy_empty (s : string) : str_truthy s = false -> s = "".
Proof. destruct s; [reflexivity | discriminate]. Qed.

Section ImportBatch.

Variable E : collaborators.

(** A turn of the loop returns, and the document is imported or skipped
    with a report. *)
Lemma import_pdfs_iter_outcome (i total_pdfs : nat) (pdf : pdf_file)
    (n : nat) (w : world) :
  exists n1 w1,
    import_pdfs_iter E i total_pdfs pdf n w = (Ok n1, w1)
    /\ (doc_imported pdf n w n1 w1 \/ doc_skipped E pdf n w n1 w1).
Proof.
  destruct (import_pdfs_iter_cases E i total_pdfs pdf n w)
    as (svc & w0 & text & w1 & _ & _ & F
        & [(Ht & Hrun) | [(Ht & e & w2 & _ & F2 & Hrun)
                         | (Ht & v & w2 & _ & F2 & Hrun)]]).
  - eexists _, _. split; [exact Hrun|]. right.
    destruct F as (Hdb & Hseq & _ & _ & _ & _ & _ & evs & Hlog).
    unfold doc_skipped. cbn [db db_seq log set_log].
    repeat split; trivial.
    eexists. rewrite Hlog, <- app_assoc. split; [reflexivity|].
    left. apply in_or_app; right; left; reflexivity.
  - eexists _, _. split; [exact Hrun|]. right.
    destruct F2 as (Hdb & Hseq & _ & _ & _ & _ & _ & evs & Hlog).
    unfold doc_skipped. cbn [db db_seq log set_log].
    repeat split; trivial.
    eexists. rewrite Hlog, <- app_assoc. split; [reflexivity|].
    right. exists e. apply in_or_app; right; left; reflexivity.
  - eexists _, _. split; [exact Hrun|]. left.
    destruct F2 as (Hdb & Hseq & Hclock & Huser & _).
    unfold doc_imported. cbn [db db_seq log set_log set_db].
    split; [reflexivity|]. exists text, v.
    split; [apply str_truthy_nonempty, Ht|].
    unfold imported_row. rewrite Hdb, Hseq, Hclock, Huser.
    split; reflexivity.
Qed.

(** The loop returns, having taken every document of the batch in turn. *)
Lemma import_pdfs_loop_runs (total_pdfs : nat) (pdfs : list pdf_file)
    (i n : nat) (w : world) :
  exists n' w',
    import_pdfs_loop E i total_pdfs pdfs n w = (Ok n', w')
    /\ batch_run E total_pdfs i pdfs n w n' w'.
Proof.
  revert i n w; induction pdfs as [|pdf rest IH]; intros i n w.
  - exists n, w. split; [reflexivity | constructor].
  - destruct (import_pdfs_iter_outcome i total_pdfs pdf n w)
      as (n1 & w1 & Hrun & Hout).
    destruct (IH (S i) n1 w1) as (n2 & w2 & Hloop & Hbatch).
    exists n2, w2. split.
    + cbn [import_pdfs_loop]. rewrite (bind_ok _ _ _ _ _ Hrun). exact Hloop.
    + econstructor; eassumption.
Qed.

(** [import_pdfs] returns; around the loop it only shows messages. *)
Lemma import_pdfs_runs (selected_pdfs : list pdf_file) (w : world) :
  exists n w0 w1 w',
    import_pdfs E selected_pdfs w = (Ok n, w')
    /\ db w0 = db w /\ db_seq w0 = db_seq w
    /\ batch_run E (List.length selected_pdfs) 0 selected_pdfs 0 w0 n w1
    /\ db w' = db w1 /\ db_seq w' = db_seq w1.
Proof.
  unfold import_pdfs.
  set (total := List.length selected_pdfs).
  set (w0 := set_log
               (log w
                ++ [Progress 0 1;
                    Ui StInfo ("Importing " ++ str_of_nat total
                               ++ " PDFs for user: " ++ ss_user_id w)]) w).
  destruct (import_pdfs_loop_runs total selected_pdfs 0 0 w0)
    as (n & w1 & Hloop & Hbatch).
  exists n, w0, w1.
  assert (Hstart : forall B (k : nat -> M B),
            (emit (Progress 0 1) ;;;
             user_id <- get ss_user_id ;;
             st_info ("Importing " ++ str_of_nat total ++ " PDFs for user: "
                      ++ user_id) ;;;
             successful_imports <- import_pdfs_loop E 0 total selected_pdfs 0 ;;
             k successful_imports) w
            = k n w1).
  { intros B k. unfold st_info, emit, modify, get, bind at 1 2 3.
    cbn [fst snd log set_log ss_user_id].
    unfold set_log at 1. cbn [log ss_user_id db db_seq clock embed_model
      google_credentials conversation_history import_complete].
    rewrite <- app_assoc. cbn [app]. fold w0.
    apply bind_ok. exact Hloop. }
  rewrite Hstart.
  unfold status_text, st_success, st_info, st_error, emit, modify, ret, bind.
  destruct (0 <? n)%nat; eexists; (split; [reflexivity|]);
    repeat split; trivial.
Qed.

End ImportBatch.

Section ImportFailures.

Variable E : collaborators.

(** A document whose extracted text is empty is skipped with a warning. *)
Lemma import_turn_empty_text (i total_pdfs : nat) (pdf : pdf_file)
    (n : nat) (w w0 w1 : world) (svc : option service) :
  init_drive_service E
    (snd (status_text (processing_msg i total_pdfs pdf) w)) = (Ok svc, w0) ->
  download_pdf_content E svc (pdf_id pdf) w0 = (Ok "", w1) ->
  exists w',
    import_pdfs_iter E i total_pdfs pdf n w = (Ok n, w')
    /\ db w' = db w /\ db_seq w' = db_seq w
    /\ In (Ui StWarning ("No text content extracted from: " ++ pdf_name pdf))
         (log w').
Proof.
  intros Hinit Hdl.
  destruct (import_pdfs_iter_cases E i total_pdfs pdf n w)
    as (svc' & w0' & text & w1' & Hinit' & Hdl' & F & Hcases).
  rewrite Hinit in Hinit'. injection Hinit' as <- <-.
  rewrite Hdl in Hdl'. injection Hdl' as <- <-.
  destruct Hcases as [(_ & Hrun) | [(Ht & _) | (Ht & _)]];
    try discriminate Ht.
  destruct F as (Hdb & Hseq & _).
  eexists. split; [exact Hrun|]. cbn [db db_seq log set_log].
  repeat split; trivial.
  apply in_or_app; right; left; reflexivity.
Qed.

(** A document whose text cannot be embedded is skipped with an error. *)
Lemma import_turn_embedding_error (i total_pdfs : nat) (pdf : pdf_file)
    (n : nat) (w w0 w1 w2 : world) (svc : option service) (text : string)
    (e : exn) :
  init_drive_service E
    (snd (status_text (processing_msg i total_pdfs pdf) w)) = (Ok svc, w0) ->
  download_pdf_content E svc (pdf_id pdf) w0 = (Ok text, w1) ->
  text <> "" ->
  compute_embedding E text w1 = (Raise e, w2) ->
  exists w',
    import_pdfs_iter E i total_pdfs pdf n w = (Ok n, w')
    /\ db w' = db w /\ db_seq w' = db_seq w
    /\ In (Ui StError ("Error processing " ++ pdf_name pdf ++ ": "
                       ++ exn_str E e)) (log w').
Proof.
  intros Hinit Hdl Htext Hemb.
  destruct (import_pdfs_iter_cases E i total_pdfs pdf n w)
    as (svc' & w0' & text' & w1' & Hinit' & Hdl' & F & Hcases).
  rewrite Hinit in Hinit'. injection Hinit' as <- <-.
  rewrite Hdl in Hdl'. injection Hdl' as <- <-.
  destruct Hcases as [(Ht & _) | [(_ & e' & w2' & Hemb' & F2 & Hrun)
                                 | (_ & v & w2' & Hemb' & _)]].
  - apply str_truthy_empty in Ht. contradiction.
  - rewrite Hemb in Hemb'. injection Hemb' as <- <-.
    destruct F2 as (Hdb & Hseq & _).
    eexists. split; [exact Hrun|]. cbn [db db_seq log set_log].
    repeat split; trivial.
    apply in_or_app; right; left; reflexivity.
  - rewrite Hemb in Hemb'. discriminate Hemb'.
Qed.

(** C8: a batch import never aborts.  [import_pdfs] returns, its loop
    having taken every document in order, each imported or skipped with a
    report; and each kind of failure - extraction error, empty text,
    embedding error - leaves the turn to end normally with the document
    reported and the table untouched. *)
Theorem import_batch_never_aborts :
  (forall (selected_pdfs : list pdf_file) (w : world),
     exists n w0 w1 w',
       import_pdfs E selected_pdfs w = (Ok n, w')
       /\ db w0 = db w /\ db_seq w0 = db_seq w
       /\ batch_run E (List.length selected_pdfs) 0 selected_pdfs 0 w0 n w1
       /\ db w' = db w1 /\ db_seq w' = db_seq w1)
  /\ (forall (svc : option service) (file_id : string) (w : world),
        svc = None
        \/ (exists s e, svc = Some s /\ fetch_pages E s file_id = Raise e) ->
        exists w',
          download_pdf_content E svc file_id w = (Ok "", w')
          /\ exists e,
               In (Ui StError ("Error downloading PDF content: "
                               ++ exn_str E e)) (log w'))
  /\ (forall (i total_pdfs : nat) (pdf : pdf_file) (n : nat)
             (w w0 w1 : world) (svc : option service),
        init_drive_service E
          (snd (status_text (processing_msg i total_pdfs pdf) w))
        = (Ok svc, w0) ->
        download_pdf_content E svc (pdf_id pdf) w0 = (Ok "", w1) ->
        exists w',
          import_pdfs_iter E i total_pdfs pdf n w = (Ok n, w')
          /\ db w' = db w /\ db_seq w' = db_seq w
          /\ In (Ui StWarning
                   ("No text content extracted from: " ++ pdf_name pdf))
               (log w'))
  /\ (forall (i total_pdfs : nat) (pdf : pdf_file) (n : nat)
             (w w0 w1 w2 : world) (svc : option service) (text : string)
             (e : exn),
        init_drive_service E
          (snd (status_text (processing_msg i total_pdfs pdf) w))
        = (Ok svc, w0) ->
        download_pdf_content E svc (pdf_id pdf) w0 = (Ok text, w1) ->
        text <> "" ->
        compute_embedding E text w1 = (Raise e, w2) ->
        exists w',
          import_pdfs_iter E i total_pdfs pdf n w = (Ok n, w')
          /\ db w' = db w /\ db_seq w' = db_seq w
          /\ In (Ui StError ("Error processing " ++ pdf_name pdf ++ ": "
                             ++ exn_str E e)) (log w')).
Proof.
  split; [apply import_pdfs_runs|].
  split.
  { intros svc file_id w H.
    destruct (download_pdf_content_runs E svc file_id w)
      as (text & w' & Hrun & _ & Hfail).
    destruct (Hfail H) as [-> Herr]. exists w'. split; assumption. }
  split; [apply import_turn_empty_text | apply import_turn_embedding_error].
Qed.

(** What a finished run of the loop has done to the table: the rows it
    added carry fresh ids and are indexed. *)
Lemma batch_run_rows (total_pdfs i n n' : nat) (pdfs : list pdf_file)
    (w w' : world) :
  batch_run E total_pdfs i pdfs n w n' w' ->
  (db_seq w <= db_seq w')%Z
  /\ forall r, In r (db w') ->
       In r (db w) \/ ((db_seq w < r_id r)%Z /\ row_indexed r).
Proof.
  induction 1 as [i n w | i pdf rest n n1 n2 w w1 w2 _ Hout _ IH].
  - split; [lia | intros r Hr; left; exact Hr].
  - destruct IH as [Hseq IH].
    destruct Hout as [(_ & text & v & Htext & Hdb & Hs)
                     | (_ & Hdb & Hs & _)].
    + split; [lia|]. intros r Hr.
      destruct (IH r Hr) as [Hin | [Hid Hidx]].
      * rewrite Hdb in Hin. unfold insert_or_replace in Hin.
        apply in_app_or in Hin. destruct Hin as [Hin | [<- | []]].
        -- left. apply filter_In in Hin. apply Hin.
        -- right. cbn [imported_row r_id]. split; [lia|].
           split; [exists text | exists v]; cbn; auto.
      * right. split; [lia | exact Hidx].
    + split; [lia|]. intros r Hr.
      destruct (IH r Hr) as [Hin | [Hid Hidx]].
      * left. rewrite <- Hdb. exact Hin.
      * right. split; [lia | exact Hidx].
Qed.

(** C10: every row the import flow writes has a non-empty text and a
    present embedding - each row of the table after [import_pdfs] was
    there before or is such a row under a fresh id - and a document whose
    extraction yields the empty text leaves the table as it was. *)
Theorem import_rows_indexed :
  (forall (selected_pdfs : list pdf_file) (w : world),
     exists n w',
       import_pdfs E selected_pdfs w = (Ok n, w')
       /\ forall r, In r (db w') ->
            In r (db w) \/ ((db_seq w < r_id r)%Z /\ row_indexed r))
  /\ (forall (i total_pdfs : nat) (pdf : pdf_file) (n : nat)
             (w w0 w1 : world) (svc : option service),
        init_drive_service E
          (snd (status_text (processing_msg i total_pdfs pdf) w))
        = (Ok svc, w0) ->
        download_pdf_content E svc (pdf_id pdf) w0 = (Ok "", w1) ->
        db (snd (import_pdfs_iter E i total_pdfs pdf n w)) = db w).
Proof.
  split.
  - intros pdfs w.
    destruct (import_pdfs_runs E pdfs w)
      as (n & w0 & w1 & w' & Hrun & Hdb0 & Hseq0 & Hbatch & Hdb' & _).
    exists n, w'. split; [exact Hrun|].
    destruct (batch_run_rows _ _ _ _ _ _ _ Hbatch) as [_ Hrows].
    intros r Hr. rewrite Hdb' in Hr.
    rewrite <- Hdb0, <- Hseq0. apply Hrows, Hr.
  - intros i total_pdfs pdf n w w0 w1 svc Hinit Hdl.
    destruct (import_turn_empty_text i total_pdfs pdf n w w0 w1 svc
                Hinit Hdl) as (w' & Hrun & Hdb & _).
    rewrite Hrun. exact Hdb.
Qed.

End ImportFailures.

Lemma import_batch_never_aborts_witness :
  (exists n w',
     import_pdfs (demo_env post_500) demo_batch demo_world = (Ok n, w'))
  /\ (exists w',
        download_pdf_content (demo_env post_500)
          (Some (DriveService (mk_credentials true None))) "doc-missing"
          demo_world
        = (Ok "", w')
        /\ exists e,
             In (Ui StError ("Error downloading PDF content: "
                             ++ exn_str (demo_env post_500) e)) (log w'))
  /\ (exists w',
        import_pdfs_iter (demo_env post_500) 1 4 blank_pdf 0 demo_world
        = (Ok 0%nat, w')
        /\ db w' = db demo_world /\ db_seq w' = db_seq demo_world
        /\ In (Ui StWarning "No text content extracted from: blank.pdf")
             (log w'))
  /\ (exists w',
        import_pdfs_iter (demo_env post_500) 2 4 scan_pdf 0 demo_world
        = (Ok 0%nat, w')
        /\ db w' = db demo_world /\ db_seq w' = db_seq demo_world
        /\ In (Ui StError "Error processing scan.pdf: cannot encode")
             (log w')).
Proof.
  destruct (import_batch_never_aborts (demo_env post_500))
    as (H1 & H2 & H3 & H4).
  split.
  { destruct (H1 demo_batch demo_world) as (n & _ & _ & w' & Hrun & _).
    exists n, w'. exact Hrun. }
  split.
  { apply H2. right. eexists _, _. split; reflexivity. }
  split.
  { eapply (H3 1%nat 4%nat blank_pdf 0%nat demo_world); reflexivity. }
  eapply (H4 2%nat 4%nat scan_pdf 0%nat demo_world _ _ _ _ _
            (Foreign "cannot encode")).
  - reflexivity.
  - reflexivity.
  - discriminate.
  - reflexivity.
Defined.

Lemma import_rows_indexed_witness :
  (exists n w',
     import_pdfs (demo_env post_500) demo_batch demo_world = (Ok n, w')
     /\ forall r, In r (db w') ->
          In r (db demo_world)
          \/ ((db_seq demo_world < r_id r)%Z /\ row_indexed r))
  /\ db (snd (import_pdfs_iter (demo_env post_500) 1 4 blank_pdf 0
                demo_world))
     = db demo_world.
Proof.
  destruct (import_rows_indexed (demo_env post_500)) as (H1 & H2).
  split; [apply H1|].
  eapply (H2 1%nat 4%nat blank_pdf 0%nat demo_world); reflexivity.
Defined.

(** The example batch, run: one document is imported, three are skipped,
    and the table holds the one row, indexed. *)
Lemma demo_import_run :
  fst (import_pdfs (demo_env post_500) demo_batch demo_world) = Ok 1%nat
  /\ map r_file_id
       (db (snd (import_pdfs (demo_env post_500) demo_batch demo_world)))
     = ["doc-revenue"].
Proof. split; vm_compute; reflexivity. Qed.

(** * Further properties of the code *)

(** ** Cosine similarity: range and scale *)








(** ** Embedder: loading *)

Section Loading.

Variable E : collaborators.

Lemma get_embed_model_loaded (w : world) (name : string) :
  embed_model w = Some name -> get_embed_model E w = (Ok (Some name), w).
Proof.
  intros H. unfold get_embed_model, bind, get, ret. rewrite H, H. reflexivity.
Qed.

(** The three ways a first load can go. *)
Lemma get_embed_model_fresh (w : world) :
  embed_model w = None ->
  match load_model E primary_model with
  | None =>
      get_embed_model E w
      = (Ok (Some primary_model),
         set_embed_model (Some primary_model)
           (set_log (log w ++ [LoadModel primary_model]) w))
  | Some e1 =>
      match load_model E fallback_model with
      | None =>
          get_embed_model E w
          = (Ok (Some fallback_model),
             set_embed_model (Some fallback_model)
               (set_log
                  (log w
                   ++ [LoadModel primary_model;
                       Ui StError ("Error loading embedding model: "
                                   ++ exn_str E e1);
                       LoadModel fallback_model]) w))
      | Some e2 =>
          get_embed_model E w
          = (Raise e2,
             set_log
               (log w
                ++ [LoadModel primary_model;
                    Ui StError ("Error loading embedding model: "
                                ++ exn_str E e1);
                    LoadModel fallback_model;
                    Ui StError ("Failed to load fallback model: "
                                ++ exn_str E e2)]) w)
      end
  end.
Proof.
  intros H.
  unfold get_embed_model, SentenceTransformer, try_except, st_error, emit,
    modify, raise, get, ret, bind.
  cbn [fst snd]. rewrite H.
  fold primary_model. fold fallback_model.
  destruct (load_model E primary_model) as [e1|].
  - destruct (load_model E fallback_model) as [e2|];
      unfold set_log, set_embed_model;
      cbn [db db_seq clock embed_model ss_user_id google_credentials
           conversation_history import_complete log];
      rewrite <- !app_assoc; reflexivity.
  - unfold set_log, set_embed_model;
      cbn [db db_seq clock embed_model ss_user_id google_credentials
           conversation_history import_complete log].
    reflexivity.
Qed.

(** The model is loaded once per session: a call that returned a model has
    stored it, and the next call returns the same model and does nothing
    else. *)
Theorem embed_model_loaded_once (w w1 : world) (m : option string) :
  get_embed_model E w = (Ok m, w1) ->
  exists name,
    m = Some name
    /\ embed_model w1 = Some name
    /\ get_embed_model E w1 = (Ok (Some name), w1).
Proof.
  intros H. destruct (embed_model w) as [name|] eqn:Hm.
  - rewrite (get_embed_model_loaded w name Hm) in H.
    injection H as <- <-. exists name.
    split; [reflexivity|]. split; [exact Hm|].
    apply get_embed_model_loaded, Hm.
  - pose proof (get_embed_model_fresh w Hm) as Hf.
    destruct (load_model E primary_model) as [e1|].
    + destruct (load_model E fallback_model) as [e2|].
      * rewrite Hf in H. discriminate H.
      * rewrite Hf in H. injection H as <- <-. exists fallback_model.
        split; [reflexivity|]. split; [reflexivity|].
        apply get_embed_model_loaded. reflexivity.
    + rewrite Hf in H. injection H as <- <-. exists primary_model.
      split; [reflexivity|]. split; [reflexivity|].
      apply get_embed_model_loaded. reflexivity.
Qed.

(** The embedder fails loudly and only as a last resort.
    [get_embed_model] raises exactly when the session holds no model and
    both the primary and the fallback model fail to load; the exception is
    that of the fallback, both failures have been shown, and the session
    still holds no model, so that the next call tries again. *)
Theorem embed_model_failure :
  (forall (w w' : world) (e : exn),
     get_embed_model E w = (Raise e, w') ->
     embed_model w = None
     /\ (exists e1,
           load_model E primary_model = Some e1
           /\ In (Ui StError ("Error loading embedding model: "
                              ++ exn_str E e1)) (log w'))
     /\ load_model E fallback_model = Some e
     /\ In (Ui StError ("Failed to load fallback model: " ++ exn_str E e))
          (log w')
     /\ embed_model w' = None
     /\ frame w w')
  /\ (forall (w : world) (e1 e : exn),
        embed_model w = None ->
        load_model E primary_model = Some e1 ->
        load_model E fallback_model = Some e ->
        exists w', get_embed_model E w = (Raise e, w')).
Proof.
  split.
  - intros w w' e H. destruct (embed_model w) as [name|] eqn:Hm.
    { rewrite (get_embed_model_loaded w name Hm) in H. discriminate H. }
    pose proof (frame_get_embed_model E w) as F. rewrite H in F.
    pose proof (get_embed_model_fresh w Hm) as Hf.
    destruct (load_model E primary_model) as [e1|];
      [|rewrite Hf in H; discriminate H].
    destruct (load_model E fallback_model) as [e2|];
      [|rewrite Hf in H; discriminate H].
    rewrite Hf in H. injection H as <- <-.
    split; [reflexivity|]. split.
    { exists e1. split; [reflexivity|]. cbn [log set_log].
      apply in_or_app; right. right; left; reflexivity. }
    split; [reflexivity|]. split.
    { cbn [log set_log]. apply in_or_app; right.
      right; right; right; left; reflexivity. }
    split; [exact Hm | exact F].
  - intros w e1 e Hm H1 H2.
    pose proof (get_embed_model_fresh w Hm) as Hf.
    rewrite H1, H2 in Hf. eexists; exact Hf.
Qed.

End Loading.

Lemma embed_model_loaded_once_witness :
  get_embed_model fallback_env demo_world
  = (Ok (Some fallback_model),
     set_embed_model (Some fallback_model)
       (set_log [LoadModel primary_model;
                 Ui StError "Error loading embedding model: offline";
                 LoadModel fallback_model] demo_world))
  /\ exists name,
       Some fallback_model = Some name
       /\ embed_model
            (set_embed_model (Some fallback_model)
               (set_log [LoadModel primary_model;
                         Ui StError "Error loading embedding model: offline";
                         LoadModel fallback_model] demo_world))
          = Some name
       /\ get_embed_model fallback_env
            (set_embed_model (Some fallback_model)
               (set_log [LoadModel primary_model;
                         Ui StError "Error loading embedding model: offline";
                         LoadModel fallback_model] demo_world))
          = (Ok (Some name),
             set_embed_model (Some fallback_model)
               (set_log [LoadModel primary_model;
                         Ui StError "Error loading embedding model: offline";
                         LoadModel fallback_model] demo_world)).
Proof.
  assert (H : get_embed_model fallback_env demo_world
              = (Ok (Some fallback_model),
                 set_embed_model (Some fallback_model)
                   (set_log [LoadModel primary_model;
                             Ui StError
                               "Error loading embedding model: offline";
                             LoadModel fallback_model] demo_world)))
    by reflexivity.
  split; [exact H|].
  exact (embed_model_loaded_once fallback_env _ _ _ H).
Defined.

Lemma embed_model_failure_witness :
  embed_model demo_world = None
  /\ load_model offline_env primary_model = Some (Foreign "offline")
  /\ load_model offline_env fallback_model = Some (Foreign "offline")
  /\ exists w',
       get_embed_model offline_env demo_world = (Raise (Foreign "offline"), w')
       /\ embed_model w' = None
       /\ In (Ui StError "Failed to load fallback model: offline") (log w').
Proof.
  destruct (embed_model_failure offline_env) as [Hfwd Hbwd].
  split; [reflexivity|]. split; [reflexivity|]. split; [reflexivity|].
  destruct (Hbwd demo_world (Foreign "offline") (Foreign "offline")
              eq_refl eq_refl eq_refl) as [w' Hrun].
  exists w'. split; [exact Hrun|].
  destruct (Hfwd demo_world w' (Foreign "offline") Hrun)
    as (_ & _ & _ & Herr & Hnone & _).
  split; [exact Hnone | exact Herr].
Defined.

(** ** Retriever: what a search touches *)

Lemma logs_refl (P : event -> Prop) (w : world) : logs P w w.
Proof. exists []. split; [symmetry; apply app_nil_r | constructor]. Qed.

Lemma logs_trans (P : event -> Prop) (w1 w2 w3 : world) :
  logs P w1 w2 -> logs P w2 w3 -> logs P w1 w3.
Proof.
  intros (ev1 & H1 & F1) (ev2 & H2 & F2).
  exists (ev1 ++ ev2)%list. split.
  - rewrite H2, H1, app_assoc. reflexivity.
  - apply Forall_app; split; assumption.
Qed.

Lemma logs_emit (P : event -> Prop) (e : event) (w : world) :
  P e -> logs P w (snd (emit e w)).
Proof.
  intros H. exists [e]. split; [reflexivity | constructor; [exact H|constructor]].
Qed.

Lemma logs_set_embed_model (P : event -> Prop) (m : option string)
    (w : world) :
  logs P w (set_embed_model m w).
Proof. exists []. split; [symmetry; apply app_nil_r | constructor]. Qed.

Lemma logs_bind {A B : Type} (P : event -> Prop) (m : M A) (k : A -> M B)
    (w : world) :
  logs P w (snd (m w)) ->
  (forall a w', logs P w' (snd (k a w'))) ->
  logs P w (snd (bind m k w)).
Proof.
  intros Hm Hk. unfold bind. destruct (m w) as [[a|e] w']; simpl in *.
  - eapply logs_trans; [exact Hm | apply Hk].
  - exact Hm.
Qed.

Lemma logs_try_except {A : Type} (P : event -> Prop) (m : M A)
    (h : exn -> M A) (w : world) :
  logs P w (snd (m w)) ->
  (forall e w', logs P w' (snd (h e w'))) ->
  logs P w (snd (try_except m h w)).
Proof.
  intros Hm Hh. unfold try_except. destruct (m w) as [[a|e] w']; simpl in *.
  - exact Hm.
  - eapply logs_trans; [exact Hm | apply Hh].
Qed.

Section SearchEffects.

Variable E : collaborators.

Lemma logs_SentenceTransformer (name : string) (w : world) :
  logs search_event w (snd (SentenceTransformer E name w)).
Proof.
  unfold SentenceTransformer. apply logs_bind; [apply logs_emit; exact I|].
  intros _ w'. destruct (load_model E name); simpl.
  - apply logs_refl.
  - apply logs_set_embed_model.
Qed.

Lemma logs_get_embed_model (w : world) :
  logs search_event w (snd (get_embed_model E w)).
Proof.
  unfold get_embed_model. apply logs_bind; [apply logs_refl|].
  intros m w1. apply logs_bind; [|intros; apply logs_refl].
  destruct m; [apply logs_refl|].
  apply logs_try_except; [apply logs_SentenceTransformer|].
  intros e w2. apply logs_bind; [apply logs_emit; exact I|].
  intros _ w3. apply logs_try_except; [apply logs_SentenceTransformer|].
  intros e2 w4. apply logs_bind; [apply logs_emit; exact I|].
  intros; apply logs_refl.
Qed.

Lemma logs_model_encode (model : option string) (text : string)
    (w : world) :
  logs search_event w (snd (model_encode E model text w)).
Proof.
  unfold model_encode. destruct model; [|apply logs_refl].
  apply logs_bind; [apply logs_emit; exact I | intros; apply logs_refl].
Qed.

Lemma logs_semantic_search (query : string) (top_k : Z)
    (user_id : option string) (w : world) :
  logs search_event w (snd (semantic_search E query top_k user_id w)).
Proof.
  unfold semantic_search. destruct (negb (str_truthy query));
    [apply logs_refl|].
  apply logs_bind; [apply logs_get_embed_model|].
  intros m w1. apply logs_bind; [apply logs_model_encode|].
  intros qe w2. apply logs_bind; [apply logs_emit; exact I|].
  intros _ w3. apply logs_bind; intros; apply logs_refl.
Qed.

(** A search is read-only.  Whether it returns or raises, it leaves the
    table, the conversation and the rest of the session as they were -
    only the model may have been loaded - and all it does to the outside
    is loading and using the model, reading the table and showing a load
    error. *)
Theorem semantic_search_read_only (query : string) (top_k : Z)
    (user_id : option string) (w : world) :
  frame w (snd (semantic_search E query top_k user_id w))
  /\ logs search_event w (snd (semantic_search E query top_k user_id w)).
Proof.
  split; [apply frame_semantic_search | apply logs_semantic_search].
Qed.

(** With no model to load, search and indexing fail loudly: a search with
    a query raises the load error instead of returning an empty result,
    and so does [compute_embedding]; neither reads the table nor calls the
    model. *)
Theorem unusable_embedder_raises (w : world) (e1 e : exn) :
  embed_model w = None ->
  load_model E primary_model = Some e1 ->
  load_model E fallback_model = Some e ->
  exists w',
    (forall query top_k user_id,
       str_truthy query = true ->
       semantic_search E query top_k user_id w = (Raise e, w'))
    /\ (forall text, compute_embedding E text w = (Raise e, w'))
    /\ log w'
       = (log w
          ++ [LoadModel primary_model;
              Ui StError ("Error loading embedding model: "
                          ++ exn_str E e1);
              LoadModel fallback_model;
              Ui StError ("Failed to load fallback model: "
                          ++ exn_str E e)])%list
    /\ db w' = db w.
Proof.
  intros Hm H1 H2.
  pose proof (get_embed_model_fresh E w Hm) as Hf. rewrite H1, H2 in Hf.
  eexists. split.
  { intros query top_k user_id Hq. unfold semantic_search. rewrite Hq.
    cbn [negb]. apply bind_raise. exact Hf. }
  split.
  { intros text. unfold compute_embedding. apply bind_raise. exact Hf. }
  split; reflexivity.
Qed.

End SearchEffects.

Lemma unusable_embedder_raises_witness :
  embed_model demo_world = None
  /\ load_model offline_env primary_model = Some (Foreign "offline")
  /\ load_model offline_env fallback_model = Some (Foreign "offline")
  /\ exists w',
       semantic_search offline_env demo_query 5 (Some "default_user")
         demo_world
       = (Raise (Foreign "offline"), w')
       /\ db w' = db demo_world.
Proof.
  split; [reflexivity|]. split; [reflexivity|]. split; [reflexivity|].
  destruct (unusable_embedder_raises offline_env demo_world
              (Foreign "offline") (Foreign "offline")
              eq_refl eq_refl eq_refl) as (w' & Hs & _ & _ & Hdb).
  exists w'. split; [apply Hs; reflexivity | exact Hdb].
Defined.

(** ** Retriever: snippets, the best entries, unusable rows *)

Lemma str_take_prefix (n : nat) (s : string) :
  String.prefix (str_take n s) s = true.
Proof.
  revert s; induction n as [|n IH]; intros [|c s]; simpl; trivial.
  destruct (ascii_dec c c) as [_|Hc]; [apply IH | contradiction Hc; reflexivity].
Qed.

Lemma snippet_of_length (text_content : option string) :
  (String.length (snippet_of text_content) <= 400)%nat.
Proof.
  unfold snippet_of. destruct text_content as [s|]; [|simpl; lia].
  destruct (str_truthy s); [apply str_take_length | simpl; lia].
Qed.

Lemma snippet_of_prefix (s : string) :
  String.prefix (snippet_of (Some s)) s = true.
Proof.
  unfold snippet_of. destruct (str_truthy s); [apply str_take_prefix|].
  destruct s; reflexivity.
Qed.

Lemma py_slice_to_In {A : Type} (k : Z) (l : list A) (x : A) :
  In x (py_slice_to k l) -> In x l.
Proof.
  unfold py_slice_to. destruct (0 <=? k)%Z; apply firstn_In.
Qed.

Lemma StronglySorted_app_cross {A : Type} (R : A -> A -> Prop)
    (l1 l2 : list A) (x y : A) :
  StronglySorted R (l1 ++ l2) -> In x l1 -> In y l2 -> R x y.
Proof.
  induction l1 as [|z l1 IH]; intros Hs Hx Hy; [contradiction|].
  cbn [app] in Hs. apply StronglySorted_inv in Hs. destruct Hs as [Hs Hz].
  destruct Hx as [->|Hx]; [|apply IH; assumption].
  rewrite Forall_forall in Hz. apply Hz, in_or_app. right; exact Hy.
Qed.

(** A row without a usable embedding adds nothing to the results. *)
Lemma search_step_unusable (query_emb : vec) (results : list hit) (r : row) :
  usable_row query_emb r = false ->
  search_step query_emb results r = results.
Proof.
  unfold usable_row, search_step, score_row. intros H.
  destruct (r_embedding r) as [[v|s]|]; simpl; trivial.
  - unfold cosine_sim, np_dot. rewrite H. reflexivity.
  - destruct (str_truthy s); reflexivity.
Qed.

(** The search loop does not see the rows whose embedding is missing,
    empty, not JSON, or of another dimension than the query: no exception
    escapes, and the entries of the other rows are what they would be
    without them. *)
Theorem unusable_rows_skipped (query_emb : vec) (rows : list row)
    (results : list hit) :
  fold_left (search_step query_emb) rows results
  = fold_left (search_step query_emb)
      (filter (usable_row query_emb) rows) results.
Proof.
  revert results; induction rows as [|r rows IH]; intros results;
    [reflexivity|].
  cbn [fold_left filter].
  destruct (usable_row query_emb r) eqn:Hu.
  - cbn [fold_left]. apply IH.
  - rewrite (search_step_unusable _ _ _ Hu). apply IH.
Qed.


Section SearchResults.

Variable E : collaborators.

(** The snippet of an entry is bounded: at most 400 characters, the
    beginning of the text of its row (empty when the row has no text),
    whatever [top_k] is. *)
Theorem search_snippets_bounded (query : string) (top_k : Z)
    (user_id : option string) (w w' : world) (hits : list hit) :
  semantic_search E query top_k user_id w = (Ok hits, w') ->
  Forall (fun h =>
    (String.length (h_snippet h) <= 400)%nat
    /\ exists r,
         In r (db w) /\ r_file_id r = h_file_id h
         /\ match r_text_content r with
            | Some text => String.prefix (h_snippet h) text = true
            | None => h_snippet h = ""
            end) hits.
Proof.
  intros Hrun. destruct (str_truthy query) eqn:Hq.
  2:{ destruct query; [|discriminate Hq]. injection Hrun as <- _.
      constructor. }
  destruct (semantic_search_inv E query _ user_id w w' hits Hq Hrun)
    as (model & qe & _ & ->).
  apply Forall_forall. intros h Hh.
  apply py_slice_to_In in Hh.
  apply (Permutation_in _ (py_sorted_desc_perm h_score _)) in Hh.
  apply spec_candidates_sound in Hh.
  destruct Hh as (r & v & Hr & _ & _ & _ & Hhit).
  apply select_embedded_In in Hr. destruct Hr as [Hr _].
  rewrite Hhit. cbn [hit_of h_snippet h_file_id].
  split; [apply snippet_of_length|].
  exists r. split; [exact Hr|]. split; [reflexivity|].
  destruct (r_text_content r) as [text|];
    [apply snippet_of_prefix | reflexivity].
Qed.

(** A search returns the best entries: what it leaves out scores no
    higher than anything it returns, and something is left out only when
    [k] entries are returned. *)
Theorem search_returns_best (query : string) (k : nat)
    (user_id : option string) (w w' : world) (hits : list hit) :
  str_truthy query = true ->
  semantic_search E query (Z.of_nat k) user_id w = (Ok hits, w') ->
  exists model query_emb rest,
    encode E model query = Ok query_emb
    /\ Permutation (hits ++ rest)
         (spec_candidates query_emb
            (select_embedded (scope_of user_id) (db w)))
    /\ (forall h h', In h hits -> In h' rest -> score_ge h h')
    /\ (rest <> [] -> List.length hits = k).
Proof.
  intros Hq Hrun.
  destruct (semantic_search_inv E query _ user_id w w' hits Hq Hrun)
    as (model & qe & Henc & Hhits).
  rewrite py_slice_to_count in Hhits.
  set (cands := spec_candidates qe
                  (select_embedded (scope_of user_id) (db w))) in *.
  exists model, qe, (skipn k (py_sorted_desc h_score cands)).
  split; [exact Henc|].
  assert (Hsorted : StronglySorted (key_ge h_score)
                      (py_sorted_desc h_score cands)).
  { apply py_sorted_desc_sorted. apply Forall_forall. intros h Hh.
    apply spec_candidates_sound in Hh.
    destruct Hh as (r & v & _ & _ & Hc & Hg & _).
    destruct (passing_score qe v _ Hc Hg) as (x & Hx & _).
    exists x; exact Hx. }
  rewrite Hhits, firstn_skipn.
  split; [apply py_sorted_desc_perm|].
  split.
  - intros h h' Hh Hh'.
    rewrite <- (firstn_skipn k (py_sorted_desc h_score cands)) in Hsorted.
    exact (StronglySorted_app_cross _ _ _ h h' Hsorted Hh Hh').
  - intros Hrest. apply firstn_length_le.
    destruct (Nat.le_gt_cases k
                (List.length (py_sorted_desc h_score cands)))
      as [Hle|Hgt]; [exact Hle|].
    contradiction Hrest. apply skipn_all2. lia.
Qed.


End SearchResults.

Lemma search_snippets_bounded_witness :
  semantic_search (demo_env post_500) demo_query 5 (Some "default_user")
    library_world
  = (Ok [hit_of revenue_row (Fin 1)],
     set_log [Encode "all-MiniLM-L6-v2" demo_query;
              DbRead (Some "default_user")] library_world)
  /\ Forall (fun h => (String.length (h_snippet h) <= 400)%nat)
       [hit_of revenue_row (Fin 1)].
Proof.
  pose proof library_search as H. split; [exact H|].
  pose proof (search_snippets_bounded (demo_env post_500) _ _ _ _ _ _ H)
    as Hs.
  apply Forall_forall. intros h Hh. rewrite Forall_forall in Hs.
  apply (Hs h Hh).
Defined.

Lemma search_returns_best_witness :
  str_truthy demo_query = true
  /\ semantic_search (demo_env post_500) demo_query (Z.of_nat 5)
       (Some "default_user") library_world
     = (Ok [hit_of revenue_row (Fin 1)],
        set_log [Encode "all-MiniLM-L6-v2" demo_query;
                 DbRead (Some "default_user")] library_world)
  /\ exists rest,
       (forall h h',
          In h [hit_of revenue_row (Fin 1)] -> In h' rest -> score_ge h h')
       /\ (rest <> [] -> List.length [hit_of revenue_row (Fin 1)] = 5%nat).
Proof.
  pose proof library_search as H.
  split; [reflexivity|]. split; [exact H|].
  destruct (search_returns_best (demo_env post_500) demo_query 5
              (Some "default_user") library_world _ _ eq_refl H)
    as (model & qe & rest & _ & _ & H1 & H2).
  exists rest. split; assumption.
Defined.


(** ** Answer generator and chat turn *)

Section ChatTurn.

Variable E : collaborators.

(** What [answer_query_with_groq] does on a response that passes. *)
Lemma answer_query_on_success (history : list hist_entry) (top : list hit)
    (key : string) (w : world) (r : response) (answer : string) :
  requests_post E groq_api_url key
    (groq_payload (build_messages history top)) = Ok r ->
  ~ (400 <= status_code r < 600)%Z ->
  extract_answer E r = Ok answer ->
  answer_query_with_groq E history top key w
  = (Ok (answer, top),
     set_log
       (log w
        ++ [HttpPost groq_api_url key
              (groq_payload (build_messages history top))]) w).
Proof.
  intros Hpost Hstatus Hbody.
  unfold answer_query_with_groq, try_except, bind, emit, modify, lift, ret.
  cbn [fst snd]. rewrite Hpost, (raise_for_status_pass r Hstatus), Hbody.
  reflexivity.
Qed.

Lemma frame_answer_query (history : list hist_entry) (top : list hit)
    (key : string) (w : world) :
  frame w (snd (answer_query_with_groq E history top key w)).
Proof.
  unfold answer_query_with_groq. apply frame_try_except.
  - apply frame_bind; [apply frame_emit|]. intros _ w1.
    apply frame_bind; [apply frame_refl|]. intros r w2.
    apply frame_bind; [apply frame_refl|]. intros _ w3.
    apply frame_bind; [apply frame_refl|]. intros a w4. apply frame_refl.
  - intros e w1. apply frame_bind; [apply frame_emit|].
    intros; apply frame_refl.
Qed.

(** The two ways [answer_query_with_groq] ends. *)
Lemma answer_query_cases (history : list hist_entry)
    (top : list hit) (key : string) (w : world) :
  exists answer sources w',
    answer_query_with_groq E history top key w = (Ok (answer, sources), w')
    /\ frame w w'
    /\ ((exists r,
           requests_post E groq_api_url key
             (groq_payload (build_messages history top)) = Ok r
           /\ ~ (400 <= status_code r < 600)%Z
           /\ extract_answer E r = Ok answer
           /\ sources = top
           /\ log w'
              = (log w
                 ++ [HttpPost groq_api_url key
                       (groq_payload (build_messages history top))])%list)
        \/ (exists e,
              generator_failure E key
                (groq_payload (build_messages history top)) e
              /\ answer = apology /\ sources = []
              /\ In (Ui StError ("Error calling Groq API: " ++ exn_str E e))
                   (log w'))).
Proof.
  pose proof (frame_answer_query history top key w) as F.
  set (p := groq_payload (build_messages history top)) in *.
  assert (Hfail : forall e, generator_failure E key p e ->
            exists answer sources w',
              answer_query_with_groq E history top key w
              = (Ok (answer, sources), w')
              /\ frame w w'
              /\ ((exists r,
                     requests_post E groq_api_url key p = Ok r
                     /\ ~ (400 <= status_code r < 600)%Z
                     /\ extract_answer E r = Ok answer
                     /\ sources = top
                     /\ log w'
                        = (log w ++ [HttpPost groq_api_url key p])%list)
                  \/ (exists e0,
                        generator_failure E key p e0
                        /\ answer = apology /\ sources = []
                        /\ In (Ui StError ("Error calling Groq API: "
                                           ++ exn_str E e0)) (log w')))).
  { intros e He.
    destruct (answer_query_on_failure E history top key w e He)
      as (w' & Hrun & Hlog & _).
    rewrite Hrun in F. exists apology, [], w'.
    split; [exact Hrun|]. split; [exact F|].
    right. exists e. split; [exact He|]. split; [reflexivity|].
    split; [reflexivity|]. rewrite Hlog.
    apply in_or_app; right. right; left; reflexivity. }
  assert (Hpass : forall r a,
            requests_post E groq_api_url key p = Ok r ->
            ~ (400 <= status_code r < 600)%Z ->
            extract_answer E r = Ok a ->
            exists answer sources w',
              answer_query_with_groq E history top key w
              = (Ok (answer, sources), w')
              /\ frame w w'
              /\ ((exists r,
                     requests_post E groq_api_url key p = Ok r
                     /\ ~ (400 <= status_code r < 600)%Z
                     /\ extract_answer E r = Ok answer
                     /\ sources = top
                     /\ log w'
                        = (log w ++ [HttpPost groq_api_url key p])%list)
                  \/ (exists e0,
                        generator_failure E key p e0
                        /\ answer = apology /\ sources = []
                        /\ In (Ui StError ("Error calling Groq API: "
                                           ++ exn_str E e0)) (log w')))).
  { intros r a Hpost Hstatus Hbody.
    pose proof (answer_query_on_success history top key w r a
                  Hpost Hstatus Hbody) as Hrun.
    fold p in Hrun. rewrite Hrun in F.
    exists a, top. eexists. split; [exact Hrun|]. split; [exact F|].
    left. exists r. repeat split; trivial. }
  assert (Hcase : (exists e, requests_post E groq_api_url key p = Raise e)
                  \/ (exists r, requests_post E groq_api_url key p = Ok r)).
  { clear. destruct (requests_post E groq_api_url key p) as [r|e];
      [right; exists r | left; exists e]; reflexivity. }
  destruct Hcase as [[e Hpost] | [r Hpost]].
  { apply (Hfail e). left. exact Hpost. }
  assert (Hbody : (exists e, extract_answer E r = Raise e)
                  \/ (exists a, extract_answer E r = Ok a)).
  { clear. destruct (extract_answer E r) as [a|e];
      [right; exists a | left; exists e]; reflexivity. }
  destruct (Z_le_dec 400 (status_code r)) as [H4|H4];
    [destruct (Z_lt_dec (status_code r) 600) as [H6|H6]|].
  - apply (Hfail (HTTPError (status_code r))). right; left.
    exists r. split; [exact Hpost|]. split; [lia | reflexivity].
  - destruct Hbody as [[e Hbody] | [a Hbody]].
    + apply (Hfail e). right; right. exists r.
      split; [exact Hpost|]. split; [lia | exact Hbody].
    + apply (Hpass r a); trivial. lia.
  - destruct Hbody as [[e Hbody] | [a Hbody]].
    + apply (Hfail e). right; right. exists r.
      split; [exact Hpost|]. split; [lia | exact Hbody].
    + apply (Hpass r a); trivial. lia.
Qed.

(** [answer_query_with_groq] never raises, and changes nothing but what is
    shown.  It returns the answer text of the response, with the sources
    it was given and without showing anything, when the response has no
    error status and a well-formed body; in every other case it returns
    the apology without sources and shows the error. *)
Theorem answer_query_never_raises (history : list hist_entry)
    (top : list hit) (key : string) (w : world) :
  exists answer sources w',
    answer_query_with_groq E history top key w = (Ok (answer, sources), w')
    /\ frame w w'
    /\ ((exists r,
           requests_post E groq_api_url key
             (groq_payload (build_messages history top)) = Ok r
           /\ ~ (400 <= status_code r < 600)%Z
           /\ extract_answer E r = Ok answer
           /\ sources = top
           /\ log w'
              = (log w
                 ++ [HttpPost groq_api_url key
                       (groq_payload (build_messages history top))])%list)
        \/ (exists e,
              generator_failure E key
                (groq_payload (build_messages history top)) e
              /\ answer = apology /\ sources = []
              /\ In (Ui StError ("Error calling Groq API: " ++ exn_str E e))
                   (log w'))).
Proof. exact (answer_query_cases history top key w). Qed.

End ChatTurn.

Lemma py_last_snoc {A : Type} (n : nat) (l : list A) (x : A) :
  py_last (S n) (l ++ [x]) = (py_last n l ++ [x])%list.
Proof.
  unfold py_last. rewrite length_app. cbn [List.length].
  replace (List.length l + 1 - S n)%nat with (List.length l - n)%nat by lia.
  rewrite skipn_app.
  replace (List.length l - n - List.length l)%nat with 0%nat by lia.
  reflexivity.
Qed.

Lemma spec_turns_app (h1 h2 : list hist_entry) :
  spec_turns (h1 ++ h2) = (spec_turns h1 ++ spec_turns h2)%list.
Proof. unfold spec_turns. apply flat_map_app. Qed.

(** Whatever the history holds, the request ends with the question just
    asked: after the system message come at most 9 earlier turns, then the
    user's question. *)
Theorem question_is_last (history : list hist_entry) (top : list hit)
    (user_query : string) :
  exists earlier,
    build_messages (history ++ [user_turn user_query]) top
    = system_message top
      :: (earlier ++ [mk_message (PyStr "user") user_query])%list
    /\ (List.length earlier <= 9)%nat
    /\ earlier = py_last 9 (spec_turns history).
Proof.
  exists (py_last 9 (spec_turns history)).
  rewrite build_messages_spec, spec_turns_app.
  change (spec_turns [user_turn user_query])
    with [mk_message (PyStr "user") user_query].
  rewrite py_last_snoc. split; [reflexivity|].
  split; [rewrite py_last_length; lia | reflexivity].
Qed.

Section ChatPage.

Variable E : collaborators.

(** The world in which the search of a chat turn runs: the question has
    been recorded and shown. *)
Lemma asked_world (user_query : string) (w : world) :
  (history_append (user_turn user_query) ;;; st_write user_query) w
  = (Ok tt,
     set_log (log w ++ [Ui StWrite user_query])
       (set_conversation_history
          (conversation_history w ++ [user_turn user_query]) w)).
Proof. reflexivity. Qed.

Lemma chat_page_submit_search_raises (user_query key : string)
    (w w1 : world) (e : exn) :
  str_truthy user_query = true ->
  semantic_search E user_query 5 (Some (ss_user_id w))
    (snd ((history_append (user_turn user_query) ;;;
           st_write user_query) w))
  = (Raise e, w1) ->
  chat_page_submit E user_query key w = (Raise e, w1).
Proof.
  intros Hq Hs. unfold chat_page_submit. rewrite Hq.
  rewrite asked_world in Hs. cbn [snd] in Hs.
  unfold bind at 1 2 3. cbn [history_append st_write emit modify get fst snd].
  unfold history_append, st_write, emit, modify, get. cbn [fst snd].
  cbn [ss_user_id set_log set_conversation_history].
  apply bind_raise. exact Hs.
Qed.

Lemma chat_page_submit_answers (user_query key : string)
    (w w1 w2 : world) (top sources : list hit) (answer : string) :
  str_truthy user_query = true ->
  semantic_search E user_query 5 (Some (ss_user_id w))
    (snd ((history_append (user_turn user_query) ;;;
           st_write user_query) w))
  = (Ok top, w1) ->
  answer_query_with_groq E (conversation_history w1) top key w1
  = (Ok (answer, sources), w2) ->
  exists w',
    chat_page_submit E user_query key w = (Ok tt, w')
    /\ conversation_history w'
       = (conversation_history w2 ++ [assistant_turn answer sources])%list
    /\ db w' = db w2
    /\ exists shown, log w' = (log w2 ++ Ui StWrite answer :: shown)%list.
Proof.
  intros Hq Hs Ha. unfold chat_page_submit. rewrite Hq.
  rewrite asked_world in Hs. cbn [snd] in Hs.
  unfold bind at 1 2 3.
  unfold history_append at 1, st_write at 1, emit at 1, modify at 1 2,
    get at 1.
  cbn [fst snd ss_user_id set_log set_conversation_history].
  rewrite (bind_ok _ _ _ _ _ Hs).
  unfold bind at 1, get at 1. rewrite (bind_ok _ _ _ _ _ Ha).
  unfold st_write, history_append, emit, modify, ret, bind.
  destruct sources as [|src sources]; eexists; (split; [reflexivity|]);
    cbn [conversation_history db log set_log set_conversation_history snd];
    (split; [reflexivity|]); (split; [reflexivity|]).
  - exists []. reflexivity.
  - eexists. rewrite <- app_assoc. reflexivity.
Qed.

End ChatPage.

Section ChatOutcomes.

Variable E : collaborators.

(** A chat turn only appends to the conversation and never touches the
    table.  With an empty question nothing happens.  Otherwise the
    question is recorded first; then either the search raises - the
    exception leaves the turn, the question stays recorded and the answer
    generator is never called - or the turn ends normally with one
    assistant turn after the question, its text shown. *)
Theorem chat_turn_outcomes (user_query key : string) (w : world) :
  db (snd (chat_page_submit E user_query key w)) = db w
  /\ (str_truthy user_query = false ->
      chat_page_submit E user_query key w = (Ok tt, w))
  /\ (str_truthy user_query = true ->
      (exists e,
         fst (chat_page_submit E user_query key w) = Raise e
         /\ conversation_history (snd (chat_page_submit E user_query key w))
            = (conversation_history w ++ [user_turn user_query])%list
         /\ logs not_a_request w (snd (chat_page_submit E user_query key w)))
      \/ (exists answer sources,
            fst (chat_page_submit E user_query key w) = Ok tt
            /\ conversation_history
                 (snd (chat_page_submit E user_query key w))
               = (conversation_history w
                  ++ [user_turn user_query;
                      assistant_turn answer sources])%list
            /\ In (Ui StWrite answer)
                 (log (snd (chat_page_submit E user_query key w))))).
Proof.
  destruct (str_truthy user_query) eqn:Hq.
  2:{ assert (Hrun : chat_page_submit E user_query key w = (Ok tt, w))
        by (unfold chat_page_submit; rewrite Hq; reflexivity).
      rewrite Hrun. split; [reflexivity|].
      split; [reflexivity | discriminate]. }
  set (w0 := snd ((history_append (user_turn user_query) ;;;
                   st_write user_query) w)).
  pose proof (frame_semantic_search E user_query 5
                (Some (ss_user_id w)) w0) as F.
  pose proof (logs_semantic_search E user_query 5
                (Some (ss_user_id w)) w0) as L.
  destruct (semantic_search E user_query 5 (Some (ss_user_id w)) w0)
    as [[top|e] w1] eqn:Hs; cbn [snd] in F, L.
  - destruct (answer_query_cases E (conversation_history w1) top
                key w1) as (answer & sources & w2 & Ha & F2 & _).
    destruct (chat_page_submit_answers E user_query key w w1 w2 top sources
                answer Hq Hs Ha) as (w' & Hrun & Hh & Hd & shown & Hl).
    rewrite Hrun. cbn [fst snd].
    destruct F as (Fdb & _ & _ & _ & _ & Fh & _).
    destruct F2 as (F2db & _ & _ & _ & _ & F2h & _).
    split; [rewrite Hd, F2db, Fdb; reflexivity|].
    split; [discriminate|]. intros _. right. exists answer, sources.
    split; [reflexivity|]. split.
    + rewrite Hh, F2h, Fh. unfold w0. rewrite asked_world.
      cbn [snd conversation_history set_log set_conversation_history].
      rewrite <- app_assoc. reflexivity.
    + rewrite Hl. apply in_or_app; right; left; reflexivity.
  - rewrite (chat_page_submit_search_raises E user_query key w w1 e Hq Hs).
    cbn [fst snd].
    destruct F as (Fdb & _ & _ & _ & _ & Fh & _).
    split; [rewrite Fdb; reflexivity|].
    split; [discriminate|]. intros _. left. exists e.
    split; [reflexivity|]. split.
    + rewrite Fh. reflexivity.
    + destruct L as (events & Hl & Hev).
      exists (Ui StWrite user_query :: events). split.
      * rewrite Hl. unfold w0. rewrite asked_world.
        cbn [snd log set_log]. rewrite <- app_assoc. reflexivity.
      * constructor; [exact I|].
        apply Forall_forall. intros ev Hin.
        rewrite Forall_forall in Hev. specialize (Hev ev Hin).
        destruct ev; try exact I. contradiction Hev.
Qed.

(** A chat turn that succeeds records the answer with the sources found:
    when the search returns [top] and the generator answers, the request
    carries the conversation ending with the question, and the turn
    appended after the question holds the answer text and exactly
    [top]. *)
Theorem chat_turn_success (user_query key : string) (w w1 : world)
    (top : list hit) (r : response) (answer : string) :
  str_truthy user_query = true ->
  semantic_search E user_query 5 (Some (ss_user_id w))
    (snd ((history_append (user_turn user_query) ;;;
           st_write user_query) w))
  = (Ok top, w1) ->
  requests_post E groq_api_url key
    (groq_payload
       (build_messages (conversation_history w ++ [user_turn user_query])
          top))
  = Ok r ->
  ~ (400 <= status_code r < 600)%Z ->
  extract_answer E r = Ok answer ->
  exists w',
    chat_page_submit E user_query key w = (Ok tt, w')
    /\ conversation_history w'
       = (conversation_history w
          ++ [user_turn user_query; assistant_turn answer top])%list
    /\ In (HttpPost groq_api_url key
             (groq_payload
                (build_messages
                   (conversation_history w ++ [user_turn user_query]) top)))
         (log w')
    /\ (forall msg, In (Ui StError msg) (log w') ->
        In (Ui StError msg) (log w1)).
Proof.
  intros Hq Hs Hpost Hstatus Hbody.
  pose proof (frame_semantic_search E user_query 5 (Some (ss_user_id w))
                (snd ((history_append (user_turn user_query) ;;;
                       st_write user_query) w))) as F.
  rewrite Hs in F. cbn [snd] in F.
  destruct F as (_ & _ & _ & _ & _ & Fh & _).
  rewrite asked_world in Fh.
  cbn [snd conversation_history set_log set_conversation_history] in Fh.
  rewrite <- Fh in Hpost.
  pose proof (answer_query_on_success E (conversation_history w1) top key
                w1 r answer Hpost Hstatus Hbody) as Ha.
  destruct (chat_page_submit_answers E user_query key w w1 _ top top answer
              Hq Hs Ha) as (w' & Hrun & Hh & _ & shown & Hl).
  exists w'. split; [exact Hrun|].
  cbn [conversation_history log set_log] in Hh, Hl.
  split; [rewrite Hh, Fh, <- app_assoc; reflexivity|].
  split.
  - rewrite Hl, <- Fh. apply in_or_app; left.
    apply in_or_app; right; left; reflexivity.
  - intros msg Hin. rewrite Hl in Hin.
    apply in_app_or in Hin. destruct Hin as [Hin | [Hin | Hin]].
    + apply in_app_or in Hin. destruct Hin as [Hin | [Hin | []]];
        [exact Hin | discriminate Hin].
    + discriminate Hin.
    + exfalso. clear - Hrun Hin Hl Ha Hs Hq.
      unfold chat_page_submit in Hrun. rewrite Hq in Hrun.
      rewrite asked_world in Hs. cbn [snd] in Hs.
      unfold bind at 1 2 3 in Hrun.
      unfold history_append at 1, st_write at 1, emit at 1, modify at 1 2,
        get at 1 in Hrun.
      cbn [fst snd ss_user_id set_log set_conversation_history] in Hrun.
      rewrite (bind_ok _ _ _ _ _ Hs) in Hrun.
      unfold bind at 1, get at 1 in Hrun.
      rewrite (bind_ok _ _ _ _ _ Ha) in Hrun.
      unfold st_write, history_append, emit, modify, ret, bind in Hrun.
      destruct top as [|src top]; injection Hrun as <-;
        cbn [log set_log set_conversation_history] in Hl;
        rewrite <- !app_assoc in Hl; apply app_inv_head in Hl;
        cbn [app] in Hl; injection Hl as <-.
      * contradiction Hin.
      * destruct Hin as [Hin | []]. discriminate Hin.
Qed.

End ChatOutcomes.

Lemma chat_turn_outcomes_witness :
  str_truthy demo_query = true
  /\ ((exists e,
         fst (chat_page_submit (demo_env post_200) demo_query "key"
                library_world) = Raise e
         /\ conversation_history
              (snd (chat_page_submit (demo_env post_200) demo_query "key"
                      library_world))
            = [user_turn demo_query]
         /\ logs not_a_request library_world
              (snd (chat_page_submit (demo_env post_200) demo_query "key"
                      library_world)))
      \/ (exists answer sources,
            fst (chat_page_submit (demo_env post_200) demo_query "key"
                   library_world) = Ok tt
            /\ conversation_history
                 (snd (chat_page_submit (demo_env post_200) demo_query "key"
                         library_world))
               = [user_turn demo_query; assistant_turn answer sources]
            /\ In (Ui StWrite answer)
                 (log (snd (chat_page_submit (demo_env post_200) demo_query
                              "key" library_world))))).
Proof.
  split; [reflexivity|].
  destruct (chat_turn_outcomes (demo_env post_200) demo_query "key"
              library_world) as (_ & _ & H).
  exact (H eq_refl).
Defined.

Lemma chat_turn_success_witness :
  exists top w1 w',
    semantic_search (demo_env post_200) demo_query 5
      (Some (ss_user_id library_world))
      (snd ((history_append (user_turn demo_query) ;;;
             st_write demo_query) library_world))
    = (Ok top, w1)
    /\ chat_page_submit (demo_env post_200) demo_query "key" library_world
       = (Ok tt, w')
    /\ conversation_history w'
       = [user_turn demo_query; assistant_turn "Revenue grew 12%." top].
Proof.
  pose proof (semantic_search_loaded (demo_env post_200) demo_query 5
                (Some (ss_user_id library_world))
                (snd ((history_append (user_turn demo_query) ;;;
                       st_write demo_query) library_world))
                "all-MiniLM-L6-v2" [1; 0] eq_refl eq_refl eq_refl) as Hs.
  eexists _, _.
  destruct (chat_turn_success (demo_env post_200) demo_query "key"
              library_world _ _ (mk_response 200 (Some good_body))
              "Revenue grew 12%." eq_refl Hs eq_refl) as (w' & Hrun & Hh & _).
  - simpl; lia.
  - reflexivity.
  - exists w'. split; [exact Hs|]. split; [exact Hrun | exact Hh].
Defined.

(** ** Document store: ids and counts *)

(** Deleting rows keeps any column that had no duplicates free of them. *)
Lemma column_filter {B : Type} (column : row -> B) (keep : row -> bool)
    (rows : list row) :
  NoDup (map column rows) -> NoDup (map column (filter keep rows)).
Proof.
  intros Hrows. induction rows as [|r rows IH]; cbn in *; [exact Hrows|].
  apply NoDup_cons_iff in Hrows. destruct Hrows as [Hfresh Hrest].
  destruct (keep r); cbn; [|exact (IH Hrest)].
  apply NoDup_cons; [|exact (IH Hrest)].
  rewrite in_map_iff. intros (r' & Hcol & Hr').
  apply Hfresh. rewrite <- Hcol. apply in_map.
  apply filter_In in Hr'. apply Hr'.
Qed.

(** The row ids stay distinct and below the sequence: every upsert writes
    under an id no row of the table has. *)
Theorem upsert_keeps_ids_fresh (user_id file_id name drive_link
    modified_time : string) (size : Z) (parent : string)
    (text_content : option string) (embedding : option emb_text)
    (w : world) :
  ids_fresh w ->
  ids_fresh (snd (save_pdf_to_db user_id file_id name drive_link
                    modified_time size parent text_content embedding w))
  /\ ~ In (db_seq w + 1)%Z (map r_id (db w)).
Proof.
  intros [Hnodup Hle].
  assert (Hnew : ~ In (db_seq w + 1)%Z (map r_id (db w))).
  { rewrite in_map_iff. intros (r & Hid & Hr).
    rewrite Forall_forall in Hle. specialize (Hle r Hr). lia. }
  split; [|exact Hnew].
  unfold ids_fresh. cbn [save_pdf_to_db snd bind emit modify db db_seq
    set_db set_log].
  unfold save_pdf_to_db, bind, emit, modify. cbn [fst snd db db_seq set_db
    set_log clock]. unfold insert_or_replace. split.
  - rewrite map_app. apply NoDup_app.
    + apply column_filter, Hnodup.
    + constructor; [intros [] | constructor].
    + intros id Hin [<-|[]]. apply Hnew.
      apply in_map_iff in Hin. destruct Hin as (r & Hid & Hr).
      apply filter_In in Hr. apply in_map_iff.
      exists r. split; [exact Hid | apply Hr].
  - apply Forall_app. split.
    + apply Forall_forall. intros r Hr. apply filter_In in Hr.
      rewrite Forall_forall in Hle. specialize (Hle r (proj1 Hr)). lia.
    + constructor; [cbn; lia | constructor].
Qed.

Lemma upsert_keeps_ids_fresh_witness :
  ids_fresh alice_world
  /\ ids_fresh
       (snd (save_pdf_to_db "default_user" "doc-revenue" "q3.pdf"
               "https://drive.google.com/file/d/doc-revenue/view" "" 12
               "Drive" (Some "Q3 revenue grew 12%") (Some (EmbJson [1; 0]))
               alice_world)).
Proof.
  assert (H : ids_fresh alice_world).
  { split; simpl.
    - constructor; [intros [] | constructor].
    - constructor; [unfold alice_row; cbn; lia | constructor]. }
  split; [exact H|].
  apply (upsert_keeps_ids_fresh "default_user" "doc-revenue" "q3.pdf"
           "https://drive.google.com/file/d/doc-revenue/view" "" 12
           "Drive" (Some "Q3 revenue grew 12%") (Some (EmbJson [1; 0]))
           alice_world H).
Defined.

Lemma filter_absent_length (fid : string) (rows : list row) :
  ~ In fid (map r_file_id rows) ->
  filter (fun r => negb (String.eqb (r_file_id r) fid)) rows = rows.
Proof.
  induction rows as [|r rows IH]; intros H; [reflexivity|].
  cbn [filter]. destruct (String.eqb_spec (r_file_id r) fid) as [Heq|Hne].
  - contradiction H. left; exact Heq.
  - cbn [negb]. rewrite IH; [reflexivity|].
    intros Hin. apply H. right; exact Hin.
Qed.

Lemma filter_present_length (fid : string) (rows : list row) :
  NoDup (map r_file_id rows) -> In fid (map r_file_id rows) ->
  S (List.length
       (filter (fun r => negb (String.eqb (r_file_id r) fid)) rows))
  = List.length rows.
Proof.
  induction rows as [|r rows IH]; intros Hnd Hin; [contradiction|].
  cbn [map] in Hnd. apply NoDup_cons_iff in Hnd. destruct Hnd as [Hr Hnd].
  cbn [filter List.length].
  destruct (String.eqb_spec (r_file_id r) fid) as [Heq|Hne]; cbn [negb].
  - rewrite filter_absent_length; [reflexivity|]. rewrite <- Heq. exact Hr.
  - cbn [List.length]. f_equal. apply IH; [exact Hnd|].
    destruct Hin as [Hin|Hin]; [contradiction | exact Hin].
Qed.

(** An upsert never makes the table grow by more than the one document:
    with distinct file ids in the table, writing under an id the table
    holds keeps the number of rows, and writing under a new id adds one
    row. *)
Theorem upsert_row_count (user_id file_id name drive_link
    modified_time : string) (size : Z) (parent : string)
    (text_content : option string) (embedding : option emb_text)
    (w : world) :
  NoDup (map r_file_id (db w)) ->
  (In file_id (map r_file_id (db w)) ->
   List.length
     (db (snd (save_pdf_to_db user_id file_id name drive_link
                 modified_time size parent text_content embedding w)))
   = List.length (db w))
  /\ (~ In file_id (map r_file_id (db w)) ->
      List.length
        (db (snd (save_pdf_to_db user_id file_id name drive_link
                    modified_time size parent text_content embedding w)))
      = S (List.length (db w))).
Proof.
  intros Hnd.
  unfold save_pdf_to_db, bind, emit, modify. cbn [fst snd db db_seq set_db
    set_log clock]. unfold insert_or_replace. cbn [r_file_id].
  rewrite length_app. cbn [List.length]. split; intros Hin.
  - rewrite <- (filter_present_length file_id (db w) Hnd Hin). lia.
  - rewrite (filter_absent_length file_id (db w) Hin). lia.
Qed.

Lemma upsert_row_count_witness :
  NoDup (map r_file_id (db alice_world))
  /\ In "doc-revenue" (map r_file_id (db alice_world))
  /\ List.length
       (db (snd (save_pdf_to_db "default_user" "doc-revenue" "q3.pdf"
                   "https://drive.google.com/file/d/doc-revenue/view" ""
                   12 "Drive" (Some "Q3 revenue grew 12%")
                   (Some (EmbJson [1; 0])) alice_world)))
     = List.length (db alice_world).
Proof.
  assert (Hnd : NoDup (map r_file_id (db alice_world))).
  { simpl. constructor; [intros [] | constructor]. }
  assert (Hin : In "doc-revenue" (map r_file_id (db alice_world)))
    by (left; reflexivity).
  split; [exact Hnd|]. split; [exact Hin|].
  exact (proj1 (upsert_row_count "default_user" "doc-revenue" "q3.pdf"
                  "https://drive.google.com/file/d/doc-revenue/view" ""
                  12 "Drive" (Some "Q3 revenue grew 12%")
                  (Some (EmbJson [1; 0])) alice_world Hnd) Hin).
Defined.

(** ** Store and retriever together *)

Lemma spec_candidates_length (query_emb : vec) (rows : list row) :
  (List.length (spec_candidates query_emb rows) <= List.length rows)%nat.
Proof.
  unfold spec_candidates. induction rows as [|r rows IH]; [simpl; lia|].
  cbn [flat_map]. rewrite length_app. cbn [List.length].
  destruct (score_row query_emb r) as [[h|]|e]; cbn [List.length]; lia.
Qed.

Lemma spec_candidates_app (query_emb : vec) (rows1 rows2 : list row) :
  spec_candidates query_emb (rows1 ++ rows2)
  = (spec_candidates query_emb rows1
     ++ spec_candidates query_emb rows2)%list.
Proof. unfold spec_candidates. apply flat_map_app. Qed.

Lemma select_embedded_length (scope : option string) (rows : list row) :
  (List.length (select_embedded scope rows) <= List.length rows)%nat.
Proof. unfold select_embedded. apply filter_length_le. Qed.

Section RoundTrip.

Variable E : collaborators.

(** What was saved is found.  After a document is saved for a user with
    the embedding [v], a search of that user whose query lies within the
    threshold of [v] and asks for more results than the table had rows
    returns an entry for the document, with its metadata, the beginning of
    its text and the similarity as score. *)
Theorem saved_document_is_found (user_id file_id name drive_link
    modified_time : string) (size : Z) (parent text : string) (v : vec)
    (query model : string) (query_emb : vec) (s : R) (k : nat)
    (w : world) :
  str_truthy query = true ->
  str_truthy user_id = true ->
  embed_model w = Some model ->
  encode E model query = Ok query_emb ->
  cosine_sim query_emb v = Ok (Fin s) ->
  1 / 10 < s ->
  (List.length (db w) < k)%nat ->
  exists hits w',
    semantic_search E query (Z.of_nat k) (Some user_id)
      (snd (save_pdf_to_db user_id file_id name drive_link modified_time
              size parent (Some text) (Some (EmbJson v)) w))
    = (Ok hits, w')
    /\ In (mk_hit file_id name drive_link modified_time size parent
             (snippet_of (Some text)) (Fin s)) hits.
Proof.
  intros Hq Hu Hm Henc Hcos Hs Hk.
  set (w1 := snd (save_pdf_to_db user_id file_id name drive_link
                    modified_time size parent (Some text)
                    (Some (EmbJson v)) w)).
  assert (Hm1 : embed_model w1 = Some model) by exact Hm.
  rewrite (semantic_search_loaded E query (Z.of_nat k) (Some user_id) w1
             model query_emb Hq Hm1 Henc).
  eexists _, _. split; [reflexivity|].
  rewrite py_slice_to_count.
  set (new := mk_row (db_seq w + 1) user_id file_id name drive_link
                modified_time size parent (Some text) (Some (EmbJson v))
                (clock w)).
  assert (Hdb : db w1 = insert_or_replace new (db w)) by reflexivity.
  assert (Hscope : scope_of (Some user_id) = Some user_id)
    by (unfold scope_of; rewrite Hu; reflexivity).
  set (cands := spec_candidates query_emb
                  (select_embedded (scope_of (Some user_id)) (db w1))).
  assert (Hlen : (List.length (py_sorted_desc h_score cands) <= k)%nat).
  { rewrite (Permutation_length (py_sorted_desc_perm h_score cands)).
    unfold cands. etransitivity; [apply spec_candidates_length|].
    etransitivity; [apply select_embedded_length|].
    rewrite Hdb. unfold insert_or_replace. rewrite length_app.
    cbn [List.length].
    pose proof (filter_length_le
                  (fun r => negb (String.eqb (r_file_id r) (r_file_id new)))
                  (db w)). lia. }
  rewrite firstn_all2 by exact Hlen.
  apply (Permutation_in _ (Permutation_sym (py_sorted_desc_perm _ cands))).
  unfold cands. rewrite Hdb, Hscope. unfold insert_or_replace, select_embedded.
  rewrite filter_app, spec_candidates_app. apply in_or_app; right.
  cbn [filter r_embedding r_user_id new]. rewrite String.eqb_refl.
  unfold spec_candidates. cbn [flat_map]. rewrite app_nil_r.
  unfold score_row, new. cbn [r_embedding emb_truthy json_loads].
  rewrite Hcos. cbn [float_gtb].
  destruct (Rlt_dec (1 / 10) s) as [_|Hn]; [|contradiction].
  left. reflexivity.
Qed.

End RoundTrip.

Lemma saved_document_is_found_witness :
  exists hits w',
    semantic_search (demo_env post_500) demo_query (Z.of_nat 10)
      (Some "default_user")
      (snd (save_pdf_to_db "default_user" "doc-plan" "plan.pdf"
              "https://drive.google.com/file/d/doc-plan/view" "" 7 "Drive"
              (Some "Plan for Q4") (Some (EmbJson [1; 0])) library_world))
    = (Ok hits, w')
    /\ In (mk_hit "doc-plan" "plan.pdf"
             "https://drive.google.com/file/d/doc-plan/view" "" 7 "Drive"
             (snippet_of (Some "Plan for Q4")) (Fin 1)) hits.
Proof.
  apply (saved_document_is_found (demo_env post_500) "default_user"
           "doc-plan" "plan.pdf"
           "https://drive.google.com/file/d/doc-plan/view" "" 7 "Drive"
           "Plan for Q4" [1; 0] demo_query "all-MiniLM-L6-v2" [1; 0] 1 10
           library_world); try reflexivity.
  - apply cosine_sim_self. rewrite np_norm_unit. lra.
  - lra.
  - simpl. lia.
Defined.

(** ** Import: accounting *)

Section ImportAccounting.

Variable E : collaborators.

(** A turn of the import loop leaves the session as it was. *)
Lemma import_pdfs_iter_session (i total_pdfs : nat) (pdf : pdf_file)
    (n : nat) (w : world) :
  let w' := snd (import_pdfs_iter E i total_pdfs pdf n w) in
  import_complete w' = import_complete w
  /\ google_credentials w' = google_credentials w
  /\ ss_user_id w' = ss_user_id w
  /\ conversation_history w' = conversation_history w
  /\ clock w' = clock w.
Proof.
  destruct (import_pdfs_iter_cases E i total_pdfs pdf n w)
    as (svc & w0 & text & w1 & _ & _ & F
        & [(_ & Hrun) | [(_ & e & w2 & _ & F2 & Hrun)
                        | (_ & v & w2 & _ & F2 & Hrun)]]);
    cbv zeta; rewrite Hrun;
    cbn [snd import_complete google_credentials ss_user_id
         conversation_history clock set_log set_db].
  - destruct F as (_ & _ & Hc & Hu & Hg & Hh & Hi & _). repeat split; trivial.
  - destruct F2 as (_ & _ & Hc & Hu & Hg & Hh & Hi & _).
    repeat split; trivial.
  - destruct F2 as (_ & _ & Hc & Hu & Hg & Hh & Hi & _).
    repeat split; trivial.
Qed.

Lemma batch_run_session (total_pdfs i n n' : nat) (pdfs : list pdf_file)
    (w w' : world) :
  batch_run E total_pdfs i pdfs n w n' w' ->
  import_complete w' = import_complete w
  /\ google_credentials w' = google_credentials w.
Proof.
  induction 1 as [i n w | i pdf rest n n1 n2 w w1 w2 Hrun _ _ IH].
  - split; reflexivity.
  - pose proof (import_pdfs_iter_session i total_pdfs pdf n w) as Hs.
    cbv zeta in Hs. rewrite Hrun in Hs. cbn [snd] in Hs.
    destruct Hs as (Hi & Hg & _). destruct IH as [IHi IHg].
    split; congruence.
Qed.

(** The count goes up by one with every import and with nothing else. *)
Lemma batch_run_count (total_pdfs i n n' : nat) (pdfs : list pdf_file)
    (w w' : world) :
  batch_run E total_pdfs i pdfs n w n' w' ->
  (n <= n' <= n + List.length pdfs)%nat
  /\ db_seq w' = (db_seq w + Z.of_nat (n' - n))%Z
  /\ (n' = n -> db w' = db w).
Proof.
  induction 1 as [i n w | i pdf rest n n1 n2 w w1 w2 _ Hout _ IH].
  - split; [simpl; lia|]. split; [|reflexivity].
    replace (n - n)%nat with 0%nat by lia. simpl. lia.
  - destruct IH as (Hn & Hseq & Hdb). cbn [List.length].
    destruct Hout as [(Hn1 & text & v & _ & _ & Hs)
                     | (Hn1 & Hd & Hs & _)].
    + split; [lia|]. split; [rewrite Hseq, Hs; lia|]. intros Heq. lia.
    + split; [lia|]. split; [rewrite Hseq, Hs, Hn1; reflexivity|].
      intros Heq. rewrite Hdb, Hd; [reflexivity | lia].
Qed.

(** [import_pdfs] from beginning to end. *)
Lemma import_pdfs_finish (selected_pdfs : list pdf_file) (w : world) :
  exists n w0 w1 w',
    import_pdfs E selected_pdfs w = (Ok n, w')
    /\ db w0 = db w /\ db_seq w0 = db_seq w
    /\ import_complete w0 = import_complete w
    /\ google_credentials w0 = google_credentials w
    /\ logs display_event w w0
    /\ import_pdfs_loop E 0 (List.length selected_pdfs) selected_pdfs 0 w0
       = (Ok n, w1)
    /\ batch_run E (List.length selected_pdfs) 0 selected_pdfs 0 w0 n w1
    /\ db w' = db w1 /\ db_seq w' = db_seq w1
    /\ import_complete w'
       = (if (0 <? n)%nat then true else import_complete w1)
    /\ exists shown,
         Forall display_event shown
         /\ log w'
            = (log w1 ++ shown
               ++ (if (0 <? n)%nat then [Rerun]
                   else [Ui StError
                           "No documents were successfully saved. Please try importing again."]))%list.
Proof.
  unfold import_pdfs.
  set (total := List.length selected_pdfs).
  set (w0 := set_log
               (log w
                ++ [Progress 0 1;
                    Ui StInfo ("Importing " ++ str_of_nat total
                               ++ " PDFs for user: " ++ ss_user_id w)]) w).
  destruct (import_pdfs_loop_runs E total selected_pdfs 0 0 w0)
    as (n & w1 & Hloop & Hbatch).
  exists n, w0, w1.
  assert (Hstart : forall B (k : nat -> M B),
            (emit (Progress 0 1) ;;;
             user_id <- get ss_user_id ;;
             st_info ("Importing " ++ str_of_nat total ++ " PDFs for user: "
                      ++ user_id) ;;;
             successful_imports <- import_pdfs_loop E 0 total selected_pdfs 0 ;;
             k successful_imports) w
            = k n w1).
  { intros B k. unfold st_info, emit, modify, get, bind at 1 2 3.
    cbn [fst snd log set_log ss_user_id].
    unfold set_log at 1. cbn [log ss_user_id db db_seq clock embed_model
      google_credentials conversation_history import_complete].
    rewrite <- app_assoc. cbn [app]. fold w0.
    apply bind_ok. exact Hloop. }
  assert (Hw0 : logs display_event w w0).
  { eexists. split; [reflexivity|]. repeat constructor. }
  rewrite Hstart.
  unfold status_text, st_success, st_info, st_error, emit, modify, ret, bind.
  destruct (0 <? n)%nat; eexists; (split; [reflexivity|]);
    cbn [db db_seq import_complete log set_log set_import_complete
         google_credentials];
    repeat (split; [first [reflexivity | exact Hbatch | exact Hloop
                          | exact Hw0]|]).
  - exists [Ui StatusText "Import completed!";
            Ui StSuccess ("Successfully imported " ++ str_of_nat n
                          ++ " out of " ++ str_of_nat total ++ " PDFs");
            Ui StInfo "Import successful! The page will refresh to show navigation options."].
    split; [repeat constructor|].
    rewrite <- !app_assoc. reflexivity.
  - exists [Ui StatusText "Import completed!";
            Ui StSuccess ("Successfully imported " ++ str_of_nat n
                          ++ " out of " ++ str_of_nat total ++ " PDFs")].
    split; [repeat constructor|].
    rewrite <- !app_assoc. reflexivity.
Qed.

End ImportAccounting.

Section ImportTotals.

Variable E : collaborators.

(** The books of an import balance.  [import_pdfs] returns the number of
    documents it wrote, which is at most the size of the batch and is the
    number of row ids it used; it sets [import_complete] and asks for a
    rerun exactly when that number is positive, and ends on the error
    message, the table unchanged, when it is zero. *)
Theorem import_accounting (selected_pdfs : list pdf_file) (w : world) :
  exists n w',
    import_pdfs E selected_pdfs w = (Ok n, w')
    /\ (n <= List.length selected_pdfs)%nat
    /\ db_seq w' = (db_seq w + Z.of_nat n)%Z
    /\ import_complete w'
       = (if (0 <? n)%nat then true else import_complete w)
    /\ (exists shown,
          log w'
          = (shown
             ++ (if (0 <? n)%nat then [Rerun]
                 else [Ui StError
                         "No documents were successfully saved. Please try importing again."]))%list)
    /\ (n = 0%nat -> db w' = db w).
Proof.
  destruct (import_pdfs_finish E selected_pdfs w)
    as (n & w0 & w1 & w' & Hrun & Hdb0 & Hseq0 & Hic0 & _ & _ & _ & Hbatch
        & Hdb' & Hseq' & Hic' & shown & _ & Hlog).
  destruct (batch_run_count E _ _ _ _ _ _ _ Hbatch) as (Hn & Hseq & Hdb).
  destruct (batch_run_session E _ _ _ _ _ _ _ Hbatch) as (Hic & _).
  exists n, w'. split; [exact Hrun|].
  split; [lia|].
  split; [rewrite Hseq', Hseq, Hseq0; f_equal; f_equal; lia|].
  split; [rewrite Hic', Hic, Hic0; reflexivity|].
  split; [exists (log w1 ++ shown)%list; rewrite Hlog, app_assoc; reflexivity|].
  intros Hz. rewrite Hdb', Hdb, Hdb0; [reflexivity | lia].
Qed.

(** A turn of the loop without credentials: no download is tried. *)
Lemma import_pdfs_iter_signed_out (i total_pdfs : nat) (pdf : pdf_file)
    (n : nat) (w : world) :
  google_credentials w = None ->
  import_pdfs_iter E i total_pdfs pdf n w
  = (Ok n,
     set_log
       (log w
        ++ [Ui StatusText (processing_msg i total_pdfs pdf);
            Ui StError ("Error downloading PDF content: "
                        ++ exn_str E AttributeError);
            Ui StWarning ("No text content extracted from: "
                          ++ pdf_name pdf);
            Progress (i + 1) total_pdfs]) w).
Proof.
  intros Hc.
  destruct (import_pdfs_iter_cases E i total_pdfs pdf n w)
    as (svc & w0 & text & w1 & Hinit & Hdl & _ & Hcases).
  assert (Hinit' : init_drive_service E
                     (snd (status_text (processing_msg i total_pdfs pdf) w))
                   = (Ok None,
                      snd (status_text (processing_msg i total_pdfs pdf) w))).
  { unfold init_drive_service, is_authenticated, bind, get, ret.
    cbn [status_text emit modify snd google_credentials set_log].
    unfold status_text, emit, modify. cbn [snd google_credentials set_log].
    rewrite Hc. reflexivity. }
  rewrite Hinit' in Hinit. injection Hinit as <- <-.
  assert (Hdl' : download_pdf_content E None (pdf_id pdf)
                   (snd (status_text (processing_msg i total_pdfs pdf) w))
                 = (Ok "",
                    set_log
                      (log w
                       ++ [Ui StatusText (processing_msg i total_pdfs pdf);
                           Ui StError ("Error downloading PDF content: "
                                       ++ exn_str E AttributeError)]) w)).
  { unfold download_pdf_content, try_except, raise, bind, st_error,
      status_text, emit, modify, ret. cbn [fst snd].
    unfold set_log. cbn [db db_seq clock embed_model ss_user_id
      google_credentials conversation_history import_complete log].
    rewrite <- app_assoc. reflexivity. }
  pose proof (eq_trans (eq_sym Hdl) Hdl') as Heq.
  injection Heq as -> ->.
  destruct Hcases as [(_ & Hrun) | [(Ht & _) | (Ht & _)]];
    try discriminate Ht.
  rewrite Hrun. unfold set_log.
  cbn [db db_seq clock embed_model ss_user_id google_credentials
       conversation_history import_complete log].
  rewrite <- app_assoc. reflexivity.
Qed.

Lemma import_pdfs_loop_signed_out (total_pdfs : nat)
    (pdfs : list pdf_file) (i n : nat) (w : world) :
  google_credentials w = None ->
  exists w',
    import_pdfs_loop E i total_pdfs pdfs n w = (Ok n, w')
    /\ db w' = db w /\ db_seq w' = db_seq w
    /\ logs display_event w w'
    /\ forall pdf, In pdf pdfs ->
         In (Ui StWarning ("No text content extracted from: "
                           ++ pdf_name pdf)) (log w').
Proof.
  revert i w; induction pdfs as [|pdf rest IH]; intros i w Hc.
  - exists w. split; [reflexivity|]. split; [reflexivity|].
    split; [reflexivity|]. split; [apply logs_refl | intros pdf []].
  - pose proof (import_pdfs_iter_signed_out i total_pdfs pdf n w Hc) as Hrun.
    set (w1 := set_log
                 (log w
                  ++ [Ui StatusText (processing_msg i total_pdfs pdf);
                      Ui StError ("Error downloading PDF content: "
                                  ++ exn_str E AttributeError);
                      Ui StWarning ("No text content extracted from: "
                                    ++ pdf_name pdf);
                      Progress (i + 1) total_pdfs]) w) in *.
    destruct (IH (S i) w1 Hc) as (w' & Hloop & Hdb & Hseq & Hlogs & Hwarn).
    exists w'. split.
    { cbn [import_pdfs_loop]. rewrite (bind_ok _ _ _ _ _ Hrun). exact Hloop. }
    split; [exact Hdb|]. split; [exact Hseq|]. split.
    { eapply logs_trans; [|exact Hlogs].
      eexists. split; [reflexivity|]. repeat constructor. }
    intros p [<-|Hp]; [|apply Hwarn, Hp].
    destruct Hlogs as (events & Hl & _). rewrite Hl.
    apply in_or_app; left. cbn [log w1 set_log].
    apply in_or_app; right. right; right; left; reflexivity.
Qed.

(** Signed out, an import imports nothing: no download and no embedding is
    tried and the table is not written; every document of the batch is
    reported with a warning, and the count is 0. *)
Theorem import_signed_out (selected_pdfs : list pdf_file) (w : world) :
  google_credentials w = None ->
  exists w',
    import_pdfs E selected_pdfs w = (Ok 0%nat, w')
    /\ db w' = db w /\ db_seq w' = db_seq w
    /\ logs display_event w w'
    /\ forall pdf, In pdf selected_pdfs ->
         In (Ui StWarning ("No text content extracted from: "
                           ++ pdf_name pdf)) (log w').
Proof.
  intros Hc.
  destruct (import_pdfs_finish E selected_pdfs w)
    as (n & w0 & w1 & w' & Hrun & Hdb0 & Hseq0 & _ & Hc0 & Hlogs0 & Hloop
        & _ & Hdb' & Hseq' & _ & shown & Hshown & Hlog).
  rewrite Hc in Hc0.
  destruct (import_pdfs_loop_signed_out (List.length selected_pdfs)
              selected_pdfs 0 0 w0 Hc0)
    as (w1' & Hloop' & Hdb1 & Hseq1 & Hlogs1 & Hwarn).
  rewrite Hloop' in Hloop. injection Hloop as <- <-.
  exists w'. split; [exact Hrun|].
  split; [rewrite Hdb', Hdb1, Hdb0; reflexivity|].
  split; [rewrite Hseq', Hseq1, Hseq0; reflexivity|].
  split.
  - eapply logs_trans; [exact Hlogs0|].
    eapply logs_trans; [exact Hlogs1|].
    eexists. split; [exact Hlog|].
    apply Forall_app. split; [exact Hshown|]. repeat constructor.
  - intros pdf Hp. rewrite Hlog. apply in_or_app; left. apply Hwarn, Hp.
Qed.

Lemma ids_fresh_insert (new : row) (rows : list row) (seq : Z) :
  NoDup (map r_id rows) ->
  Forall (fun r => (r_id r <= seq)%Z) rows ->
  r_id new = (seq + 1)%Z ->
  NoDup (map r_id (insert_or_replace new rows))
  /\ Forall (fun r => (r_id r <= seq + 1)%Z) (insert_or_replace new rows).
Proof.
  intros Hnodup Hle Hnew. unfold insert_or_replace. split.
  - rewrite map_app. apply NoDup_app.
    + apply column_filter, Hnodup.
    + constructor; [intros [] | constructor].
    + intros id Hin [<-|[]].
      apply in_map_iff in Hin. destruct Hin as (r & Hid & Hr).
      apply filter_In in Hr. rewrite Forall_forall in Hle.
      specialize (Hle r (proj1 Hr)). lia.
  - apply Forall_app. split.
    + apply Forall_forall. intros r Hr. apply filter_In in Hr.
      rewrite Forall_forall in Hle. specialize (Hle r (proj1 Hr)). lia.
    + constructor; [lia | constructor].
Qed.

Lemma batch_run_wellformed (total_pdfs i n n' : nat)
    (pdfs : list pdf_file) (w w' : world) :
  batch_run E total_pdfs i pdfs n w n' w' ->
  NoDup (map r_file_id (db w)) -> ids_fresh w ->
  NoDup (map r_file_id (db w')) /\ ids_fresh w'.
Proof.
  induction 1 as [i n w | i pdf rest n n1 n2 w w1 w2 _ Hout _ IH];
    intros Hfid Hids; [split; assumption|].
  apply IH.
  - destruct Hout as [(_ & text & v & _ & Hdb & _) | (_ & Hdb & _)];
      rewrite Hdb; [apply insert_or_replace_NoDup|]; exact Hfid.
  - destruct Hids as [Hnd Hle].
    destruct Hout as [(_ & text & v & _ & Hdb & Hs) | (_ & Hdb & Hs & _)];
      unfold ids_fresh; rewrite Hdb, Hs.
    + apply ids_fresh_insert; trivial.
    + split; assumption.
Qed.

(** An import keeps the table well formed: the file ids stay distinct,
    and so do the row ids, none beyond the sequence. *)
Theorem import_keeps_table_wellformed (selected_pdfs : list pdf_file)
    (w : world) :
  NoDup (map r_file_id (db w)) -> ids_fresh w ->
  NoDup (map r_file_id (db (snd (import_pdfs E selected_pdfs w))))
  /\ ids_fresh (snd (import_pdfs E selected_pdfs w)).
Proof.
  intros Hfid Hids.
  destruct (import_pdfs_finish E selected_pdfs w)
    as (n & w0 & w1 & w' & Hrun & Hdb0 & Hseq0 & _ & _ & _ & _ & Hbatch
        & Hdb' & Hseq' & _).
  rewrite Hrun. cbn [snd].
  assert (Hfid0 : NoDup (map r_file_id (db w0))) by (rewrite Hdb0; exact Hfid).
  assert (Hids0 : ids_fresh w0)
    by (unfold ids_fresh; rewrite Hdb0, Hseq0; exact Hids).
  destruct (batch_run_wellformed _ _ _ _ _ _ _ Hbatch Hfid0 Hids0)
    as [H1 H2].
  unfold ids_fresh. rewrite Hdb', Hseq'. split; assumption.
Qed.

End ImportTotals.

Lemma import_signed_out_witness :
  exists w',
    import_pdfs (demo_env post_500) demo_batch signed_out_world
    = (Ok 0%nat, w')
    /\ db w' = db signed_out_world /\ db_seq w' = db_seq signed_out_world
    /\ logs display_event signed_out_world w'
    /\ forall pdf, In pdf demo_batch ->
         In (Ui StWarning ("No text content extracted from: "
                           ++ pdf_name pdf)) (log w').
Proof.
  apply (import_signed_out (demo_env post_500) demo_batch signed_out_world).
  reflexivity.
Defined.

Lemma import_keeps_table_wellformed_witness :
  NoDup (map r_file_id
           (db (snd (import_pdfs (demo_env post_500) demo_batch
                       alice_world))))
  /\ ids_fresh (snd (import_pdfs (demo_env post_500) demo_batch alice_world)).
Proof.
  apply (import_keeps_table_wellformed (demo_env post_500) demo_batch
           alice_world).
  - cbn. constructor; [intros [] | constructor].
  - split; cbn.
    + constructor; [intros [] | constructor].
    + constructor; [unfold alice_row; cbn; lia | constructor].
Defined.

(** ** The Drive session and the download *)

Section DriveAccess.

Variable E : collaborators.

(** [is_authenticated] says yes only with credentials that are valid or
    that it could refresh. *)
Lemma is_authenticated_true (w : world) :
  is_authenticated E w = (Ok true, w) ->
  exists c,
    google_credentials w = Some c
    /\ (cred_valid c = true \/ refresh E c = None).
Proof.
  unfold is_authenticated, bind, get, ret.
  destruct (google_credentials w) as [c|]; [|discriminate].
  intros H. exists c. split; [reflexivity|].
  destruct (cred_valid c); [left; reflexivity|]. cbn [negb] in H.
  destruct (cred_refresh_token c) as [token|]; [|discriminate].
  destruct (str_truthy token); [|discriminate].
  destruct (refresh E c); [discriminate | right; reflexivity].
Qed.

(** [init_drive_service] never raises.  Without credentials it returns
    [None] and shows nothing; a service it returns was built from the
    credentials of the session, which were valid or could be refreshed;
    when the build fails it shows the error and returns [None]. *)
Theorem drive_service_outcomes (w : world) :
  exists svc w',
    init_drive_service E w = (Ok svc, w')
    /\ (google_credentials w = None -> svc = None /\ w' = w)
    /\ (forall s, svc = Some s ->
          w' = w
          /\ exists c,
               google_credentials w = Some c /\ build_drive E c = Ok s
               /\ (cred_valid c = true \/ refresh E c = None))
    /\ (svc = None ->
          w' = w
          \/ exists e,
               w' = set_log
                      (log w
                       ++ [Ui StError ("Error creating Drive service: "
                                       ++ exn_str E e)]) w).
Proof.
  unfold init_drive_service.
  destruct (is_authenticated_runs E w) as [b Hb].
  rewrite (bind_ok _ _ _ _ _ Hb).
  destruct b; cbn [negb].
  - destruct (is_authenticated_true w Hb) as (c & Hc & Hv).
    unfold try_except, bind, get, lift, ret, raise, st_error, emit, modify.
    rewrite Hc. destruct (build_drive E c) as [s|e] eqn:Hbuild; cbn [fst snd].
    + exists (Some s), w. split; [reflexivity|].
      split; [intros H; discriminate H|].
      split; [|intros H; discriminate H].
      intros s0 Hs0. injection Hs0 as <-. split; [reflexivity|].
      exists c. repeat split; trivial.
    + eexists None, _. split; [reflexivity|].
      split; [intros H; discriminate H|].
      split; [intros s Hs; discriminate Hs|].
      intros _. right. exists e. reflexivity.
  - exists None, w. split; [reflexivity|].
    split; [intros _; split; reflexivity|].
    split; [intros s Hs; discriminate Hs|].
    intros _. left; reflexivity.
Qed.

Lemma str_app_assoc (a b c : string) : ((a ++ b) ++ c = a ++ (b ++ c))%string.
Proof. induction a as [|ch a IH]; cbn; [reflexivity | rewrite IH; reflexivity]. Qed.

Lemma str_app_empty (a : string) : (a ++ "" = a)%string.
Proof. induction a as [|ch a IH]; cbn; [reflexivity | rewrite IH; reflexivity]. Qed.

(** The page loop of [download_pdf_content] adds the readable pages to
    the text it has. *)
Lemma page_loop_text (pages : list (res string)) (text_content : string) :
  fold_left add_page pages text_content
  = (text_content ++ pages_text pages)%string.
Proof.
  revert text_content; induction pages as [|page pages IH];
    intros text_content.
  - cbn. symmetry; apply str_app_empty.
  - cbn [fold_left]. rewrite IH. destruct page as [t|e].
    + unfold pages_text. cbn [ok_pages flat_map app fold_right add_page].
      rewrite !str_app_assoc. reflexivity.
    + reflexivity.
Qed.

(** [download_pdf_content] never raises, and its text is that of the pages
    that could be read: every such page followed by a newline, in page
    order, the whole stripped.  A page whose extraction raises is left out
    without a message; a download that fails as a whole, or a missing
    service, gives the empty text and one error message. *)
Theorem download_text_of_readable_pages (svc : option service)
    (file_id : string) (w : world) :
  exists text w',
    download_pdf_content E svc file_id w = (Ok text, w')
    /\ match svc with
       | Some s =>
           match fetch_pages E s file_id with
           | Ok pages =>
               text = py_strip E (pages_text pages)
               /\ log w' = (log w ++ [DriveFetch file_id])%list
           | Raise e =>
               text = ""
               /\ log w'
                  = (log w
                     ++ [DriveFetch file_id;
                         Ui StError ("Error downloading PDF content: "
                                     ++ exn_str E e)])%list
           end
       | None =>
           text = ""
           /\ log w'
              = (log w
                 ++ [Ui StError ("Error downloading PDF content: "
                                 ++ exn_str E AttributeError)])%list
       end.
Proof.
  unfold download_pdf_content, try_except, bind, lift, raise, st_error, emit,
    modify, ret.
  destruct svc as [s|]; cbn [fst snd].
  - destruct (fetch_pages E s file_id) as [pages|e]; cbn [fst snd].
    + eexists _, _. split; [reflexivity|]. split.
      * rewrite page_loop_text. reflexivity.
      * reflexivity.
    + eexists _, _. split; [reflexivity|]. split; [reflexivity|].
      cbn [log set_log]. rewrite <- app_assoc. reflexivity.
  - eexists _, _. split; [reflexivity|]. split; reflexivity.
Qed.

End DriveAccess.

(** ** The listing of the Drive *)

Section ListingFacts.

Variable E : collaborators.
Variable D : drive_api.

Lemma list_item_fields (s : service) (item : drive_item) (pdf : listed_pdf) :
  list_item D s item = Ok pdf -> lists_as D s item pdf.
Proof.
  unfold list_item, lists_as.
  destruct (item_id item) as [id|]; [|discriminate].
  destruct (item_name item) as [name|]; [|discriminate].
  destruct (match item_size item with
            | Some size => py_int D size
            | None => Ok 0%Z
            end) as [z|e]; [|discriminate].
  intros H. injection H as <-. cbn. repeat split.
Qed.

Lemma list_item_ok (s : service) (item : drive_item) :
  item_ok D item = true -> exists pdf, list_item D s item = Ok pdf.
Proof.
  unfold item_ok, list_item.
  destruct (item_id item) as [id|]; [|discriminate].
  destruct (item_name item) as [name|]; [|discriminate].
  destruct (item_size item) as [size|]; [|eexists; reflexivity].
  destruct (py_int D size) as [z|e]; [eexists; reflexivity | discriminate].
Qed.

Lemma list_item_bad (s : service) (item : drive_item) :
  item_ok D item = false -> exists e, list_item D s item = Raise e.
Proof.
  unfold item_ok, list_item.
  destruct (item_id item) as [id|]; [|eexists; reflexivity].
  destruct (item_name item) as [name|]; [|eexists; reflexivity].
  destruct (item_size item) as [size|]; [|discriminate].
  destruct (py_int D size) as [z|e]; [discriminate | eexists; reflexivity].
Qed.

Lemma list_items_ok (s : service) (items : list drive_item) :
  forallb (item_ok D) items = true ->
  exists pdfs,
    list_items D s items = Ok pdfs /\ Forall2 (lists_as D s) items pdfs.
Proof.
  induction items as [|item rest IH]; intros Hok.
  - exists []. split; [reflexivity | constructor].
  - cbn [forallb] in Hok. apply andb_prop in Hok. destruct Hok as [Hi Hr].
    destruct (list_item_ok s item Hi) as (pdf & Hpdf).
    destruct (IH Hr) as (pdfs & Hpdfs & Hall).
    exists (pdf :: pdfs). cbn [list_items]. rewrite Hpdf, Hpdfs.
    split; [reflexivity|]. constructor; [|exact Hall].
    apply list_item_fields, Hpdf.
Qed.

Lemma list_items_bad (s : service) (items : list drive_item) :
  forallb (item_ok D) items = false ->
  exists e, list_items D s items = Raise e.
Proof.
  induction items as [|item rest IH]; intros Hbad; [discriminate Hbad|].
  cbn [forallb] in Hbad. cbn [list_items].
  destruct (item_ok D item) eqn:Hi.
  - destruct (list_item_ok s item Hi) as (pdf & ->).
    destruct (IH Hbad) as (e & ->). exists e; reflexivity.
  - destruct (list_item_bad s item Hi) as (e & ->). exists e; reflexivity.
Qed.

(** [list_all_pdfs] never raises: a listing that fails, for any reason,
    is the empty list and one error message; a listing that succeeds
    shows nothing. *)
Theorem list_all_pdfs_never_raises (svc : option service) (w : world) :
  exists pdfs w',
    list_all_pdfs E D svc w = (Ok pdfs, w')
    /\ (w' = w
        \/ (pdfs = []
            /\ exists e,
                 w' = set_log
                        (log w
                         ++ [Ui StError ("Error listing PDFs: "
                                         ++ exn_str E e)]) w)).
Proof.
  unfold list_all_pdfs, try_except, bind, lift, raise, st_error, emit,
    modify, ret.
  destruct svc as [s|]; cbn [fst snd].
  - destruct (files_list D s) as [results|e]; cbn [fst snd].
    + destruct (list_items D s (opt_default results [])) as [pdfs|e].
      * exists pdfs, w. split; [reflexivity | left; reflexivity].
      * eexists [], _. split; [reflexivity|]. right.
        split; [reflexivity | exists e; reflexivity].
    + eexists [], _. split; [reflexivity|]. right.
      split; [reflexivity | exists e; reflexivity].
  - eexists [], _. split; [reflexivity|]. right.
    split; [reflexivity | exists AttributeError; reflexivity].
Qed.

(** When every item the Drive returns has an id, a name and a size that
    reads as an integer (or none), the listing has one entry for each
    item, in the order of the Drive, under the item's id and name, with
    the link to the file and the folder name, and nothing is shown. *)
Theorem listing_one_entry_per_item (s : service) (items : list drive_item)
    (w : world) :
  files_list D s = Ok (Some items) ->
  forallb (item_ok D) items = true ->
  exists pdfs,
    list_all_pdfs E D (Some s) w = (Ok pdfs, w)
    /\ Forall2 (lists_as D s) items pdfs.
Proof.
  intros Hlist Hok.
  destruct (list_items_ok s items Hok) as (pdfs & Hpdfs & Hall).
  exists pdfs. split; [|exact Hall].
  unfold list_all_pdfs, try_except, bind, lift, ret.
  rewrite Hlist. cbn [opt_default]. rewrite Hpdfs. reflexivity.
Qed.

(** One item that cannot be listed loses the whole listing: if an item
    the Drive returns has no id or no name, or a size that does not read
    as an integer, [list_all_pdfs] returns the empty list and shows an
    error, whatever the other items are. *)
Theorem bad_item_empties_listing (s : service) (items : list drive_item)
    (item : drive_item) (w : world) :
  files_list D s = Ok (Some items) ->
  In item items -> item_ok D item = false ->
  exists e,
    list_all_pdfs E D (Some s) w
    = (Ok [],
       set_log
         (log w ++ [Ui StError ("Error listing PDFs: " ++ exn_str E e)]) w).
Proof.
  intros Hlist Hin Hbad.
  assert (Hall : forallb (item_ok D) items = false).
  { destruct (forallb (item_ok D) items) eqn:Hf; [|reflexivity].
    rewrite forallb_forall in Hf. rewrite (Hf item Hin) in Hbad.
    discriminate Hbad. }
  destruct (list_items_bad s items Hall) as (e & He).
  exists e.
  unfold list_all_pdfs, try_except, bind, lift, ret, st_error, emit, modify.
  rewrite Hlist. cbn [opt_default]. rewrite He. reflexivity.
Qed.

(** The row an import writes for a listed document carries what the
    listing showed: the id and the name of the Drive item, the same link
    (built once by the listing and once by the import), size, folder and
    modification time; it belongs to the user of the session. *)
Theorem stored_row_matches_listing (s : service) (item : drive_item)
    (pdf : listed_pdf) (i total_pdfs n : nat) (w w' : world) :
  list_item D s item = Ok pdf ->
  import_pdfs_iter E i total_pdfs (pdf_of_listed pdf) n w
  = (Ok (n + 1)%nat, w') ->
  exists r,
    In r (db w')
    /\ item_id item = Some (r_file_id r) /\ item_name item = Some (r_name r)
    /\ r_drive_link r = l_drive_link pdf
    /\ r_size r = l_size pdf /\ r_parent r = l_parent pdf
    /\ r_modified_time r = l_modifiedTime pdf
    /\ r_user_id r = ss_user_id w /\ r_id r = (db_seq w + 1)%Z.
Proof.
  intros Hitem Hrun.
  destruct (list_item_fields s item pdf Hitem)
    as (Hid & Hname & _ & _ & Hlink).
  destruct (import_pdfs_iter_outcome E i total_pdfs (pdf_of_listed pdf) n w)
    as (n1 & w1 & Hrun1 & Hout).
  rewrite Hrun in Hrun1. injection Hrun1 as <- <-.
  destruct Hout as [(_ & text & v & _ & Hdb & _) | (Hn & _)]; [|lia].
  exists (imported_row (pdf_of_listed pdf) text v w).
  split.
  { rewrite Hdb. unfold insert_or_replace. apply in_or_app; right.
    left; reflexivity. }
  unfold imported_row, pdf_of_listed.
  cbn [r_file_id r_name r_drive_link r_size r_parent r_modified_time
       r_user_id r_id pdf_id pdf_name pdf_size pdf_parent pdf_modifiedTime
       opt_default].
  rewrite Hlink. repeat split; assumption.
Qed.

Lemma shown_ids_distinct (k : nat) (pdfs : list listed_pdf) :
  NoDup (map l_id pdfs) -> NoDup (map l_id (firstn k pdfs)).
Proof.
  revert k; induction pdfs as [|pdf pdfs IH]; intros k Hnd.
  - rewrite firstn_nil. constructor.
  - destruct k as [|k]; [constructor|].
    cbn [firstn map] in *. apply NoDup_cons_iff in Hnd.
    destruct Hnd as [Hfresh Hrest].
    constructor; [|apply IH, Hrest].
    rewrite in_map_iff. intros (p & Hp & Hin).
    apply Hfresh. rewrite <- Hp. apply in_map. eapply firstn_In, Hin.
Qed.

Lemma kept_ids_distinct (keep : listed_pdf -> bool)
    (pdfs : list listed_pdf) :
  NoDup (map l_id pdfs) -> NoDup (map l_id (filter keep pdfs)).
Proof.
  induction pdfs as [|pdf pdfs IH]; intros Hnd; [constructor|].
  cbn [map] in Hnd. apply NoDup_cons_iff in Hnd.
  destruct Hnd as [Hfresh Hrest]. cbn [filter].
  destruct (keep pdf); [|apply IH, Hrest].
  cbn [map]. constructor; [|apply IH, Hrest].
  rewrite in_map_iff. intros (p & Hp & Hin).
  apply Hfresh. rewrite <- Hp. apply in_map.
  apply filter_In in Hin. apply Hin.
Qed.

(** One click imports at most 50 documents.  The selection holds only
    documents that are ticked, that are among the first 50 of the listing
    that match the search term, each once; so however many documents are
    listed and ticked, the import of the selection writes at most 50
    rows. *)
Theorem selection_is_bounded (search_term : string)
    (checked : string -> bool) (pdfs : list listed_pdf) :
  NoDup (map l_id pdfs) ->
  let selected := selected_pdfs D search_term checked pdfs in
  (List.length selected <= 50)%nat
  /\ NoDup (map l_id selected)
  /\ (forall pdf, In pdf selected ->
        checked (l_id pdf) = true
        /\ In pdf (firstn 50 (filtered_pdfs D search_term pdfs))
        /\ In pdf pdfs
        /\ (str_truthy search_term = true ->
            matches_search D search_term pdf = true))
  /\ (forall w, exists n w',
        import_pdfs E (map pdf_of_listed selected) w = (Ok n, w')
        /\ (n <= 50)%nat /\ (db_seq w' <= db_seq w + 50)%Z).
Proof.
  intros Hnd selected.
  assert (Hlen : (List.length selected <= 50)%nat).
  { unfold selected, selected_pdfs.
    eapply Nat.le_trans; [apply filter_length_le | apply firstn_le_length]. }
  split; [exact Hlen|]. split.
  { unfold selected, selected_pdfs.
    apply kept_ids_distinct, shown_ids_distinct.
    unfold filtered_pdfs. destruct (str_truthy search_term); [|exact Hnd].
    apply kept_ids_distinct, Hnd. }
  split.
  { intros pdf Hin. unfold selected, selected_pdfs in Hin.
    apply filter_In in Hin. destruct Hin as [Hshown Hticked].
    split; [exact Hticked|]. split; [exact Hshown|].
    apply firstn_In in Hshown. unfold filtered_pdfs in Hshown.
    destruct (str_truthy search_term).
    - apply filter_In in Hshown. destruct Hshown as [Hp Hm].
      split; [exact Hp | intros _; exact Hm].
    - split; [exact Hshown | intros H; discriminate H]. }
  intros w.
  destruct (import_pdfs_finish E (map pdf_of_listed selected) w)
    as (n & w0 & w1 & w' & Hrun & _ & Hseq0 & _ & _ & _ & _ & Hbatch
        & _ & Hseq' & _).
  destruct (batch_run_count E _ _ _ _ _ _ _ Hbatch) as (Hn & Hseq & _).
  rewrite length_map in Hn.
  exists n, w'. split; [exact Hrun|]. split; [lia|].
  rewrite Hseq', Hseq, Hseq0. lia.
Qed.

End ListingFacts.

Lemma listing_one_entry_per_item_witness :
  exists pdfs,
    list_all_pdfs (demo_env post_500)
      (demo_drive [revenue_item; blank_item]) (Some demo_service) demo_world
    = (Ok pdfs, demo_world)
    /\ Forall2
         (lists_as (demo_drive [revenue_item; blank_item]) demo_service)
         [revenue_item; blank_item] pdfs.
Proof.
  apply (listing_one_entry_per_item (demo_env post_500)
           (demo_drive [revenue_item; blank_item]) demo_service
           [revenue_item; blank_item] demo_world); reflexivity.
Defined.

Lemma bad_item_empties_listing_witness :
  exists e,
    list_all_pdfs (demo_env post_500)
      (demo_drive [revenue_item; nameless_item; blank_item])
      (Some demo_service) demo_world
    = (Ok [],
       set_log
         (log demo_world
          ++ [Ui StError ("Error listing PDFs: "
                          ++ exn_str (demo_env post_500) e)]) demo_world).
Proof.
  apply (bad_item_empties_listing (demo_env post_500)
           (demo_drive [revenue_item; nameless_item; blank_item])
           demo_service [revenue_item; nameless_item; blank_item]
           nameless_item demo_world).
  - reflexivity.
  - right; left; reflexivity.
  - reflexivity.
Defined.

Lemma stored_row_matches_listing_witness :
  exists r,
    In r (db (snd (import_pdfs_iter (demo_env post_500) 0 1
                     (pdf_of_listed revenue_listed) 0 demo_world)))
    /\ item_id revenue_item = Some (r_file_id r)
    /\ item_name revenue_item = Some (r_name r)
    /\ r_drive_link r = l_drive_link revenue_listed
    /\ r_size r = l_size revenue_listed
    /\ r_parent r = l_parent revenue_listed
    /\ r_modified_time r = l_modifiedTime revenue_listed
    /\ r_user_id r = ss_user_id demo_world
    /\ r_id r = (db_seq demo_world + 1)%Z.
Proof.
  apply (stored_row_matches_listing (demo_env post_500)
           (demo_drive [revenue_item]) demo_service revenue_item
           revenue_listed 0 1 0 demo_world).
  - reflexivity.
  - vm_compute. reflexivity.
Defined.

Lemma selection_is_bounded_witness :
  let selected :=
    selected_pdfs (demo_drive []) "q3" (fun _ => true)
      [revenue_listed; blank_listed] in
  (List.length selected <= 50)%nat
  /\ NoDup (map l_id selected)
  /\ (forall pdf, In pdf selected ->
        (fun _ : string => true) (l_id pdf) = true
        /\ In pdf (firstn 50 (filtered_pdfs (demo_drive []) "q3"
                                [revenue_listed; blank_listed]))
        /\ In pdf [revenue_listed; blank_listed]
        /\ (str_truthy "q3" = true ->
            matches_search (demo_drive []) "q3" pdf = true))
  /\ (forall w, exists n w',
        import_pdfs (demo_env post_500) (map pdf_of_listed selected) w
        = (Ok n, w')
        /\ (n <= 50)%nat /\ (db_seq w' <= db_seq w + 50)%Z).
Proof.
  apply (selection_is_bounded (demo_env post_500) (demo_drive []) "q3"
           (fun _ => true) [revenue_listed; blank_listed]).
  cbn. constructor.
  - intros [H|[]]. discriminate H.
  - constructor; [intros [] | constructor].
Defined.
